(** * Canvas Roll Call attendance export

    A shallow embedding of [attendance_export.py] and the properties its
    specification states about it.

    The script is a straight-line orchestration of calls that leave the
    process (three HTTP requests, a headless Chrome session) wrapped in
    Python's [try]/[except]/[finally].  The embedding keeps that shape:

    - the outcome of every call that leaves the process is read from a
      [world] record, so a theorem quantified over worlds speaks about
      every behaviour of the remote services, the browser and the clock;
    - Python's exceptions are explicit: a computation returns a value or
      raises, and [try_except] / [try_finally] follow the language rules
      (a handler only sees the classes it names, [sys.exit] raises
      [SystemExit], which no handler of the script names);
    - everything observable is written to a trace of events: the helper
      functions live in a writer-and-exception monad [W], and [main],
      whose cleanup block reads three of its local variables, in the
      same monad with those locals as state, [M].

    The calendar arithmetic of the [datetime] module ([toordinal],
    [fromordinal], [weekday], [strftime]) is embedded from its reference
    implementation, because the date range policy is stated on calendar
    dates while the function returns formatted strings. *)

From Stdlib Require Import ZArith List String Ascii Bool Lia.
From Stdlib Require Import DecimalString.
From ExtLib Require Import Structures.Monad.
Import ListNotations.
Import MonadNotation.

Local Open Scope monad_scope.
Local Open Scope string_scope.
Local Open Scope Z_scope.

(** ** The [datetime] substrate *)

Module Datetime.

(** A calendar date, as [datetime] stores it.  The time of day is left
    out: the script only subtracts whole days and prints [%m/%d/%Y]. *)
Record date : Type := mkdate { year : Z; month : Z; day : Z }.

Definition MAXORDINAL : Z := 3652059.   (* date(9999, 12, 31).toordinal() *)
Definition DI400Y : Z := 146097.
Definition DI100Y : Z := 36524.
Definition DI4Y : Z := 1461.

Definition is_leap (y : Z) : bool :=
  (y mod 4 =? 0) && (negb (y mod 100 =? 0) || (y mod 400 =? 0)).

(** [_DAYS_IN_MONTH] and [_DAYS_BEFORE_MONTH], indexed from 1. *)
Definition DAYS_IN_MONTH (m : Z) : Z :=
  match m with
  | 1 => 31 | 2 => 28 | 3 => 31 | 4 => 30 | 5 => 31 | 6 => 30
  | 7 => 31 | 8 => 31 | 9 => 30 | 10 => 31 | 11 => 30 | 12 => 31
  | _ => -1
  end.

Definition DAYS_BEFORE_MONTH (m : Z) : Z :=
  match m with
  | 1 => 0 | 2 => 31 | 3 => 59 | 4 => 90 | 5 => 120 | 6 => 151
  | 7 => 181 | 8 => 212 | 9 => 243 | 10 => 273 | 11 => 304 | 12 => 334
  | _ => -1
  end.

Definition days_in_month (y m : Z) : Z :=
  if (m =? 2) && is_leap y then 29 else DAYS_IN_MONTH m.

Definition days_before_year (y : Z) : Z :=
  let y1 := y - 1 in y1 * 365 + y1 / 4 - y1 / 100 + y1 / 400.

Definition days_before_month (y m : Z) : Z :=
  DAYS_BEFORE_MONTH m + (if (2 <? m) && is_leap y then 1 else 0).

Definition ymd2ord (y m d : Z) : Z :=
  days_before_year y + days_before_month y m + d.

Definition toordinal (t : date) : Z := ymd2ord (year t) (month t) (day t).

(** [_ord2ymd]: the proleptic Gregorian date of ordinal [n]. *)
Definition ord2ymd (n : Z) : date :=
  let n := n - 1 in
  let n400 := n / DI400Y in
  let n := n mod DI400Y in
  let n100 := n / DI100Y in
  let n := n mod DI100Y in
  let n4 := n / DI4Y in
  let n := n mod DI4Y in
  let n1 := n / 365 in
  let n := n mod 365 in
  let y := n400 * 400 + 1 + n100 * 100 + n4 * 4 + n1 in
  if (n1 =? 4) || (n100 =? 4) then mkdate (y - 1) 12 31
  else
    let leapyear := (n1 =? 3) && (negb (n4 =? 24) || (n100 =? 3)) in
    let m := Z.shiftr (n + 50) 5 in
    let preceding :=
      DAYS_BEFORE_MONTH m + (if (2 <? m) && leapyear then 1 else 0) in
    if n <? preceding then
      let m' := m - 1 in
      let preceding' :=
        preceding
        - (DAYS_IN_MONTH m' + (if (m' =? 2) && leapyear then 1 else 0)) in
      mkdate y m' (n - preceding' + 1)
    else mkdate y m (n - preceding + 1).

Definition fromordinal (n : Z) : date := ord2ymd n.

(** [date.weekday()]: Monday is 0, Sunday is 6. *)
Definition weekday (t : date) : Z := (toordinal t + 6) mod 7.

(** The dates a [datetime] can hold. *)
Definition valid_date (t : date) : Prop :=
  1 <= year t <= 9999 /\ 1 <= month t <= 12 /\
  1 <= day t <= days_in_month (year t) (month t).

Definition valid_dateb (t : date) : bool :=
  (1 <=? year t) && (year t <=? 9999) && (1 <=? month t) && (month t <=? 12)
  && (1 <=? day t) && (day t <=? days_in_month (year t) (month t)).

(** [t - timedelta(days=k)]: [None] stands for the [OverflowError]
    raised when the result leaves [date.min .. date.max]. *)
Definition sub_days (t : date) (k : Z) : option date :=
  let o := toordinal t - k in
  if (0 <? o) && (o <=? MAXORDINAL) then Some (fromordinal o) else None.

(** Decimal digits and zero padding, for [strftime]. *)
Definition digit (k : Z) : ascii := ascii_of_nat (48 + Z.to_nat k).

Definition pad2 (n : Z) : string :=
  String (digit (n / 10)) (String (digit (n mod 10)) EmptyString).

Definition pad4 (n : Z) : string :=
  String (digit (n / 1000))
    (String (digit (n / 100 mod 10))
       (String (digit (n / 10 mod 10))
          (String (digit (n mod 10)) EmptyString))).

(** [t.strftime("%m/%d/%Y")].  The year is printed on four digits, which
    is what every platform prints for the years 1000 to 9999.  Below
    1000 the C library decides (glibc prints the year unpadded):
    properties about the layout of the strings are stated for dates from
    the year 1000 on. *)
Definition strftime_mdY (t : date) : string :=
  pad2 (month t) ++ "/" ++ pad2 (day t) ++ "/" ++ pad4 (year t).

(** Reading a ["MM/DD/YYYY"] string back as a calendar date. *)
Definition digit_val (c : ascii) : option Z :=
  let n := Z.of_nat (nat_of_ascii c) in
  if (48 <=? n) && (n <=? 57) then Some (n - 48) else None.

Definition num2 (a b : ascii) : option Z :=
  match digit_val a, digit_val b with
  | Some x, Some y => Some (10 * x + y)
  | _, _ => None
  end.

Definition num4 (a b c d : ascii) : option Z :=
  match num2 a b, num2 c d with
  | Some x, Some y => Some (100 * x + y)
  | _, _ => None
  end.

Definition parse_mdY (s : string) : option date :=
  match s with
  | String m1 (String m2 (String "/" (String d1 (String d2 (String "/"
      (String y1 (String y2 (String y3 (String y4 EmptyString))))))))) =>
      match num2 m1 m2, num2 d1 d2, num4 y1 y2 y3 y4 with
      | Some m, Some d, Some y =>
          if valid_dateb (mkdate y m d) then Some (mkdate y m d) else None
      | _, _, _ => None
      end
  | _ => None
  end.

(** The calendar-side reading of "the day before": independent of
    ordinals, stepping back over month and year boundaries. *)
Definition prev_day (t : date) : date :=
  if 1 <? day t then mkdate (year t) (month t) (day t - 1)
  else if 1 <? month t
       then mkdate (year t) (month t - 1) (days_in_month (year t) (month t - 1))
       else mkdate (year t - 1) 12 31.

Fixpoint days_back (k : nat) (t : date) : date :=
  match k with
  | O => t
  | S k' => days_back k' (prev_day t)
  end.

Definition date_le (a b : date) : Prop := toordinal a <= toordinal b.
Definition date_lt (a b : date) : Prop := toordinal a < toordinal b.

End Datetime.

(** ** Python values and exceptions *)

Module Py.

(** The exception classes a library call can raise, as far as the
    script tells them apart.  [OtherException] stands for any other
    subclass of [Exception] ([ValueError], [OverflowError],
    [AttributeError], ...).  [KeyboardInterrupt] derives from
    [BaseException] only. *)
Inductive error : Type :=
| RequestException
| TimeoutException        (* selenium; a subclass of WebDriverException *)
| WebDriverException
| OtherException
| KeyboardInterrupt.

(** What travels up the stack: a library error, or the [SystemExit]
    of [sys.exit(code)]. *)
Inductive exc : Type :=
| Err (e : error)
| SystemExit (code : Z).

(** [isinstance(e, C)] for the classes named in [except] clauses. *)
Definition is_Exception (e : exc) : bool :=
  match e with
  | Err KeyboardInterrupt => false
  | Err _ => true
  | SystemExit _ => false
  end.

Definition is_RequestException (e : exc) : bool :=
  match e with Err RequestException => true | _ => false end.

Definition is_TimeoutException (e : exc) : bool :=
  match e with Err TimeoutException => true | _ => false end.

Definition is_WebDriverException (e : exc) : bool :=
  match e with
  | Err TimeoutException | Err WebDriverException => true
  | _ => false
  end.

Definition is_KeyboardInterrupt (e : exc) : bool :=
  match e with Err KeyboardInterrupt => true | _ => false end.

(** What [f"{e}"] prints is the library's business; the model prints
    the class name. *)
Definition exc_str (e : exc) : string :=
  match e with
  | Err RequestException => "RequestException"
  | Err TimeoutException => "TimeoutException"
  | Err WebDriverException => "WebDriverException"
  | Err OtherException => "Exception"
  | Err KeyboardInterrupt => "KeyboardInterrupt"
  | SystemExit _ => "SystemExit"
  end.

(** The scalar JSON values a decoded response body can hold under a
    key; [JNull] is Python's [None]. *)
Inductive jvalue : Type :=
| JNull
| JBool (b : bool)
| JNum (z : Z)
| JStr (s : string).

(** Python truth value: [if v:] *)
Definition truthy (v : jvalue) : bool :=
  match v with
  | JNull => false
  | JBool b => b
  | JNum z => negb (z =? 0)
  | JStr s => negb (String.eqb s "")
  end.

Definition str_Z (z : Z) : string := NilZero.string_of_int (Z.to_int z).

(** [str(v)], as an f-string interpolates it. *)
Definition str (v : jvalue) : string :=
  match v with
  | JNull => "None"
  | JBool true => "True"
  | JBool false => "False"
  | JNum z => str_Z z
  | JStr s => s
  end.

(** A decoded JSON object. *)
Definition dict : Type := list (string * jvalue).

(** [d.get(k)]: [None] when the key is absent. *)
Fixpoint dict_get (k : string) (d : dict) : jvalue :=
  match d with
  | [] => JNull
  | (k', v) :: rest => if String.eqb k k' then v else dict_get k rest
  end.

(** [needle in s] on strings. *)
Fixpoint contains (needle s : string) : bool :=
  String.prefix needle s
  || match s with
     | EmptyString => false
     | String _ rest => contains needle rest
     end.

(** [c * n]: the string [c] repeated [n] times. *)
Fixpoint str_mul (c : string) (n : nat) : string :=
  match n with
  | O => ""
  | S n' => c ++ str_mul c n'
  end.

End Py.

(** ** Configuration *)

(** The module-level settings of the script, read by every function. *)
Record config : Type := mkconfig {
  ADMIN_API_TOKEN : string;
  USER_ID : string;
  BASE_URL : string;
  ACCOUNT_ID : string;
  REPORT_EMAIL : string;
  PAGE_LOAD_TIMEOUT : Z;
  FORM_SUBMIT_WAIT : Z;
  ELEMENT_WAIT_TIMEOUT : Z
}.

(** The values the repository ships with. *)
Definition shipped_config : config :=
  {| ADMIN_API_TOKEN := "";
     USER_ID := "";
     BASE_URL := "https://yourschool.instructure.com/api/v1";
     ACCOUNT_ID := "1";
     REPORT_EMAIL := "centralized-canvas-admin@yourschool.edu";
     PAGE_LOAD_TIMEOUT := 30;
     FORM_SUBMIT_WAIT := 5;
     ELEMENT_WAIT_TIMEOUT := 10 |}.

(** ** The outside world *)

(** What a [requests] call does: raise, or hand back a response whose
    [.json()] in turn raises or decodes to an object.  (A body that
    decodes to something without [.get] makes the script raise
    [AttributeError] at the same place; that is [JsonRaises
    OtherException].) *)
Inductive json_outcome : Type :=
| JsonRaises (e : Py.error)
| JsonDict (d : Py.dict).

Inductive http_outcome : Type :=
| HttpRaises (e : Py.error)
| HttpResponse (status_code : Z) (text : string) (json : json_outcome).

(** The calls [submit_attendance_report_form] makes, in program order. *)
Inductive form_step : Type :=
| StepGet            (* driver.get(sessionless_url) *)
| StepWaitStart      (* wait.until(presence of report[start_date]) *)
| StepClearStart
| StepSendStart
| StepFindEnd
| StepClearEnd
| StepSendEnd
| StepFindEmail
| StepClearEmail
| StepSendEmail
| StepSettle         (* time.sleep(2) *)
| StepFindCommit
| StepClick
| StepPostWait.      (* time.sleep(FORM_SUBMIT_WAIT) *)

(** One run's worth of answers from everything outside the process.
    [None] means the call returned normally. *)
Record world : Type := mkworld {
  now_range : Datetime.date;        (* datetime.now() in calculate_date_range *)
  now_main : Datetime.date;         (* datetime.now() in main, for the log line *)
  post_outcome : http_outcome;      (* requests.post: token creation *)
  get_outcome : http_outcome;       (* requests.get: sessionless launch *)
  chrome_outcome : option Py.error; (* webdriver.Chrome(options=...) *)
  set_timeout_outcome : option Py.error;  (* driver.set_page_load_timeout *)
  form_outcome : form_step -> option Py.error;
  quit_outcome : option Py.error;   (* driver.quit() *)
  delete_outcome : http_outcome     (* requests.delete: token cleanup *)
}.

(** ** Events *)

Inductive level : Type := INFO | WARNING | ERROR.

(** The [By.NAME] locators of the report form. *)
Inductive locator : Type :=
| start_date_field   (* report[start_date] *)
| end_date_field     (* report[end_date] *)
| email_field        (* report[email] *)
| commit_button.     (* commit *)

Inductive browser_call : Type :=
| Navigate (url : Py.jvalue)
| WaitPresence (l : locator) (timeout : Z)
| FindElement (l : locator)
| Clear (l : locator)
| SendKeys (l : locator) (text : string)
| Click (l : locator)
| Sleep (seconds : Z).

(** An HTTP event records the URL and the bearer credential; the request
    timeout (30 s) and the remaining headers and payload are constant. *)
Inductive event : Type :=
| Log (lvl : level) (msg : string)
| HttpPost (url bearer : string)
| HttpGet (url bearer : string)
| HttpDelete (url bearer : string)
| ChromeStart (arguments : list string)
| SetPageLoadTimeout (seconds : Z)
| Browser (c : browser_call)
| BrowserQuit
| EnterCleanup.   (* control reaches the [finally:] block of main *)

(** ** Computations *)

Inductive result (A : Type) : Type :=
| Return (a : A)
| Raise (e : Py.exc).
Arguments Return {A} a.
Arguments Raise {A} e.

(** *** Helper functions: events written, then a value or an exception *)

Definition W (A : Type) : Type := (list event * result A)%type.

#[global] Instance Monad_W : Monad W :=
  {| ret := fun A (a : A) => ([], Return a);
     bind := fun A B (m : W A) (k : A -> W B) =>
       match m with
       | (t, Return a) => let (t', r) := k a in ((t ++ t')%list, r)
       | (t, Raise e) => (t, Raise e)
       end |}.

Definition raise {A} (e : Py.exc) : W A := ([], Raise e).

Definition emit (ev : event) : W unit := ([ev], Return tt).

Definition log (lvl : level) (msg : string) : W unit := emit (Log lvl msg).

(** [sys.exit(code)] *)
Definition sys_exit {A} (code : Z) : W A := raise (Py.SystemExit code).

(** A call whose outcome the world decides. *)
Definition call (ev : event) (o : option Py.error) : W unit :=
  emit ev ;;
  match o with
  | None => ret tt
  | Some e => raise (Py.Err e)
  end.

(** [try: m  except ...: handler].  [handler e] is [None] when no clause
    names a class of [e], and the exception goes on. *)
Definition try_except {A} (m : W A) (handler : Py.exc -> option (W A)) : W A :=
  match m with
  | (t, Return a) => (t, Return a)
  | (t, Raise e) =>
      match handler e with
      | Some h => let (t', r) := h in ((t ++ t')%list, r)
      | None => (t, Raise e)
      end
  end.

(** *** [main]: the same, with its locals as state *)

Inductive webdriver : Type := Chrome.

(** The three locals of [main] that its cleanup block reads. *)
Record locals : Type := mklocals {
  temp_token_id : Py.jvalue;
  driver : option webdriver;
  success : bool
}.

Definition M (A : Type) : Type := locals -> (list event * locals * result A)%type.

#[global] Instance Monad_M : Monad M :=
  {| ret := fun A (a : A) => fun l => ([], l, Return a);
     bind := fun A B (m : M A) (k : A -> M B) => fun l =>
       match m l with
       | (t, l', Return a) =>
           match k a l' with
           | (t', l'', r) => ((t ++ t')%list, l'', r)
           end
       | (t, l', Raise e) => (t, l', Raise e)
       end |}.

(** Running a helper from [main]: the locals are out of its reach. *)
Definition lift {A} (m : W A) : M A := fun l => (fst m, l, snd m).

Definition set_temp_token_id (v : Py.jvalue) : M unit :=
  fun l => ([], mklocals v (driver l) (success l), Return tt).
Definition set_driver (d : option webdriver) : M unit :=
  fun l => ([], mklocals (temp_token_id l) d (success l), Return tt).
Definition set_success (b : bool) : M unit :=
  fun l => ([], mklocals (temp_token_id l) (driver l) b, Return tt).

Definition get_temp_token_id : M Py.jvalue := fun l => ([], l, Return (temp_token_id l)).
Definition get_driver : M (option webdriver) := fun l => ([], l, Return (driver l)).
Definition get_success : M bool := fun l => ([], l, Return (success l)).

Definition try_except_main {A} (m : M A) (handler : Py.exc -> option (M A)) : M A :=
  fun l =>
    match m l with
    | (t, l', Return a) => (t, l', Return a)
    | (t, l', Raise e) =>
        match handler e with
        | Some h => match h l' with (t', l'', r) => ((t ++ t')%list, l'', r) end
        | None => (t, l', Raise e)
        end
    end.

(** [try: m  finally: c].  The block [c] always runs; if it raises, its
    exception replaces whatever [m] was doing, otherwise the outcome of
    [m] stands. *)
Definition try_finally {A} (m : M A) (c : M unit) : M A :=
  fun l =>
    match m l with
    | (t, l', r) =>
        match c l' with
        | (t', l'', Return _) => ((t ++ t')%list, l'', r)
        | (t', l'', Raise e) => ((t ++ t')%list, l'', Raise e)
        end
    end.

(** ** The script *)

(** *** Helper functions *)

(** [calculate_date_range()]: the two strings, or the [OverflowError]
    that [datetime] raises when a subtraction leaves its range. *)
Definition calculate_date_range (w : world) : W (string * string) :=
  let today := now_range w in
  match
    (if Datetime.weekday today =? 0
     then Datetime.sub_days today 7      (* Monday: back 7 days *)
     else Datetime.sub_days today 1)     (* Tuesday-Sunday: yesterday *)
  with
  | None => raise (Py.Err Py.OtherException)
  | Some s =>
      let start_date := Datetime.strftime_mdY s in
      match Datetime.sub_days today 1 with     (* end date is always yesterday *)
      | None => raise (Py.Err Py.OtherException)
      | Some e => ret (start_date, Datetime.strftime_mdY e)
      end
  end.

Definition bearer (tok : string) : string := "Bearer " ++ tok.

Definition create_temporary_token (cfg : config) (w : world)
  : W (Py.jvalue * Py.jvalue) :=
  log INFO "Creating temporary API token..." ;;
  let create_token_url := BASE_URL cfg ++ "/users/" ++ USER_ID cfg ++ "/tokens" in
  try_except
    (emit (HttpPost create_token_url (bearer (ADMIN_API_TOKEN cfg))) ;;
     match post_outcome w with
     | HttpRaises e => raise (Py.Err e)
     | HttpResponse status_code text json =>
         if status_code =? 200 then
           match json with
           | JsonRaises e => raise (Py.Err e)
           | JsonDict token_data =>
               let new_token := Py.dict_get "visible_token" token_data in
               let token_id := Py.dict_get "id" token_data in
               if negb (Py.truthy new_token) then
                 log ERROR "API returned success but no token was included in response." ;;
                 sys_exit 1
               else
                 log INFO "Temporary token created successfully (expires in 1 hour)" ;;
                 ret (new_token, token_id)
           end
         else
           log ERROR ("Failed to create token. Status: " ++ Py.str_Z status_code) ;;
           log ERROR ("Response: " ++ text) ;;
           sys_exit 1
     end)
    (fun e =>
       if Py.is_RequestException e then
         Some (log ERROR ("Network error while creating token: " ++ Py.exc_str e) ;;
               sys_exit 1)
       else None).

Definition delete_temporary_token (cfg : config) (w : world) (token_id : Py.jvalue)
  : W unit :=
  log INFO "Cleaning up temporary token..." ;;
  let delete_url :=
    BASE_URL cfg ++ "/users/" ++ USER_ID cfg ++ "/tokens/" ++ Py.str token_id in
  try_except
    (emit (HttpDelete delete_url (bearer (ADMIN_API_TOKEN cfg))) ;;
     match delete_outcome w with
     | HttpRaises e => raise (Py.Err e)
     | HttpResponse status_code _ _ =>
         if status_code =? 200 then
           log INFO "Temporary token deleted successfully"
         else
           log WARNING
             ("Could not delete token (will auto-expire in <1 hour). Status: "
              ++ Py.str_Z status_code)
     end)
    (fun e =>
       if Py.is_RequestException e then
         Some (log WARNING
                 ("Network error during token cleanup (will auto-expire): "
                  ++ Py.exc_str e))
       else None).

(** Returns the URL, or [None] ([JNull]) on every handled failure. *)
Definition get_sessionless_launch_url (cfg : config) (w : world)
    (temp_token : Py.jvalue) : W Py.jvalue :=
  log INFO "Generating Roll Call sessionless launch URL..." ;;
  let rollcall_tool_url := "https://rollcall.instructure.com/launch" in
  let api_url :=
    BASE_URL cfg ++ "/accounts/" ++ ACCOUNT_ID cfg
    ++ "/external_tools/sessionless_launch?url=" ++ rollcall_tool_url in
  try_except
    (emit (HttpGet api_url (bearer (Py.str temp_token))) ;;
     match get_outcome w with
     | HttpRaises e => raise (Py.Err e)
     | HttpResponse status_code text json =>
         if status_code =? 200 then
           match json with
           | JsonRaises e => raise (Py.Err e)
           | JsonDict response_json =>
               let sessionless_url := Py.dict_get "url" response_json in
               if negb (Py.truthy sessionless_url) then
                 log ERROR "API returned success but no URL in response." ;;
                 ret Py.JNull
               else
                 log INFO "Sessionless launch URL retrieved successfully" ;;
                 ret sessionless_url
           end
         else
           log ERROR ("Failed to get sessionless URL. Status: " ++ Py.str_Z status_code) ;;
           log ERROR ("Response: " ++ text) ;;
           ret Py.JNull
     end)
    (fun e =>
       if Py.is_RequestException e then
         Some (log ERROR ("Network error while getting sessionless URL: "
                          ++ Py.exc_str e) ;;
               ret Py.JNull)
       else None).

Definition chrome_arguments : list string :=
  ["--headless"; "--disable-gpu"; "--no-sandbox"; "--disable-dev-shm-usage";
   "--window-size=1920,1080"].

Definition configure_chrome_driver (cfg : config) (w : world) : W webdriver :=
  log INFO "Initializing headless Chrome browser..." ;;
  try_except
    (call (ChromeStart chrome_arguments) (chrome_outcome w) ;;
     call (SetPageLoadTimeout (PAGE_LOAD_TIMEOUT cfg)) (set_timeout_outcome w) ;;
     log INFO "Chrome browser initialized successfully" ;;
     ret Chrome)
    (fun e =>
       if Py.is_WebDriverException e then
         Some (log ERROR ("Failed to initialize Chrome WebDriver: " ++ Py.exc_str e) ;;
               log ERROR "Ensure Chrome and ChromeDriver are installed and compatible." ;;
               log ERROR "See README.md for setup instructions." ;;
               sys_exit 1)
       else None).

(** One browser interaction of the form routine. *)
Definition browser (w : world) (st : form_step) (c : browser_call) : W unit :=
  call (Browser c) (form_outcome w st).

Definition submit_attendance_report_form (cfg : config) (w : world)
    (drv : webdriver) (start_date end_date : string) (sessionless_url : Py.jvalue)
  : W bool :=
  log INFO "Navigating to Roll Call attendance report page..." ;;
  try_except
    (browser w StepGet (Navigate sessionless_url) ;;
     log INFO ("Filling report form: " ++ start_date ++ " to " ++ end_date) ;;
     browser w StepWaitStart (WaitPresence start_date_field (ELEMENT_WAIT_TIMEOUT cfg)) ;;
     browser w StepClearStart (Clear start_date_field) ;;
     browser w StepSendStart (SendKeys start_date_field start_date) ;;
     browser w StepFindEnd (FindElement end_date_field) ;;
     browser w StepClearEnd (Clear end_date_field) ;;
     browser w StepSendEnd (SendKeys end_date_field end_date) ;;
     browser w StepFindEmail (FindElement email_field) ;;
     browser w StepClearEmail (Clear email_field) ;;
     browser w StepSendEmail (SendKeys email_field (REPORT_EMAIL cfg)) ;;
     browser w StepSettle (Sleep 2) ;;
     browser w StepFindCommit (FindElement commit_button) ;;
     browser w StepClick (Click commit_button) ;;
     log INFO "Form submitted successfully" ;;
     browser w StepPostWait (Sleep (FORM_SUBMIT_WAIT cfg)) ;;
     ret true)
    (fun e =>
       if Py.is_TimeoutException e then
         Some (log ERROR "Timed out waiting for Roll Call page to load." ;;
               log ERROR "This may indicate network issues or changes to the Roll Call interface." ;;
               ret false)
       else if Py.is_Exception e then
         Some (log ERROR ("Error during form submission: " ++ Py.exc_str e) ;;
               ret false)
       else None).

(** *** Main execution *)

Definition banner : string := Py.str_mul "=" 60.

(** [not ADMIN_API_TOKEN or not USER_ID or "yourschool" in BASE_URL] *)
Definition config_incomplete (cfg : config) : bool :=
  String.eqb (ADMIN_API_TOKEN cfg) ""
  || String.eqb (USER_ID cfg) ""
  || Py.contains "yourschool" (BASE_URL cfg).

Definition day_name (t : Datetime.date) : string :=
  match Datetime.weekday t with
  | 0 => "Monday" | 1 => "Tuesday" | 2 => "Wednesday" | 3 => "Thursday"
  | 4 => "Friday" | 5 => "Saturday" | _ => "Sunday"
  end.

(** The body of the [try:] block of [main]. *)
Definition main_try (cfg : config) (w : world) : M unit :=
  (* Step 1: create temporary token *)
  created <- lift (create_temporary_token cfg w) ;;
  let temp_token := fst created in
  set_temp_token_id (snd created) ;;
  (* Step 2: get sessionless launch URL *)
  sessionless_url <- lift (get_sessionless_launch_url cfg w temp_token) ;;
  (if negb (Py.truthy sessionless_url) then
     lift (log ERROR "Could not obtain sessionless URL. Aborting." ;;
           sys_exit 1)
   else ret tt) ;;
  (* Step 3: calculate date range *)
  range <- lift (calculate_date_range w) ;;
  let start_date := fst range in
  let end_date := snd range in
  lift (log INFO ("Today is " ++ day_name (now_main w) ++ ". Report date range: "
                  ++ start_date ++ " to " ++ end_date)) ;;
  (* Step 4: initialize browser and submit form *)
  drv <- lift (configure_chrome_driver cfg w) ;;
  set_driver (Some drv) ;;
  ok <- lift (submit_attendance_report_form cfg w drv start_date end_date
                sessionless_url) ;;
  set_success ok.

(** The [finally:] block of [main]. *)
Definition main_finally (cfg : config) (w : world) : M unit :=
  lift (emit EnterCleanup) ;;
  drv <- get_driver ;;
  match drv with
  | Some _ =>
      lift (log INFO "Closing browser..." ;;
            try_except
              (call BrowserQuit (quit_outcome w))
              (fun e => if Py.is_Exception e then Some (ret tt) else None))
                                                        (* pass: best effort *)
  | None => ret tt
  end ;;
  tid <- get_temp_token_id ;;
  if Py.truthy tid then lift (delete_temporary_token cfg w tid) else ret tt.

Definition main (cfg : config) (w : world) : M unit :=
  lift (log INFO banner ;;
        log INFO "Canvas Roll Call Attendance Export - Starting" ;;
        log INFO banner) ;;
  (* Validate configuration *)
  (if config_incomplete cfg then
     lift (log ERROR "Configuration incomplete! Please update the following in the script:" ;;
           log ERROR "  - ADMIN_API_TOKEN" ;;
           log ERROR "  - USER_ID" ;;
           log ERROR "  - BASE_URL" ;;
           log ERROR "  - REPORT_EMAIL" ;;
           sys_exit 1)
   else ret tt) ;;
  (* Track resources for cleanup *)
  set_temp_token_id Py.JNull ;;
  set_driver None ;;
  set_success false ;;
  try_finally
    (try_except_main
       (main_try cfg w)
       (fun e =>
          if Py.is_KeyboardInterrupt e then
            Some (lift (log WARNING "Script interrupted by user."))
          else if Py.is_Exception e then
            Some (lift (log ERROR ("Unexpected error: " ++ Py.exc_str e)))
          else None))
    (main_finally cfg w) ;;
  (* Final status *)
  lift (log INFO banner) ;;
  ok <- get_success ;;
  if ok then
    lift (log INFO "SUCCESS - Attendance report requested" ;;
          log INFO ("Report will be emailed to: " ++ REPORT_EMAIL cfg) ;;
          log INFO banner ;;
          sys_exit 0)
  else
    lift (log ERROR "FAILED - Attendance report was not requested" ;;
          log INFO banner ;;
          sys_exit 1).

(** *** The process *)

(** How the interpreter ends: [sys.exit(c)] gives exit status [c]; any
    other exception leaves [main] unhandled. *)
Inductive termination : Type :=
| Exit (code : Z)
| Uncaught (e : Py.error).

(** Before [main] assigns them the locals do not exist; any value will
    do, none is read before it is assigned. *)
Definition no_locals : locals :=
  {| temp_token_id := Py.JNull; driver := None; success := false |}.

Definition run (cfg : config) (w : world) : list event * termination :=
  match main cfg w no_locals with
  | (t, _, Return _) => (t, Exit 0)
  | (t, _, Raise (Py.SystemExit c)) => (t, Exit c)
  | (t, _, Raise (Py.Err e)) => (t, Uncaught e)
  end.

Definition run_trace (cfg : config) (w : world) : list event := fst (run cfg w).
Definition exit_status (cfg : config) (w : world) : termination := snd (run cfg w).

(** * Vocabulary of the properties *)

Import Datetime.

(** ** Devices for the calendar proofs *)

(** The tail of [ord2ymd]: month and day of the [n]-th day (from 0) of a
    year, leap or not.  [in_year_ok] is what is checked of it, on each of
    the 365 or 366 days. *)
Definition in_year (leapyear : bool) (n : Z) : Z * Z :=
  let m := Z.shiftr (n + 50) 5 in
  let preceding := DAYS_BEFORE_MONTH m + (if (2 <? m) && leapyear then 1 else 0) in
  if n <? preceding then
    let m' := m - 1 in
    (m', n - (preceding - (DAYS_IN_MONTH m' + (if (m' =? 2) && leapyear then 1 else 0))) + 1)
  else (m, n - preceding + 1).

Definition in_year_ok (leapyear : bool) (n : Z) : bool :=
  let (m, d) := in_year leapyear n in
  (1 <=? m) && (m <=? 12) && (1 <=? d)
  && (d <=? (if (m =? 2) && leapyear then 29 else DAYS_IN_MONTH m))
  && (DAYS_BEFORE_MONTH m + (if (2 <? m) && leapyear then 1 else 0) + d =? n + 1).

Fixpoint upto (k : nat) : list Z :=
  match k with
  | O => []
  | S k' => Z.of_nat k' :: upto k'
  end.

(** ** The date range policy, in the words of the specification *)

(** Monday: seven days back through yesterday; any other day: yesterday
    alone.  "Days back" is [days_back], on calendar dates. *)
Definition date_range_policy (run_date : date) : date * date :=
  if weekday run_date =? 0
  then (days_back 7 run_date, days_back 1 run_date)
  else (days_back 1 run_date, days_back 1 run_date).

(** ** Observing a trace *)

Definition is_log (ev : event) : bool :=
  match ev with Log _ _ => true | _ => false end.
Definition is_post (ev : event) : bool :=
  match ev with HttpPost _ _ => true | _ => false end.
Definition is_get (ev : event) : bool :=
  match ev with HttpGet _ _ => true | _ => false end.
Definition is_delete (ev : event) : bool :=
  match ev with HttpDelete _ _ => true | _ => false end.
Definition is_browser (ev : event) : bool :=
  match ev with
  | ChromeStart _ | SetPageLoadTimeout _ | Browser _ | BrowserQuit => true
  | _ => false
  end.
(** What the [try] block can write, and what the helper functions of its
    first two steps can. *)
Definition is_try_event (ev : event) : bool :=
  match ev with
  | Log _ _ | HttpPost _ _ | HttpGet _ _ | ChromeStart _
  | SetPageLoadTimeout _ | Browser _ => true
  | _ => false
  end.

Definition is_http_or_log (ev : event) : bool :=
  match ev with
  | Log _ _ | HttpPost _ _ | HttpGet _ _ => true
  | _ => false
  end.

(** Anything that leaves the process. *)
Definition is_external (ev : event) : bool :=
  match ev with Log _ _ | EnterCleanup => false | _ => true end.

Definition count (p : event -> bool) (t : list event) : nat :=
  List.length (filter p t).

(** ** Reading the world *)

(** What the token endpoint hands over, if it does: the secret and the
    id, when the status is 200 and [visible_token] is truthy. *)
Definition acquisition (w : world) : option (Py.jvalue * Py.jvalue) :=
  match post_outcome w with
  | HttpResponse status_code _ (JsonDict d) =>
      if (status_code =? 200) && Py.truthy (Py.dict_get "visible_token" d)
      then Some (Py.dict_get "visible_token" d, Py.dict_get "id" d)
      else None
  | _ => None
  end.

(** A [sys.exit] of the script's helper functions is a [sys.exit(1)]. *)
Definition exits_one {A} (r : result A) : Prop :=
  match r with
  | Raise (Py.SystemExit c) => c = 1
  | _ => True
  end.

(** The launch URL, when the status is 200 and [url] is truthy. *)
Definition resolution (w : world) : option Py.jvalue :=
  match get_outcome w with
  | HttpResponse status_code _ (JsonDict d) =>
      if (status_code =? 200) && Py.truthy (Py.dict_get "url" d)
      then Some (Py.dict_get "url" d)
      else None
  | _ => None
  end.

Definition launch_url (cfg : config) : string :=
  BASE_URL cfg ++ "/accounts/" ++ ACCOUNT_ID cfg
  ++ "/external_tools/sessionless_launch?url="
  ++ "https://rollcall.instructure.com/launch".

(** Chrome starts and accepts its page-load timeout. *)
Definition chrome_ready (w : world) : bool :=
  match chrome_outcome w, set_timeout_outcome w with
  | None, None => true
  | _, _ => false
  end.

Definition form_steps : list form_step :=
  [StepGet; StepWaitStart; StepClearStart; StepSendStart; StepFindEnd;
   StepClearEnd; StepSendEnd; StepFindEmail; StepClearEmail; StepSendEmail;
   StepSettle; StepFindCommit; StepClick; StepPostWait].

Definition returns (o : option Py.error) : bool :=
  match o with None => true | Some _ => false end.

Definition all_steps_return (w : world) : bool :=
  forallb (fun s => returns (form_outcome w s)) form_steps.

(** [driver.quit()] raises nothing that [except Exception] lets through;
    the DELETE raises nothing that [except RequestException] lets
    through. *)
Definition teardown_contained (w : world) : bool :=
  match quit_outcome w with
  | Some e => Py.is_Exception (Py.Err e)
  | None => true
  end.

Definition release_contained (w : world) : bool :=
  match delete_outcome w with
  | HttpRaises e => Py.is_RequestException (Py.Err e)
  | HttpResponse _ _ _ => true
  end.

Definition delete_url (cfg : config) (token_id : Py.jvalue) : string :=
  BASE_URL cfg ++ "/users/" ++ USER_ID cfg ++ "/tokens/" ++ Py.str token_id.

Definition is_cleanup_event (ev : event) : bool :=
  match ev with
  | Log _ _ | BrowserQuit | HttpDelete _ _ | EnterCleanup => true
  | _ => false
  end.

(** Does the [finally] block get as far as the token? *)
Definition reaches_release (w : world) (l : locals) : bool :=
  match driver l with
  | Some _ => teardown_contained w
  | None => true
  end.

Definition release_due (w : world) (l : locals) : bool :=
  reaches_release w l && Py.truthy (temp_token_id l).

(** How far the [try] block gets. *)
Inductive stage : Type :=
| AtCreation | AtResolution | AtDateRange | AtBrowser | AtForm | Confirmed.

Definition stage_reached (w : world) : stage :=
  match acquisition w with
  | None => AtCreation
  | Some _ =>
      match resolution w with
      | None => AtResolution
      | Some _ =>
          match snd (calculate_date_range w) with
          | Raise _ => AtDateRange
          | Return _ =>
              if chrome_ready w
              then if all_steps_return w then Confirmed else AtForm
              else AtBrowser
          end
      end
  end.

(** The value of [temp_token_id] when the [try] block is left. *)
Definition token_id_of (w : world) : Py.jvalue :=
  match acquisition w with
  | Some (_, token_id) => token_id
  | None => Py.JNull
  end.

Definition fresh_locals : locals :=
  {| temp_token_id := Py.JNull; driver := None; success := false |}.

(** ** Anatomy of a run *)

Definition prelude : list event :=
  [Log INFO banner;
   Log INFO "Canvas Roll Call Attendance Export - Starting";
   Log INFO banner].

(** What the two [except] clauses of [main] log. *)
Definition caught_log (r : result unit) : list event :=
  match r with
  | Raise (Py.Err Py.KeyboardInterrupt) =>
      [Log WARNING "Script interrupted by user."]
  | Raise (Py.Err e) =>
      [Log ERROR ("Unexpected error: " ++ Py.exc_str (Py.Err e))]
  | _ => []
  end.

Definition final_status_log (cfg : config) (ok : bool) : list event :=
  if ok then
    [Log INFO banner;
     Log INFO "SUCCESS - Attendance report requested";
     Log INFO ("Report will be emailed to: " ++ REPORT_EMAIL cfg);
     Log INFO banner]
  else
    [Log INFO banner;
     Log ERROR "FAILED - Attendance report was not requested";
     Log INFO banner].

(** The end of [main], from how the [try] block ([r1]) and the [finally]
    block ([r2]) ended. *)
Definition verdict (cfg : config) (ok : bool) (r1 r2 : result unit)
  : list event * termination :=
  match r2 with
  | Raise (Py.Err e) => ([], Uncaught e)
  | Raise (Py.SystemExit c) => ([], Exit c)
  | Return _ =>
      match r1 with
      | Raise (Py.SystemExit c) => ([], Exit c)
      | _ => (final_status_log cfg ok, Exit (if ok then 0 else 1))
      end
  end.

Definition browser_opened (w : world) : bool :=
  match stage_reached w with
  | AtForm | Confirmed => true
  | _ => false
  end.

(** The run of the configured script, cut at the [try] and [finally]
    blocks, and what is known of each part by stage. *)
Record run_parts (cfg : config) (w : world) : Type := mkparts {
  try_events : list event;
  try_locals : locals;
  try_result : result unit;
  cleanup_events : list event;
  cleanup_result : result unit
}.
Arguments try_events {cfg w}.
Arguments try_locals {cfg w}.
Arguments try_result {cfg w}.
Arguments cleanup_events {cfg w}.
Arguments cleanup_result {cfg w}.

Definition parts_ok (cfg : config) (w : world) (p : run_parts cfg w) : Prop :=
  main_try cfg w fresh_locals = (try_events p, try_locals p, try_result p)
  /\ run cfg w
  = ((prelude ++ try_events p ++ caught_log (try_result p)
      ++ (EnterCleanup :: cleanup_events p)
      ++ fst (verdict cfg (success (try_locals p)) (try_result p) (cleanup_result p)))%list,
     snd (verdict cfg (success (try_locals p)) (try_result p) (cleanup_result p)))
  /\ forallb is_try_event (try_events p) = true
  /\ exits_one (try_result p)
  /\ match stage_reached w with
     | AtCreation =>
         try_locals p = fresh_locals /\ (exists e, try_result p = Raise e)
         /\ forallb (fun ev => is_log ev || is_post ev) (try_events p) = true
     | AtResolution | AtDateRange =>
         try_locals p = mklocals (token_id_of w) None false
         /\ (exists e, try_result p = Raise e)
         /\ forallb is_http_or_log (try_events p) = true
     | AtBrowser =>
         try_locals p = mklocals (token_id_of w) None false
         /\ (exists e, try_result p = Raise e)
     | AtForm =>
         try_locals p = mklocals (token_id_of w) (Some Chrome) false
         /\ (try_result p = Return tt
             \/ try_result p = Raise (Py.Err Py.KeyboardInterrupt))
     | Confirmed =>
         try_locals p = mklocals (token_id_of w) (Some Chrome) true
         /\ try_result p = Return tt
     end
  /\ forallb is_cleanup_event (cleanup_events p) = true
  /\ count is_delete (cleanup_events p)
     = (if release_due w (try_locals p) then 1 else 0)%nat
  /\ count is_browser (cleanup_events p)
     = (if driver (try_locals p) is Some _ then 1 else 0)%nat
  /\ (if reaches_release w (try_locals p)
      then if Py.truthy (temp_token_id (try_locals p)) && negb (release_contained w)
           then exists e, cleanup_result p = Raise (Py.Err e)
           else cleanup_result p = Return tt
      else cleanup_result p = Raise (Py.Err Py.KeyboardInterrupt))
  /\ (release_due w (try_locals p) = true ->
      In (HttpDelete (delete_url cfg (temp_token_id (try_locals p)))
                     (bearer (ADMIN_API_TOKEN cfg))) (cleanup_events p)).

(** ** Scenarios *)

Definition cleanup_undisturbed (w : world) : bool :=
  (negb (browser_opened w) || teardown_contained w)
  && (negb (Py.truthy (token_id_of w)) || release_contained w).

Definition configuration_errors : list event :=
  [Log ERROR "Configuration incomplete! Please update the following in the script:";
   Log ERROR "  - ADMIN_API_TOKEN";
   Log ERROR "  - USER_ID";
   Log ERROR "  - BASE_URL";
   Log ERROR "  - REPORT_EMAIL"].

(** The token request ends in a status other than 200, in a
    [RequestException], or in a 200 response without a usable
    [visible_token]. *)
Definition creation_refused (w : world) : bool :=
  match post_outcome w with
  | HttpRaises e => Py.is_RequestException (Py.Err e)
  | HttpResponse status_code _ json =>
      if status_code =? 200 then
        match json with
        | JsonDict d => negb (Py.truthy (Py.dict_get "visible_token" d))
        | JsonRaises _ => false
        end
      else true
  end.

(** The launch request ends in a status other than 200, or in a 200
    response without a usable [url]. *)
Definition launch_refused (w : world) : bool :=
  match get_outcome w with
  | HttpRaises _ => false
  | HttpResponse status_code _ json =>
      if status_code =? 200 then
        match json with
        | JsonDict d => negb (Py.truthy (Py.dict_get "url" d))
        | JsonRaises _ => false
        end
      else true
  end.

(** ** Concrete inputs *)

Definition campus_config : config :=
  {| ADMIN_API_TOKEN := "adm-token";
     USER_ID := "42";
     BASE_URL := "https://canvas.example.edu/api/v1";
     ACCOUNT_ID := "1";
     REPORT_EMAIL := "registrar@example.edu";
     PAGE_LOAD_TIMEOUT := 30;
     FORM_SUBMIT_WAIT := 5;
     ELEMENT_WAIT_TIMEOUT := 10 |}.

Definition token_response : http_outcome :=
  HttpResponse 200 "" (JsonDict [("id", Py.JNum 7); ("visible_token", Py.JStr "tok")]).

Definition token_response_without_id : http_outcome :=
  HttpResponse 200 "" (JsonDict [("visible_token", Py.JStr "tok")]).

Definition launch_response : http_outcome :=
  HttpResponse 200 "" (JsonDict [("url", Py.JStr "https://rollcall.example/launch")]).

Definition deleted_response : http_outcome := HttpResponse 200 "" (JsonDict []).

(** Everything answers as hoped, on Monday 2025-12-15. *)
Definition smooth_world : world :=
  {| now_range := Datetime.mkdate 2025 12 15;
     now_main := Datetime.mkdate 2025 12 15;
     post_outcome := token_response;
     get_outcome := launch_response;
     chrome_outcome := None;
     set_timeout_outcome := None;
     form_outcome := fun _ => None;
     quit_outcome := None;
     delete_outcome := deleted_response |}.

(** One answer of the world replaced. *)
Definition with_post (w : world) (o : http_outcome) : world :=
  mkworld (now_range w) (now_main w) o (get_outcome w) (chrome_outcome w)
    (set_timeout_outcome w) (form_outcome w) (quit_outcome w) (delete_outcome w).

Definition with_get (w : world) (o : http_outcome) : world :=
  mkworld (now_range w) (now_main w) (post_outcome w) o (chrome_outcome w)
    (set_timeout_outcome w) (form_outcome w) (quit_outcome w) (delete_outcome w).

Definition with_form (w : world) (f : form_step -> option Py.error) : world :=
  mkworld (now_range w) (now_main w) (post_outcome w) (get_outcome w)
    (chrome_outcome w) (set_timeout_outcome w) f (quit_outcome w) (delete_outcome w).

Definition with_quit (w : world) (o : option Py.error) : world :=
  mkworld (now_range w) (now_main w) (post_outcome w) (get_outcome w)
    (chrome_outcome w) (set_timeout_outcome w) (form_outcome w) o (delete_outcome w).

Definition with_delete (w : world) (o : http_outcome) : world :=
  mkworld (now_range w) (now_main w) (post_outcome w) (get_outcome w)
    (chrome_outcome w) (set_timeout_outcome w) (form_outcome w) (quit_outcome w) o.

Definition with_date (w : world) (today : date) : world :=
  mkworld today today (post_outcome w) (get_outcome w) (chrome_outcome w)
    (set_timeout_outcome w) (form_outcome w) (quit_outcome w) (delete_outcome w).

(** The same on Wednesday 2025-12-17, and on [date.min]. *)
Definition midweek_world : world := with_date smooth_world (mkdate 2025 12 17).
Definition first_day_world : world := with_date smooth_world (mkdate 1 1 1).

(** The form routine ran to its end and returned [True]. *)
Definition confirmed (w : world) : bool :=
  match stage_reached w with Confirmed => true | _ => false end.

Definition unauthorized : http_outcome := HttpResponse 401 "Unauthorized" (JsonDict []).

Definition server_error : http_outcome := HttpResponse 500 "Internal Server Error" (JsonDict []).

(** The three browser calls a timed-out form is judged by. *)
Definition is_navigate (ev : event) : bool :=
  match ev with Browser (Navigate _) => true | _ => false end.
Definition is_start_wait (ev : event) : bool :=
  match ev with Browser (WaitPresence start_date_field _) => true | _ => false end.
Definition is_click (ev : event) : bool :=
  match ev with Browser (Click _) => true | _ => false end.

(** All that the form routine writes when the wait for the start-date
    field times out. *)
Definition timed_out_form (cfg : config) (url : Py.jvalue) (s e : string)
  : list event :=
  [Log INFO "Navigating to Roll Call attendance report page...";
   Browser (Navigate url);
   Log INFO ("Filling report form: " ++ s ++ " to " ++ e);
   Browser (WaitPresence start_date_field (ELEMENT_WAIT_TIMEOUT cfg));
   Log ERROR "Timed out waiting for Roll Call page to load.";
   Log ERROR "This may indicate network issues or changes to the Roll Call interface."].

Definition start_field_never_appears (st : form_step) : option Py.error :=
  match st with
  | StepWaitStart => Some Py.TimeoutException
  | _ => None
  end.

Definition stalled_world : world := with_form smooth_world start_field_never_appears.

(** ["yourschool" in s] *)
Definition has_placeholder (s : string) : Prop :=
  exists pre post, s = pre ++ "yourschool" ++ post.

Definition token_url (cfg : config) : string :=
  BASE_URL cfg ++ "/users/" ++ USER_ID cfg ++ "/tokens".

(** A configuration that passes the pre-flight check with no recipient
    and no account. *)
Definition blank_recipient_config : config :=
  {| ADMIN_API_TOKEN := "adm-token";
     USER_ID := "42";
     BASE_URL := "https://canvas.example.edu/api/v1";
     ACCOUNT_ID := "";
     REPORT_EMAIL := "";
     PAGE_LOAD_TIMEOUT := 30;
     FORM_SUBMIT_WAIT := 5;
     ELEMENT_WAIT_TIMEOUT := 10 |}.

(** ** Vocabulary of the further properties *)

(** *** More observers *)

Definition is_quit (ev : event) : bool :=
  match ev with BrowserQuit => true | _ => false end.
Definition is_chrome_start (ev : event) : bool :=
  match ev with ChromeStart _ => true | _ => false end.
Definition is_set_timeout (ev : event) : bool :=
  match ev with SetPageLoadTimeout _ => true | _ => false end.
Definition is_form_call (ev : event) : bool :=
  match ev with Browser _ => true | _ => false end.
Definition is_enter_cleanup (ev : event) : bool :=
  match ev with EnterCleanup => true | _ => false end.
Definition is_error_log (ev : event) : bool :=
  match ev with Log ERROR _ => true | _ => false end.

(** *** The form routine *)

(** What the form routine has written when it reaches the click: the
    page is loaded and the three fields are filled. *)
Definition filled_form (cfg : config) (url : Py.jvalue) (s e : string) : list event :=
  [Log INFO "Navigating to Roll Call attendance report page...";
   Browser (Navigate url);
   Log INFO ("Filling report form: " ++ s ++ " to " ++ e);
   Browser (WaitPresence start_date_field (ELEMENT_WAIT_TIMEOUT cfg));
   Browser (Clear start_date_field);
   Browser (SendKeys start_date_field s);
   Browser (FindElement end_date_field);
   Browser (Clear end_date_field);
   Browser (SendKeys end_date_field e);
   Browser (FindElement email_field);
   Browser (Clear email_field);
   Browser (SendKeys email_field (REPORT_EMAIL cfg));
   Browser (Sleep 2);
   Browser (FindElement commit_button)].

(** The fourteen browser calls of the form routine, in program order. *)
Definition form_calls (cfg : config) (url : Py.jvalue) (s e : string) : list event :=
  [Browser (Navigate url);
   Browser (WaitPresence start_date_field (ELEMENT_WAIT_TIMEOUT cfg));
   Browser (Clear start_date_field);
   Browser (SendKeys start_date_field s);
   Browser (FindElement end_date_field);
   Browser (Clear end_date_field);
   Browser (SendKeys end_date_field e);
   Browser (FindElement email_field);
   Browser (Clear email_field);
   Browser (SendKeys email_field (REPORT_EMAIL cfg));
   Browser (Sleep 2);
   Browser (FindElement commit_button);
   Browser (Click commit_button);
   Browser (Sleep (FORM_SUBMIT_WAIT cfg))].

(** The exception of the first browser call that raises, if one does. *)
Fixpoint first_raised (w : world) (steps : list form_step) : option Py.error :=
  match steps with
  | [] => None
  | st :: rest =>
      match form_outcome w st with
      | Some e => Some e
      | None => first_raised w rest
      end
  end.

Definition first_failure (w : world) : option Py.error := first_raised w form_steps.

(** *** The two blocks of [main], helper by helper *)

(** The events of the [try] block: each helper's events, as far as the
    results let the block go. *)
Definition try_trace (cfg : config) (w : world) : list event :=
  let created := create_temporary_token cfg w in
  (fst created ++
   match snd created with
   | Raise _ => []
   | Return (temp_token, _) =>
       let resolved := get_sessionless_launch_url cfg w temp_token in
       fst resolved ++
       match snd resolved with
       | Raise _ => []
       | Return sessionless_url =>
           if Py.truthy sessionless_url then
             let range := calculate_date_range w in
             fst range ++
             match snd range with
             | Raise _ => []
             | Return (start_date, end_date) =>
                 Log INFO ("Today is " ++ day_name (now_main w)
                           ++ ". Report date range: "
                           ++ start_date ++ " to " ++ end_date)
                 :: fst (configure_chrome_driver cfg w) ++
                    match snd (configure_chrome_driver cfg w) with
                    | Raise _ => []
                    | Return drv =>
                        fst (submit_attendance_report_form cfg w drv
                               start_date end_date sessionless_url)
                    end
             end
           else [Log ERROR "Could not obtain sessionless URL. Aborting."]
       end
   end)%list.

(** The events of the [finally] block, from the locals it finds. *)
Definition cleanup_trace (cfg : config) (w : world) (l : locals) : list event :=
  (EnterCleanup
   :: (if driver l is Some _ then [Log INFO "Closing browser..."; BrowserQuit] else [])
   ++ (if release_due w l
       then fst (delete_temporary_token cfg w (temp_token_id l))
       else []))%list.

(** *** Where the calls of a run go *)

(** The token request goes to the user's token endpoint with the
    administrator's credential; the launch request carries the token
    just acquired; a DELETE names the id just acquired; the browser loads
    the resolved URL and types the computed dates and the configured
    recipient. *)
Definition well_addressed (cfg : config) (w : world) (ev : event) : Prop :=
  match ev with
  | HttpPost url b =>
      url = token_url cfg /\ b = bearer (ADMIN_API_TOKEN cfg)
  | HttpGet url b =>
      url = launch_url cfg
      /\ exists tok tid, acquisition w = Some (tok, tid) /\ b = bearer (Py.str tok)
  | HttpDelete url b =>
      url = delete_url cfg (token_id_of w) /\ b = bearer (ADMIN_API_TOKEN cfg)
      /\ Py.truthy (token_id_of w) = true
  | Browser (Navigate url) => resolution w = Some url
  | Browser (SendKeys start_date_field text) =>
      exists e, calculate_date_range w = ([], Return (text, e))
  | Browser (SendKeys end_date_field text) =>
      exists s, calculate_date_range w = ([], Return (s, text))
  | Browser (SendKeys email_field text) => text = REPORT_EMAIL cfg
  | Browser (SendKeys commit_button _) => False
  | _ => True
  end.

(** *** Varying a credential *)



(** The same world, the token endpoint handing out another secret. *)
Definition with_visible_token (w : world) (v : Py.jvalue) : world :=
  match post_outcome w with
  | HttpResponse status_code text (JsonDict d) =>
      with_post w (HttpResponse status_code text (JsonDict (("visible_token", v) :: d)))
  | _ => w
  end.

Definition retoken (v : Py.jvalue) (ev : event) : event :=
  match ev with
  | HttpGet url _ => HttpGet url (bearer (Py.str v))
  | _ => ev
  end.

(** *** One more world *)

Definition with_page_load_timeout (w : world) (o : option Py.error) : world :=
  mkworld (now_range w) (now_main w) (post_outcome w) (get_outcome w)
    (chrome_outcome w) o (form_outcome w) (quit_outcome w) (delete_outcome w).

(** Chrome starts, then refuses its page-load timeout. *)
Definition half_started_world : world :=
  with_page_load_timeout smooth_world (Some Py.WebDriverException).

(** * Theorems *)

(** ** The calendar *)

Lemma is_leap_cycle a b c d :
  0 <= a -> 0 <= b <= 3 -> 0 <= c <= 24 -> 0 <= d <= 3 ->
  is_leap (a * 400 + 1 + b * 100 + c * 4 + d)
  = ((d =? 3) && (negb (c =? 24) || (b =? 3))).
Proof.
  intros Ha Hb Hc Hd. unfold is_leap.
  set (y := a * 400 + 1 + b * 100 + c * 4 + d).
  assert (H4 : y mod 4 = (d + 1) mod 4).
  { unfold y. replace (a * 400 + 1 + b * 100 + c * 4 + d)
      with ((d + 1) + (a * 100 + b * 25 + c) * 4) by ring.
    apply Z.mod_add. lia. }
  assert (H100 : y mod 100 = (c * 4 + d + 1) mod 100).
  { unfold y. replace (a * 400 + 1 + b * 100 + c * 4 + d)
      with ((c * 4 + d + 1) + (a * 4 + b) * 100) by ring.
    apply Z.mod_add. lia. }
  assert (H400 : y mod 400 = (b * 100 + c * 4 + d + 1) mod 400).
  { unfold y. replace (a * 400 + 1 + b * 100 + c * 4 + d)
      with ((b * 100 + c * 4 + d + 1) + a * 400) by ring.
    apply Z.mod_add. lia. }
  rewrite H4, H100, H400.
  destruct (Z.eqb_spec d 3) as [->|Hd3].
  - destruct (Z.eqb_spec c 24) as [->|Hc24].
    + destruct (Z.eqb_spec b 3) as [->|Hb3]; [reflexivity|].
      assert (b = 0 \/ b = 1 \/ b = 2) as [->|[->| ->]] by lia; reflexivity.
    + cbn [negb orb andb].
      replace ((3 + 1) mod 4) with 0 by reflexivity. cbn [Z.eqb andb].
      rewrite Z.mod_small by lia.
      destruct (Z.eqb_spec (c * 4 + 3 + 1) 0); [lia | reflexivity].
  - cbn [andb]. rewrite Z.mod_small by lia.
    destruct (Z.eqb_spec (d + 1) 0); [lia|].
    assert (d = 0 \/ d = 1 \/ d = 2) as [->|[->| ->]] by lia; reflexivity.
Qed.

Lemma days_before_year_cycle a b c d :
  0 <= a -> 0 <= b <= 3 -> 0 <= c <= 24 -> 0 <= d <= 3 ->
  days_before_year (a * 400 + 1 + b * 100 + c * 4 + d)
  = a * DI400Y + b * DI100Y + c * DI4Y + d * 365.
Proof.
  intros Ha Hb Hc Hd. unfold days_before_year, DI400Y, DI100Y, DI4Y.
  cbv zeta.
  replace (a * 400 + 1 + b * 100 + c * 4 + d - 1)
    with (a * 400 + b * 100 + c * 4 + d) by ring.
  assert (E4 : (a * 400 + b * 100 + c * 4 + d) / 4 = a * 100 + b * 25 + c).
  { symmetry. apply (Z.div_unique _ 4 _ d); lia. }
  assert (E100 : (a * 400 + b * 100 + c * 4 + d) / 100 = a * 4 + b).
  { symmetry. apply (Z.div_unique _ 100 _ (c * 4 + d)); lia. }
  assert (E400 : (a * 400 + b * 100 + c * 4 + d) / 400 = a).
  { symmetry. apply (Z.div_unique _ 400 _ (b * 100 + c * 4 + d)); lia. }
  rewrite E4, E100, E400. ring.
Qed.

Lemma upto_In k n : 0 <= n < Z.of_nat k -> In n (upto k).
Proof.
  induction k as [|k IH]; intros H; [lia|].
  cbn [upto]. destruct (Z.eq_dec n (Z.of_nat k)) as [->|Hne].
  - now left.
  - right. apply IH. lia.
Qed.

Lemma in_year_ok_all (leapyear : bool) n :
  0 <= n < (if leapyear then 366 else 365) -> in_year_ok leapyear n = true.
Proof.
  intros H.
  assert (A : forallb (in_year_ok true) (upto 366) = true) by (vm_compute; reflexivity).
  assert (B : forallb (in_year_ok false) (upto 365) = true) by (vm_compute; reflexivity).
  rewrite forallb_forall in A, B.
  destruct leapyear; [apply A | apply B]; apply upto_In; lia.
Qed.

Lemma ord2ymd_in_year n :
  let n0 := n - 1 in
  let n400 := n0 / DI400Y in
  let r1 := n0 mod DI400Y in
  let n100 := r1 / DI100Y in
  let r2 := r1 mod DI100Y in
  let n4 := r2 / DI4Y in
  let r3 := r2 mod DI4Y in
  let n1 := r3 / 365 in
  let r4 := r3 mod 365 in
  let y := n400 * 400 + 1 + n100 * 100 + n4 * 4 + n1 in
  ord2ymd n =
    if (n1 =? 4) || (n100 =? 4) then mkdate (y - 1) 12 31
    else let (m, d) := in_year ((n1 =? 3) && (negb (n4 =? 24) || (n100 =? 3))) r4 in
         mkdate y m d.
Proof.
  cbv zeta. unfold ord2ymd, in_year. cbv zeta.
  match goal with |- context [if ?c || ?c' then _ else _] => destruct (c || c') end;
    [reflexivity|].
  match goal with |- context [if ?c then _ else _] => destruct c end; reflexivity.
Qed.

Lemma days_before_year_mono y y' :
  1 <= y <= y' -> days_before_year y <= days_before_year y'.
Proof.
  intros H. unfold days_before_year. cbv zeta.
  Z.div_mod_to_equations. lia.
Qed.

Theorem ord2ymd_spec n :
  1 <= n ->
  toordinal (ord2ymd n) = n /\ 1 <= year (ord2ymd n)
  /\ 1 <= month (ord2ymd n) <= 12
  /\ 1 <= day (ord2ymd n) <= days_in_month (year (ord2ymd n)) (month (ord2ymd n)).
Proof.
  intros Hn. rewrite ord2ymd_in_year. cbv zeta.
  set (n0 := n - 1).
  set (a := n0 / DI400Y). set (r1 := n0 mod DI400Y).
  set (b := r1 / DI100Y). set (r2 := r1 mod DI100Y).
  set (c := r2 / DI4Y). set (r3 := r2 mod DI4Y).
  set (d := r3 / 365). set (r4 := r3 mod 365).
  assert (Hn0 : n0 = a * DI400Y + r1 /\ 0 <= r1 < DI400Y).
  { unfold a, r1, DI400Y. split; [|apply Z.mod_pos_bound; lia].
    rewrite Z.mul_comm. apply Z.div_mod. lia. }
  assert (Hr1 : r1 = b * DI100Y + r2 /\ 0 <= r2 < DI100Y).
  { unfold b, r2, DI100Y. split; [|apply Z.mod_pos_bound; lia].
    rewrite Z.mul_comm. apply Z.div_mod. lia. }
  assert (Hr2 : r2 = c * DI4Y + r3 /\ 0 <= r3 < DI4Y).
  { unfold c, r3, DI4Y. split; [|apply Z.mod_pos_bound; lia].
    rewrite Z.mul_comm. apply Z.div_mod. lia. }
  assert (Hr3 : r3 = d * 365 + r4 /\ 0 <= r4 < 365).
  { unfold d, r4. split; [|apply Z.mod_pos_bound; lia].
    rewrite Z.mul_comm. apply Z.div_mod. lia. }
  assert (Ha : 0 <= a) by (unfold a, DI400Y; apply Z.div_pos; lia).
  assert (Hb : 0 <= b) by (unfold b, DI100Y; apply Z.div_pos; lia).
  assert (Hc : 0 <= c) by (unfold c, DI4Y; apply Z.div_pos; lia).
  assert (Hd : 0 <= d) by (unfold d; apply Z.div_pos; lia).
  clearbody a r1 b r2 c r3 d r4. unfold DI400Y, DI100Y, DI4Y in *.
  assert (Hb4 : b <= 4) by lia.
  assert (Hc24 : c <= 24) by lia.
  assert (Hd4 : d <= 4) by lia.
  destruct (Z.eqb_spec d 4) as [Ed|Ed]; cbn [orb].
  - (* last day of a four-year cycle *)
    assert (Hb3 : b <= 3) by lia.
    assert (Hc23 : c <= 23) by lia.
    replace (a * 400 + 1 + b * 100 + c * 4 + d - 1)
      with (a * 400 + 1 + b * 100 + c * 4 + 3) by lia.
    unfold toordinal, ymd2ord, days_before_month, days_in_month. cbn [year month day].
    rewrite days_before_year_cycle by lia.
    rewrite is_leap_cycle by lia.
    replace (c =? 24) with false by (symmetry; apply Z.eqb_neq; lia).
    cbn. unfold DI400Y, DI100Y, DI4Y. lia.
  - destruct (Z.eqb_spec b 4) as [Eb|Eb].
    + (* last day of a 400-year cycle *)
      assert (c = 0 /\ d = 0) as [-> ->] by lia. subst b.
      replace (a * 400 + 1 + 4 * 100 + 0 * 4 + 0 - 1)
        with (a * 400 + 1 + 3 * 100 + 24 * 4 + 3) by lia.
      unfold toordinal, ymd2ord, days_before_month, days_in_month. cbn [year month day].
      rewrite days_before_year_cycle by lia.
      rewrite is_leap_cycle by lia.
      cbn. unfold DI400Y, DI100Y, DI4Y. lia.
    + assert (Hb3 : b <= 3) by lia.
      assert (Hd3 : d <= 3) by lia.
      set (leap := (d =? 3) && (negb (c =? 24) || (b =? 3))).
      assert (Hr : 0 <= r4 < (if leap then 366 else 365)) by (destruct leap; lia).
      pose proof (in_year_ok_all leap r4 Hr) as Hok.
      unfold in_year_ok in Hok.
      destruct (in_year leap r4) as [m dd].
      rewrite !andb_true_iff in Hok.
      destruct Hok as [[[[H1 H2] H3] H4] H5].
      apply Z.leb_le in H1, H2, H3, H4. apply Z.eqb_eq in H5.
      unfold toordinal, ymd2ord, days_before_month, days_in_month. cbn [year month day].
      rewrite days_before_year_cycle by lia.
      rewrite is_leap_cycle by lia. fold leap.
      unfold DI400Y, DI100Y, DI4Y.
      repeat split; lia.
Qed.

Lemma is_leap_cases y :
  is_leap y = true /\ y mod 4 = 0 /\ (y mod 100 <> 0 \/ y mod 400 = 0)
  \/ is_leap y = false /\ (y mod 4 <> 0 \/ y mod 100 = 0 /\ y mod 400 <> 0).
Proof.
  unfold is_leap.
  destruct (Z.eqb_spec (y mod 4) 0), (Z.eqb_spec (y mod 100) 0),
    (Z.eqb_spec (y mod 400) 0); cbn; intuition lia.
Qed.

Lemma days_before_year_succ y :
  1 <= y ->
  days_before_year (y + 1) = days_before_year y + (if is_leap y then 366 else 365).
Proof.
  intros Hy. unfold days_before_year. cbv zeta.
  replace (y + 1 - 1) with y by ring.
  destruct (is_leap_cases y) as [(-> & H4 & H100) | (-> & H)];
    Z.div_mod_to_equations; lia.
Qed.

Lemma month_cases m : 1 <= m <= 12 ->
  m = 1 \/ m = 2 \/ m = 3 \/ m = 4 \/ m = 5 \/ m = 6 \/ m = 7 \/ m = 8
  \/ m = 9 \/ m = 10 \/ m = 11 \/ m = 12.
Proof. lia. Qed.

Ltac each_month m H :=
  destruct (month_cases m H) as
    [->|[->|[->|[->|[->|[->|[->|[->|[->|[->|[->| ->]]]]]]]]]]].

Lemma days_before_month_succ y m :
  1 <= m <= 11 ->
  days_before_month y (m + 1) = days_before_month y m + days_in_month y m.
Proof.
  intros H. unfold days_before_month, days_in_month.
  assert (H' : 1 <= m <= 12) by lia.
  each_month m H'; try lia; destruct (is_leap y); reflexivity.
Qed.

Lemma days_in_month_bounds y m : 1 <= m <= 12 -> 28 <= days_in_month y m <= 31.
Proof.
  intros H. unfold days_in_month.
  each_month m H; destruct (is_leap y); cbn; lia.
Qed.

Lemma days_before_month_mono y m m' :
  1 <= m -> m < m' -> m' <= 12 ->
  days_before_month y m + days_in_month y m <= days_before_month y m'.
Proof.
  intros H1 H2 H3. unfold days_before_month, days_in_month.
  assert (Hm : 1 <= m <= 12) by lia. assert (Hm' : 1 <= m' <= 12) by lia.
  each_month m Hm; each_month m' Hm'; try lia; destruct (is_leap y); cbn; lia.
Qed.

Lemma toordinal_in_year t :
  valid_date t ->
  days_before_year (year t) + 1 <= toordinal t <= days_before_year (year t + 1).
Proof.
  intros (Hy & Hm & Hd). unfold toordinal, ymd2ord.
  rewrite days_before_year_succ by lia.
  revert Hd. unfold days_before_month, days_in_month.
  each_month (month t) Hm; destruct (is_leap (year t)); cbn; lia.
Qed.

Theorem toordinal_inj t1 t2 :
  valid_date t1 -> valid_date t2 -> toordinal t1 = toordinal t2 -> t1 = t2.
Proof.
  intros V1 V2 E.
  pose proof (toordinal_in_year t1 V1) as B1.
  pose proof (toordinal_in_year t2 V2) as B2.
  destruct V1 as (Hy1 & Hm1 & Hd1), V2 as (Hy2 & Hm2 & Hd2).
  assert (Ey : year t1 = year t2).
  { destruct (Z.lt_trichotomy (year t1) (year t2)) as [L|[L|L]]; [|exact L|].
    - pose proof (days_before_year_mono (year t1 + 1) (year t2)). lia.
    - pose proof (days_before_year_mono (year t2 + 1) (year t1)). lia. }
  unfold toordinal, ymd2ord in E. rewrite Ey in *.
  assert (Em : month t1 = month t2).
  { destruct (Z.lt_trichotomy (month t1) (month t2)) as [L|[L|L]]; [|exact L|].
    - pose proof (days_before_month_mono (year t2) (month t1) (month t2)). lia.
    - pose proof (days_before_month_mono (year t2) (month t2) (month t1)). lia. }
  rewrite Em in E.
  destruct t1, t2; cbn in *. f_equal; lia.
Qed.

Lemma days_before_year_1 : days_before_year 1 = 0.
Proof. reflexivity. Qed.

Lemma days_before_year_10000 : days_before_year 10000 = MAXORDINAL.
Proof. reflexivity. Qed.

Lemma days_before_month_nonneg y m : 1 <= m <= 12 -> 0 <= days_before_month y m.
Proof.
  intros H. unfold days_before_month.
  each_month m H; destruct (is_leap y); cbn; lia.
Qed.

Lemma toordinal_max t : valid_date t -> 1 <= toordinal t <= MAXORDINAL.
Proof.
  intros V. pose proof (toordinal_in_year t V) as B.
  destruct V as (Hy & _).
  pose proof (days_before_year_mono 1 (year t)) as L1.
  pose proof (days_before_year_mono (year t + 1) 10000) as L2.
  rewrite days_before_year_1 in L1. rewrite days_before_year_10000 in L2. lia.
Qed.

Lemma fromordinal_valid n :
  1 <= n <= MAXORDINAL -> valid_date (fromordinal n) /\ toordinal (fromordinal n) = n.
Proof.
  intros Hn. unfold fromordinal.
  assert (H1 : 1 <= n) by lia.
  generalize (ord2ymd_spec n H1). generalize (ord2ymd n).
  intros t (E & Hy & Hm & Hd).
  split; [|exact E]. repeat split; try lia.
  destruct (Z.le_gt_cases (year t) 9999) as [L|L]; [exact L|].
  exfalso.
  pose proof (days_before_year_mono 10000 (year t)) as L1.
  rewrite days_before_year_10000 in L1.
  pose proof (days_before_month_nonneg (year t) (month t) Hm).
  unfold toordinal, ymd2ord in E. lia.
Qed.

Theorem fromordinal_toordinal t : valid_date t -> fromordinal (toordinal t) = t.
Proof.
  intros V. pose proof (toordinal_max t V) as B.
  destruct (fromordinal_valid (toordinal t) B) as [V' E].
  now apply toordinal_inj.
Qed.

Lemma prev_day_spec t :
  valid_date t -> 1 < toordinal t ->
  valid_date (prev_day t) /\ toordinal (prev_day t) = toordinal t - 1.
Proof.
  intros (Hy & Hm & Hd) Hlt. unfold prev_day.
  destruct (Z.ltb_spec 1 (day t)) as [D|D].
  - split; [repeat split; cbn; lia | unfold toordinal, ymd2ord; cbn; lia].
  - assert (Ed : day t = 1) by lia.
    destruct (Z.ltb_spec 1 (month t)) as [Mo|Mo].
    + pose proof (days_in_month_bounds (year t) (month t - 1)).
      split; [repeat split; cbn; lia|].
      unfold toordinal, ymd2ord. cbn [year month day].
      pose proof (days_before_month_succ (year t) (month t - 1)).
      replace (month t - 1 + 1) with (month t) in * by ring. lia.
    + assert (Em : month t = 1) by lia.
      assert (1 < year t).
      { unfold toordinal, ymd2ord in Hlt. rewrite Em, Ed in Hlt.
        destruct (Z.eq_dec (year t) 1) as [E1|]; [|lia].
        rewrite E1 in Hlt. cbn in Hlt. lia. }
      split; [repeat split; cbn; lia|].
      unfold toordinal, ymd2ord. cbn [year month day]. rewrite Em, Ed.
      pose proof (days_before_year_succ (year t - 1)).
      replace (year t - 1 + 1) with (year t) in * by ring.
      unfold days_before_month.
      destruct (is_leap (year t - 1)), (is_leap (year t)); cbn; lia.
Qed.

Lemma days_back_spec k t :
  valid_date t -> Z.of_nat k < toordinal t ->
  valid_date (days_back k t) /\ toordinal (days_back k t) = toordinal t - Z.of_nat k.
Proof.
  revert t. induction k as [|k IH]; intros t V H.
  - cbn [days_back]. split; [exact V | lia].
  - cbn [days_back].
    destruct (prev_day_spec t V) as [V' E']; [lia|].
    destruct (IH (prev_day t) V') as [V'' E'']; [lia|].
    split; [exact V'' | lia].
Qed.

Theorem sub_days_calendar t k :
  valid_date t -> Z.of_nat k < toordinal t ->
  sub_days t (Z.of_nat k) = Some (days_back k t).
Proof.
  intros V H. unfold sub_days. cbv zeta.
  pose proof (toordinal_max t V) as B.
  destruct (days_back_spec k t V H) as [V' E'].
  replace ((0 <? toordinal t - Z.of_nat k) && (toordinal t - Z.of_nat k <=? MAXORDINAL))
    with true by (symmetry; apply andb_true_iff; split; [apply Z.ltb_lt | apply Z.leb_le]; lia).
  f_equal. rewrite <- E'. now apply fromordinal_toordinal.
Qed.

Lemma digit_val_digit k : 0 <= k <= 9 -> digit_val (digit k) = Some k.
Proof.
  intros H.
  assert (k = 0 \/ k = 1 \/ k = 2 \/ k = 3 \/ k = 4 \/ k = 5 \/ k = 6 \/ k = 7
          \/ k = 8 \/ k = 9) as [->|[->|[->|[->|[->|[->|[->|[->|[->| ->]]]]]]]]]
    by lia; reflexivity.
Qed.

Lemma num2_digits n :
  0 <= n <= 99 -> num2 (digit (n / 10)) (digit (n mod 10)) = Some n.
Proof.
  intros H. unfold num2.
  rewrite !digit_val_digit by (Z.div_mod_to_equations; lia).
  f_equal. Z.div_mod_to_equations; lia.
Qed.

Lemma num4_digits n :
  0 <= n <= 9999 ->
  num4 (digit (n / 1000)) (digit (n / 100 mod 10))
       (digit (n / 10 mod 10)) (digit (n mod 10)) = Some n.
Proof.
  intros H. unfold num4, num2.
  rewrite !digit_val_digit by (Z.div_mod_to_equations; lia).
  f_equal. Z.div_mod_to_equations; lia.
Qed.

Lemma valid_dateb_true t : valid_date t -> valid_dateb t = true.
Proof.
  intros (Hy & Hm & Hd). unfold valid_dateb.
  rewrite !andb_true_iff. repeat split; apply Z.leb_le; lia.
Qed.

Lemma valid_dateb_sound t : valid_dateb t = true -> valid_date t.
Proof.
  unfold valid_dateb, valid_date. rewrite !andb_true_iff, !Z.leb_le. tauto.
Qed.

Theorem parse_strftime t : valid_date t -> parse_mdY (strftime_mdY t) = Some t.
Proof.
  intros V. pose proof (valid_dateb_true t V) as Vb.
  destruct V as (Hy & Hm & Hd).
  pose proof (days_in_month_bounds (year t) (month t) Hm) as Hb.
  unfold strftime_mdY, pad2, pad4. cbn [append]. unfold parse_mdY.
  rewrite !num2_digits by lia. rewrite num4_digits by lia.
  destruct t as [y m d]. cbn [year month day] in *. now rewrite Vb.
Qed.

Lemma weekday_range t : 0 <= weekday t <= 6.
Proof. unfold weekday. pose proof (Z.mod_pos_bound (toordinal t + 6) 7). lia. Qed.

Lemma weekday_prev_day t :
  valid_date t -> 1 < toordinal t ->
  weekday (prev_day t) = (weekday t + 6) mod 7.
Proof.
  intros V H. destruct (prev_day_spec t V H) as [_ E].
  unfold weekday. rewrite E. Z.div_mod_to_equations. lia.
Qed.

Lemma monday_not_first_week t :
  weekday t = 0 -> 1 < toordinal t -> 7 < toordinal t.
Proof. unfold weekday. intros H1 H2. Z.div_mod_to_equations. lia. Qed.

Lemma sub_days_1 t :
  valid_date t -> 1 < toordinal t -> sub_days t 1 = Some (days_back 1 t).
Proof. intros V H. exact (sub_days_calendar t 1 V H). Qed.

Lemma sub_days_7 t :
  valid_date t -> 7 < toordinal t -> sub_days t 7 = Some (days_back 7 t).
Proof. intros V H. exact (sub_days_calendar t 7 V H). Qed.

Lemma calculate_date_range_returns w :
  valid_date (now_range w) -> 1 < toordinal (now_range w) ->
  calculate_date_range w
  = ([], Return (strftime_mdY (fst (date_range_policy (now_range w))),
                 strftime_mdY (snd (date_range_policy (now_range w))))).
Proof.
  intros V H. unfold calculate_date_range, date_range_policy. cbv zeta.
  rewrite (sub_days_1 _ V H).
  destruct (Z.eqb_spec (weekday (now_range w)) 0) as [Mon|NotMon].
  - rewrite (sub_days_7 _ V (monday_not_first_week _ Mon H)).
    cbn [fst snd ret Monad_W]. reflexivity.
  - cbn [fst snd ret Monad_W]. reflexivity.
Qed.

Lemma date_range_policy_valid t :
  valid_date t -> 1 < toordinal t ->
  valid_date (fst (date_range_policy t)) /\ valid_date (snd (date_range_policy t))
  /\ toordinal (fst (date_range_policy t))
     = toordinal t - (if weekday t =? 0 then 7 else 1)
  /\ toordinal (snd (date_range_policy t)) = toordinal t - 1.
Proof.
  intros V H. unfold date_range_policy.
  destruct (days_back_spec 1 t V) as [V1 E1]; [cbn; lia|].
  destruct (Z.eqb_spec (weekday t) 0) as [Mon|NotMon]; cbn [fst snd].
  - pose proof (monday_not_first_week _ Mon H).
    destruct (days_back_spec 7 t V) as [V7 E7]; [cbn; lia|].
    repeat split; try assumption; try apply V7; try apply V1; lia.
  - repeat split; try assumption; try apply V1; lia.
Qed.

(** C2.  For every run date the clock can report (a date of the
    proleptic Gregorian calendar other than [date.min], where the
    subtraction itself overflows), [calculate_date_range] returns two
    strings without logging anything.  The end string reads as the run
    date minus one day.  The start string reads as the run date minus
    seven days when the run date is a Monday ([weekday() == 0]), and as
    the run date minus one day on every other weekday.  "Minus k days" is
    [days_back k]: k steps of the calendar's day-before function, which
    never looks at an ordinal.  The two examples of the specification
    follow: Monday 2025-12-15 gives 12/08/2025 through 12/14/2025, and
    Wednesday 2025-12-17 gives 12/16/2025 twice. *)
Theorem date_range_follows_weekday (w : world) :
  valid_date (now_range w) -> 1 < toordinal (now_range w) ->
  (exists start_date end_date,
     calculate_date_range w = ([], Return (start_date, end_date))
     /\ parse_mdY end_date = Some (days_back 1 (now_range w))
     /\ (weekday (now_range w) = 0 ->
         parse_mdY start_date = Some (days_back 7 (now_range w)))
     /\ (weekday (now_range w) <> 0 ->
         parse_mdY start_date = Some (days_back 1 (now_range w))))
  /\ (now_range w = mkdate 2025 12 15 ->
      weekday (now_range w) = 0
      /\ calculate_date_range w = ([], Return ("12/08/2025", "12/14/2025"))
      /\ parse_mdY "12/08/2025" = Some (mkdate 2025 12 8)
      /\ parse_mdY "12/14/2025" = Some (mkdate 2025 12 14))
  /\ (now_range w = mkdate 2025 12 17 ->
      weekday (now_range w) = 2
      /\ calculate_date_range w = ([], Return ("12/16/2025", "12/16/2025"))
      /\ parse_mdY "12/16/2025" = Some (mkdate 2025 12 16)).
Proof.
  intros V H. split; [|split].
  - destruct (date_range_policy_valid _ V H) as (Vs & Ve & _).
    eexists _, _. split; [apply calculate_date_range_returns; assumption|].
    rewrite !parse_strftime by assumption.
    unfold date_range_policy.
    destruct (Z.eqb_spec (weekday (now_range w)) 0); cbn [fst snd];
      repeat split; intros; try reflexivity; contradiction.
  - intros E. unfold calculate_date_range. rewrite E. repeat split; reflexivity.
  - intros E. unfold calculate_date_range. rewrite E. repeat split; reflexivity.
Qed.

Lemma date_range_follows_weekday_witness :
  weekday (now_range smooth_world) = 0
  /\ calculate_date_range smooth_world = ([], Return ("12/08/2025", "12/14/2025"))
  /\ weekday (now_range midweek_world) = 2
  /\ calculate_date_range midweek_world = ([], Return ("12/16/2025", "12/16/2025")).
Proof.
  destruct (date_range_follows_weekday smooth_world) as (_ & Monday & _);
    [apply valid_dateb_sound; reflexivity | reflexivity |].
  destruct (date_range_follows_weekday midweek_world) as (_ & _ & Wednesday);
    [apply valid_dateb_sound; reflexivity | reflexivity |].
  destruct (Monday eq_refl) as (M1 & M2 & _).
  destruct (Wednesday eq_refl) as (W1 & W2 & _).
  repeat split; assumption.
Defined.

(** On [date.min], a Monday, [today - timedelta(days=7)] leaves the range
    of [datetime] and the function raises [OverflowError] instead. *)
Example date_range_overflows_on_first_day :
  weekday (now_range first_day_world) = 0
  /\ calculate_date_range first_day_world = ([], Raise (Py.Err Py.OtherException)).
Proof. split; reflexivity. Qed.

(** C7.  For every such run date the function returns two strings that
    read back as calendar dates with start <= end < run date, and the end
    date is the run date minus exactly one day: the calendar's day before,
    one ordinal below the run date. *)
Theorem date_range_ends_yesterday (w : world) :
  valid_date (now_range w) -> 1 < toordinal (now_range w) ->
  exists start_date end_date start_day end_day,
    calculate_date_range w = ([], Return (start_date, end_date))
    /\ parse_mdY start_date = Some start_day
    /\ parse_mdY end_date = Some end_day
    /\ date_le start_day end_day
    /\ date_lt end_day (now_range w)
    /\ end_day = days_back 1 (now_range w)
    /\ toordinal end_day = toordinal (now_range w) - 1.
Proof.
  intros V H.
  destruct (date_range_policy_valid _ V H) as (Vs & Ve & Es & Ee).
  eexists _, _, _, _. split; [apply calculate_date_range_returns; assumption|].
  rewrite !parse_strftime by assumption.
  split; [reflexivity|]. split; [reflexivity|].
  unfold date_le, date_lt. rewrite Es, Ee.
  repeat split; try lia.
  - destruct (weekday (now_range w) =? 0); lia.
  - unfold date_range_policy. now destruct (weekday (now_range w) =? 0).
Qed.

Lemma date_range_ends_yesterday_witness :
  exists start_date end_date start_day end_day,
    calculate_date_range midweek_world = ([], Return (start_date, end_date))
    /\ parse_mdY start_date = Some start_day
    /\ parse_mdY end_date = Some end_day
    /\ date_le start_day end_day
    /\ date_lt end_day (mkdate 2025 12 17)
    /\ end_day = mkdate 2025 12 16
    /\ toordinal end_day = toordinal (mkdate 2025 12 17) - 1.
Proof.
  apply (date_range_ends_yesterday midweek_world);
    [apply valid_dateb_sound; reflexivity | reflexivity].
Defined.

(** ** The helper functions, outcome by outcome *)

Ltac fail_here :=
  intros _; eexists _, _; (split; [reflexivity|split; [reflexivity|]]);
  first [left; reflexivity | right; reflexivity].

Lemma create_acquired cfg w p :
  acquisition w = Some p ->
  create_temporary_token cfg w
  = ([Log INFO "Creating temporary API token...";
      HttpPost (BASE_URL cfg ++ "/users/" ++ USER_ID cfg ++ "/tokens")
               (bearer (ADMIN_API_TOKEN cfg));
      Log INFO "Temporary token created successfully (expires in 1 hour)"],
     Return p).
Proof.
  unfold acquisition, create_temporary_token.
  destruct (post_outcome w) as [e|st txt [e|d]]; try discriminate.
  destruct (st =? 200); cbn [andb]; try discriminate.
  destruct (Py.truthy (Py.dict_get "visible_token" d)); try discriminate.
  intros [= <-]. reflexivity.
Qed.

Lemma create_failed cfg w :
  acquisition w = None ->
  exists t e, create_temporary_token cfg w = (t, Raise e)
    /\ forallb (fun ev => is_log ev || is_post ev) t = true
    /\ exits_one (@Raise unit e).
Proof.
  unfold acquisition, create_temporary_token.
  destruct (post_outcome w) as [[]|st txt [[]|d]]; intros H;
    try (destruct (st =? 200) eqn:E200; cbn [andb] in H);
    try (destruct (Py.truthy (Py.dict_get "visible_token" d)) eqn:Etok);
    try discriminate;
    eexists _, _; (split; [reflexivity|split; reflexivity]).
Qed.

Lemma get_resolved cfg w tok url :
  resolution w = Some url ->
  Py.truthy url = true /\
  get_sessionless_launch_url cfg w tok
  = ([Log INFO "Generating Roll Call sessionless launch URL...";
      HttpGet (launch_url cfg) (bearer (Py.str tok));
      Log INFO "Sessionless launch URL retrieved successfully"],
     Return url).
Proof.
  unfold resolution, get_sessionless_launch_url.
  destruct (get_outcome w) as [e|st txt [e|d]]; try discriminate.
  destruct (st =? 200); cbn [andb]; try discriminate.
  destruct (Py.truthy (Py.dict_get "url" d)) eqn:E; try discriminate.
  intros [= <-]. split; [exact E | reflexivity].
Qed.

Lemma get_unresolved cfg w tok :
  resolution w = None ->
  exists t r, get_sessionless_launch_url cfg w tok = (t, r)
    /\ forallb (fun ev => is_log ev || is_get ev) t = true
    /\ (r = Return Py.JNull \/ exists e, r = Raise (Py.Err e)).
Proof.
  unfold resolution, get_sessionless_launch_url.
  destruct (get_outcome w) as [[]|st txt [[]|d]]; intros H;
    try (destruct (st =? 200) eqn:E200; cbn [andb] in H);
    try (destruct (Py.truthy (Py.dict_get "url" d)) eqn:Eurl);
    try discriminate;
    eexists _, _; (split; [reflexivity|split; [reflexivity|]]);
    first [left; reflexivity | right; eexists; reflexivity].
Qed.

Lemma chrome_configured cfg w :
  chrome_ready w = true ->
  configure_chrome_driver cfg w
  = ([Log INFO "Initializing headless Chrome browser...";
      ChromeStart chrome_arguments;
      SetPageLoadTimeout (PAGE_LOAD_TIMEOUT cfg);
      Log INFO "Chrome browser initialized successfully"],
     Return Chrome).
Proof.
  unfold chrome_ready, configure_chrome_driver.
  destruct (chrome_outcome w), (set_timeout_outcome w); try discriminate.
  reflexivity.
Qed.

Lemma chrome_failed cfg w :
  chrome_ready w = false ->
  exists t e, configure_chrome_driver cfg w = (t, Raise e)
    /\ forallb is_try_event t = true
    /\ exits_one (@Raise unit e).
Proof.
  unfold chrome_ready, configure_chrome_driver.
  destruct (chrome_outcome w) as [[]|], (set_timeout_outcome w) as [[]|];
    try discriminate; intros _;
    eexists _, _; (split; [reflexivity|split; reflexivity]).
Qed.

Lemma submit_confirmed cfg w drv s e url :
  all_steps_return w = true ->
  submit_attendance_report_form cfg w drv s e url
  = ([Log INFO "Navigating to Roll Call attendance report page...";
      Browser (Navigate url);
      Log INFO ("Filling report form: " ++ s ++ " to " ++ e);
      Browser (WaitPresence start_date_field (ELEMENT_WAIT_TIMEOUT cfg));
      Browser (Clear start_date_field);
      Browser (SendKeys start_date_field s);
      Browser (FindElement end_date_field);
      Browser (Clear end_date_field);
      Browser (SendKeys end_date_field e);
      Browser (FindElement email_field);
      Browser (Clear email_field);
      Browser (SendKeys email_field (REPORT_EMAIL cfg));
      Browser (Sleep 2);
      Browser (FindElement commit_button);
      Browser (Click commit_button);
      Log INFO "Form submitted successfully";
      Browser (Sleep (FORM_SUBMIT_WAIT cfg))],
     Return true).
Proof.
  unfold all_steps_return, form_steps. cbn [forallb].
  rewrite !andb_true_iff. intros H.
  repeat match type of H with _ /\ _ => destruct H as [? H] end.
  unfold submit_attendance_report_form, browser.
  repeat match goal with
    | E : returns (form_outcome w ?s) = true |- _ =>
        destruct (form_outcome w s); [discriminate E|clear E]
    end.
  reflexivity.
Qed.

Lemma submit_unconfirmed cfg w drv s e url :
  all_steps_return w = false ->
  exists t r, submit_attendance_report_form cfg w drv s e url = (t, r)
    /\ forallb is_try_event t = true
    /\ (r = Return false \/ r = Raise (Py.Err Py.KeyboardInterrupt)).
Proof.
  unfold all_steps_return, form_steps, submit_attendance_report_form, browser.
  cbn [forallb].
  destruct (form_outcome w StepGet) as [[]|]; [fail_here..|].
  destruct (form_outcome w StepWaitStart) as [[]|]; [fail_here..|].
  destruct (form_outcome w StepClearStart) as [[]|]; [fail_here..|].
  destruct (form_outcome w StepSendStart) as [[]|]; [fail_here..|].
  destruct (form_outcome w StepFindEnd) as [[]|]; [fail_here..|].
  destruct (form_outcome w StepClearEnd) as [[]|]; [fail_here..|].
  destruct (form_outcome w StepSendEnd) as [[]|]; [fail_here..|].
  destruct (form_outcome w StepFindEmail) as [[]|]; [fail_here..|].
  destruct (form_outcome w StepClearEmail) as [[]|]; [fail_here..|].
  destruct (form_outcome w StepSendEmail) as [[]|]; [fail_here..|].
  destruct (form_outcome w StepSettle) as [[]|]; [fail_here..|].
  destruct (form_outcome w StepFindCommit) as [[]|]; [fail_here..|].
  destruct (form_outcome w StepClick) as [[]|]; [fail_here..|].
  destruct (form_outcome w StepPostWait) as [[]|]; [fail_here..|].
  discriminate.
Qed.

Lemma delete_shape cfg w tid :
  exists t r,
    delete_temporary_token cfg w tid
    = (Log INFO "Cleaning up temporary token..."
       :: HttpDelete (delete_url cfg tid) (bearer (ADMIN_API_TOKEN cfg)) :: t, r)
    /\ forallb is_log t = true
    /\ (if release_contained w then r = Return tt
        else exists e, r = Raise (Py.Err e)).
Proof.
  unfold delete_temporary_token, release_contained, delete_url.
  destruct (delete_outcome w) as [[]|st txt js];
    try (destruct (st =? 200) eqn:E200);
    eexists _, _; (split; [reflexivity|split; [reflexivity|]]);
    first [reflexivity | eexists; reflexivity].
Qed.

Lemma count_nil p : count p [] = 0%nat.
Proof. reflexivity. Qed.

Lemma count_cons p ev t :
  count p (ev :: t) = ((if p ev then 1 else 0) + count p t)%nat.
Proof. unfold count. cbn [filter]. destruct (p ev); reflexivity. Qed.

Lemma count_app p t t' : count p (t ++ t') = (count p t + count p t')%nat.
Proof. unfold count. now rewrite filter_app, length_app. Qed.

Lemma count_none p q t :
  forallb q t = true -> (forall ev, q ev = true -> p ev = false) -> count p t = 0%nat.
Proof.
  intros H Hq. induction t as [|ev t IH]; [reflexivity|].
  cbn [forallb] in H. apply andb_true_iff in H as [Hev Ht].
  rewrite count_cons, (Hq ev Hev), IH by exact Ht. reflexivity.
Qed.

Lemma forallb_weaken (p q : event -> bool) t :
  forallb p t = true -> (forall ev, p ev = true -> q ev = true) -> forallb q t = true.
Proof.
  intros H Hpq. rewrite forallb_forall in *. auto.
Qed.

Local Arguments delete_temporary_token : simpl never.
Local Arguments bearer : simpl never.

Lemma main_finally_shape cfg w l :
  exists t r,
    main_finally cfg w l = (EnterCleanup :: t, l, r)
    /\ forallb is_cleanup_event t = true
    /\ count is_delete t = (if release_due w l then 1 else 0)%nat
    /\ count is_browser t = (if driver l is Some _ then 1 else 0)%nat
    /\ (if reaches_release w l
        then if Py.truthy (temp_token_id l) && negb (release_contained w)
             then exists e, r = Raise (Py.Err e)
             else r = Return tt
        else r = Raise (Py.Err Py.KeyboardInterrupt))
    /\ (release_due w l = true ->
        In (HttpDelete (delete_url cfg (temp_token_id l))
                       (bearer (ADMIN_API_TOKEN cfg))) t).
Proof.
  destruct (delete_shape cfg w (temp_token_id l)) as (td & rd & Ed & Fd & Rd).
  assert (Cd1 : count is_delete td = 0%nat)
    by (apply (count_none _ _ _ Fd); now intros []).
  assert (Cd2 : count is_browser td = 0%nat)
    by (apply (count_none _ _ _ Fd); now intros []).
  assert (Cd3 : forallb is_cleanup_event td = true)
    by (apply (forallb_weaken _ _ _ Fd); now intros []).
  unfold main_finally, release_due, reaches_release, teardown_contained.
  destruct l as [tid drv ok]. cbn [driver temp_token_id] in *.
  destruct drv as [d|]; [destruct (quit_outcome w) as [[]|]|];
    cbn; destruct (Py.truthy tid) eqn:Et; cbn; rewrite ?Ed; cbn;
    destruct (release_contained w); cbn;
    (eexists _, _; split; [reflexivity|]);
    cbn [forallb is_cleanup_event andb];
    rewrite ?count_cons, ?count_nil, ?Cd1, ?Cd2, ?Cd3;
    cbn [is_delete is_browser Nat.add];
    repeat split; try reflexivity; try exact Rd; try discriminate;
    intros _; cbn [In]; auto 6.
Qed.

Lemma calculate_date_range_shape w :
  exists r, calculate_date_range w = ([], r)
    /\ (r = Raise (Py.Err Py.OtherException) \/ exists p, r = Return p).
Proof.
  unfold calculate_date_range. cbv zeta.
  destruct (if Datetime.weekday (now_range w) =? 0 then _ else _);
    [destruct (Datetime.sub_days (now_range w) 1)|];
    eexists; (split; [reflexivity|]); first [left; reflexivity | right; eexists; reflexivity].
Qed.

Lemma forallb_app_true (p : event -> bool) t t' :
  forallb p t = true -> forallb p t' = true -> forallb p (t ++ t') = true.
Proof. intros H H'. rewrite forallb_app, H, H'. reflexivity. Qed.

Local Arguments create_temporary_token : simpl never.
Local Arguments get_sessionless_launch_url : simpl never.
Local Arguments configure_chrome_driver : simpl never.
Local Arguments submit_attendance_report_form : simpl never.
Local Arguments calculate_date_range : simpl never.
Local Arguments all_steps_return : simpl never.
Local Arguments chrome_ready : simpl never.

Ltac class_facts :=
  repeat match goal with
    | H : forallb (fun ev => is_log ev || is_post ev) ?t = true |- _ =>
        assert (forallb is_http_or_log t = true)
          by (apply (forallb_weaken _ _ _ H); now intros []);
        assert (forallb is_try_event t = true)
          by (apply (forallb_weaken _ _ _ H); now intros []);
        revert H
    | H : forallb (fun ev => is_log ev || is_get ev) ?t = true |- _ =>
        assert (forallb is_http_or_log t = true)
          by (apply (forallb_weaken _ _ _ H); now intros []);
        assert (forallb is_try_event t = true)
          by (apply (forallb_weaken _ _ _ H); now intros []);
        revert H
    end; intros.

Ltac solve_class :=
  repeat first
    [ rewrite forallb_app
    | progress cbn [forallb andb app is_try_event is_http_or_log is_log is_post
                    is_get orb]
    | match goal with H : forallb _ _ = true |- _ => rewrite H end ];
  try reflexivity.

Lemma main_try_shape cfg w :
  exists t l r,
    main_try cfg w fresh_locals = (t, l, r)
    /\ forallb is_try_event t = true
    /\ exits_one r
    /\ match stage_reached w with
       | AtCreation =>
           l = fresh_locals /\ (exists e, r = Raise e)
           /\ forallb (fun ev => is_log ev || is_post ev) t = true
       | AtResolution | AtDateRange =>
           l = mklocals (token_id_of w) None false /\ (exists e, r = Raise e)
           /\ forallb is_http_or_log t = true
       | AtBrowser =>
           l = mklocals (token_id_of w) None false /\ (exists e, r = Raise e)
       | AtForm =>
           l = mklocals (token_id_of w) (Some Chrome) false
           /\ (r = Return tt \/ r = Raise (Py.Err Py.KeyboardInterrupt))
       | Confirmed =>
           l = mklocals (token_id_of w) (Some Chrome) true /\ r = Return tt
       end.
Proof.
  unfold main_try, stage_reached, token_id_of.
  destruct (acquisition w) as [[tok tid]|] eqn:Ea.
  2:{ destruct (create_failed cfg w Ea) as (t & e & Ec & Fc & Xc).
      cbn. rewrite Ec. cbn. class_facts.
      eexists _, _, _. split; [reflexivity|].
      repeat split; try assumption; eexists; reflexivity. }
  rewrite (create_acquired cfg w _ Ea). cbn.
  destruct (resolution w) as [url|] eqn:Er.
  2:{ destruct (get_unresolved cfg w tok Er) as (t & r & Eg & Fg & Rg).
      rewrite Eg. cbn. class_facts.
      destruct Rg as [->|[e ->]]; cbn;
        eexists _, _, _; (split; [reflexivity|]);
        repeat split; solve_class; eexists; reflexivity. }
  destruct (get_resolved cfg w tok url Er) as [Hu Eg].
  rewrite Eg. cbn. rewrite Hu. cbn.
  destruct (calculate_date_range_shape w) as (rd & Ed & Rd).
  rewrite Ed. cbn [snd].
  destruct Rd as [->|[[s e] ->]]; cbn.
  { eexists _, _, _; (split; [reflexivity|]).
    repeat split; eexists; reflexivity. }
  destruct (chrome_ready w) eqn:Ech.
  2:{ destruct (chrome_failed cfg w Ech) as (t & ex & Ec & Fc & Xc).
      rewrite Ec. cbn.
      eexists _, _, _; (split; [reflexivity|]).
      repeat split; solve_class; try assumption. eexists; reflexivity. }
  rewrite (chrome_configured cfg w Ech). cbn.
  destruct (all_steps_return w) eqn:Eall.
  - rewrite (submit_confirmed cfg w _ _ _ _ Eall). cbn.
    eexists _, _, _; (split; [reflexivity|]). repeat split.
  - destruct (submit_unconfirmed cfg w Chrome s e url Eall) as (t & r & Es & Fs & Rs).
    rewrite Es. cbn.
    destruct Rs as [->| ->]; cbn;
      eexists _, _, _; (split; [reflexivity|]);
      repeat split; solve_class; auto.
Qed.

Local Arguments main_try : simpl never.
Local Arguments main_finally : simpl never.
Local Arguments banner : simpl never.

Lemma run_configured cfg w t1 l r1 t2 r2 :
  config_incomplete cfg = false ->
  main_try cfg w fresh_locals = (t1, l, r1) ->
  main_finally cfg w l = (t2, l, r2) ->
  run cfg w
  = ((prelude ++ t1 ++ caught_log r1 ++ t2 ++ fst (verdict cfg (success l) r1 r2))%list,
     snd (verdict cfg (success l) r1 r2)).
Proof.
  intros Hc E1 E2. unfold run, main, try_finally, try_except_main.
  rewrite Hc. cbn. change (mklocals Py.JNull None false) with fresh_locals.
  rewrite E1.
  destruct r1 as [[]|[[]|c]]; cbn; rewrite E2;
    destruct r2 as [[]|[e|c']]; cbn;
    try (destruct (success l); cbn);
    rewrite <- ?app_assoc; cbn; rewrite ?app_nil_r; reflexivity.
Qed.

Lemma run_shape cfg w :
  config_incomplete cfg = false -> exists p : run_parts cfg w, parts_ok cfg w p.
Proof.
  intros Hc.
  destruct (main_try_shape cfg w) as (t1 & l & r1 & E1 & F1 & X1 & S1).
  destruct (main_finally_shape cfg w l) as (t2 & r2 & E2 & F2 & D2 & B2 & R2 & I2).
  exists (mkparts cfg w t1 l r1 t2 r2). unfold parts_ok.
  cbn [try_events try_locals try_result cleanup_events cleanup_result].
  split; [exact E1|].
  split; [exact (run_configured cfg w t1 l r1 _ r2 Hc E1 E2)|].
  repeat (split; [assumption|]). assumption.
Qed.

Lemma locals_at_cleanup cfg w p :
  parts_ok cfg w p ->
  temp_token_id (try_locals p) = token_id_of w
  /\ driver (try_locals p) = (if browser_opened w then Some Chrome else None)
  /\ success (try_locals p)
     = (match stage_reached w with Confirmed => true | _ => false end).
Proof.
  intros (_ & _ & _ & _ & S & _). unfold browser_opened, token_id_of, stage_reached in *.
  destruct (acquisition w) as [[tok tid]|].
  2:{ destruct S as (-> & _). repeat split. }
  destruct (resolution w); [|destruct S as (-> & _); repeat split].
  destruct (snd (calculate_date_range w)); [|destruct S as (-> & _); repeat split].
  destruct (chrome_ready w); [|destruct S as (-> & _); repeat split].
  destruct (all_steps_return w); destruct S as (-> & _); repeat split.
Qed.

Lemma count_logs p t :
  (forall lvl msg, p (Log lvl msg) = false) ->
  forallb is_log t = true -> count p t = 0%nat.
Proof.
  intros Hp H. apply (count_none p is_log t H). intros [] E; try discriminate. apply Hp.
Qed.

Lemma caught_log_logs r : forallb is_log (caught_log r) = true.
Proof. destruct r as [|[[]|]]; reflexivity. Qed.

Lemma verdict_logs cfg ok r1 r2 : forallb is_log (fst (verdict cfg ok r1 r2)) = true.
Proof. destruct r2 as [|[|]], r1 as [|[|]], ok; reflexivity. Qed.

Lemma count_run cfg w p q :
  parts_ok cfg w p ->
  (forall lvl msg, q (Log lvl msg) = false) -> q EnterCleanup = false ->
  count q (run_trace cfg w)
  = (count q (try_events p) + count q (cleanup_events p))%nat.
Proof.
  intros (_ & E & _) Hlog Hcl. unfold run_trace. rewrite E. cbn [fst].
  rewrite !count_app, count_cons, Hcl.
  rewrite (count_logs q prelude Hlog) by reflexivity.
  rewrite (count_logs q _ Hlog (caught_log_logs _)).
  rewrite (count_logs q _ Hlog (verdict_logs _ _ _ _)).
  lia.
Qed.

Lemma release_calls_exact cfg w :
  config_incomplete cfg = false ->
  count is_delete (run_trace cfg w)
  = (if Py.truthy (token_id_of w)
        && (negb (browser_opened w) || teardown_contained w)
     then 1 else 0)%nat.
Proof.
  intros Hc. destruct (run_shape cfg w Hc) as [p Hp].
  rewrite (count_run cfg w p is_delete Hp) by reflexivity.
  destruct (locals_at_cleanup cfg w p Hp) as (Et & Ed & _).
  destruct Hp as (_ & _ & F1 & _ & _ & _ & D2 & _).
  rewrite (count_none is_delete is_try_event _ F1) by (now intros []).
  rewrite D2. unfold release_due, reaches_release. rewrite Et, Ed.
  destruct (browser_opened w), (teardown_contained w), (Py.truthy (token_id_of w)); reflexivity.
Qed.

Lemma try_result_cases cfg w p :
  parts_ok cfg w p ->
  match stage_reached w with
  | Confirmed => try_result p = Return tt
  | AtForm => try_result p = Return tt
              \/ try_result p = Raise (Py.Err Py.KeyboardInterrupt)
  | _ => try_result p = Raise (Py.SystemExit 1)
         \/ exists e, try_result p = Raise (Py.Err e)
  end.
Proof.
  intros (_ & _ & _ & X & S & _).
  destruct (stage_reached w);
    try (destruct S as (_ & [[e|c] Er] & _); rewrite Er in *; cbn in X;
         [right; eexists; reflexivity | left; now subst]);
    try (destruct S as (_ & [[e|c] Er]); rewrite Er in *; cbn in X;
         [right; eexists; reflexivity | left; now subst]);
    apply S.
Qed.

Lemma exit_status_exact cfg w :
  config_incomplete cfg = false -> cleanup_undisturbed w = true ->
  exit_status cfg w = Exit (match stage_reached w with Confirmed => 0 | _ => 1 end).
Proof.
  intros Hc Hu. destruct (run_shape cfg w Hc) as [p Hp].
  pose proof (try_result_cases cfg w p Hp) as R1.
  destruct (locals_at_cleanup cfg w p Hp) as (Et & Ed & Es).
  destruct Hp as (_ & E & _ & _ & _ & _ & _ & _ & R2 & _).
  unfold exit_status. rewrite E. cbn [snd]. rewrite Es.
  unfold reaches_release in R2. rewrite Et, Ed in R2.
  unfold cleanup_undisturbed in Hu. apply andb_true_iff in Hu as [Hu1 Hu2].
  assert (Er2 : cleanup_result p = Return tt).
  { destruct (browser_opened w), (teardown_contained w),
      (Py.truthy (token_id_of w)), (release_contained w);
      try discriminate; exact R2. }
  rewrite Er2.
  destruct (stage_reached w);
    try (destruct R1 as [-> | [e ->]]; reflexivity);
    try (destruct R1 as [-> | ->]; reflexivity).
  rewrite R1. reflexivity.
Qed.

Lemma cleanup_result_cases cfg w p :
  parts_ok cfg w p ->
  cleanup_result p = Return tt \/ exists e, cleanup_result p = Raise (Py.Err e).
Proof.
  intros (_ & _ & _ & _ & _ & _ & _ & _ & R2 & _).
  destruct (reaches_release w (try_locals p));
    [destruct (Py.truthy _ && negb _)|]; auto.
  right. eexists. exact R2.
Qed.

Lemma exit_zero_confirmed cfg w :
  config_incomplete cfg = false -> exit_status cfg w = Exit 0 ->
  stage_reached w = Confirmed.
Proof.
  intros Hc. destruct (run_shape cfg w Hc) as [p Hp].
  pose proof (try_result_cases cfg w p Hp) as R1.
  pose proof (cleanup_result_cases cfg w p Hp) as R2.
  destruct (locals_at_cleanup cfg w p Hp) as (_ & _ & Es).
  destruct Hp as (_ & E & _).
  unfold exit_status. rewrite E. cbn [snd]. rewrite Es.
  destruct R2 as [-> | [e ->]]; cbn; [|discriminate].
  destruct (stage_reached w); try reflexivity;
    try (destruct R1 as [-> | [e ->]]; cbn; discriminate);
    try (destruct R1 as [-> | ->]; cbn; discriminate).
Qed.

Lemma cleanup_entered cfg w :
  config_incomplete cfg = false -> In EnterCleanup (run_trace cfg w).
Proof.
  intros Hc. destruct (run_shape cfg w Hc) as [p (_ & E & _)].
  unfold run_trace. rewrite E. cbn [fst].
  rewrite !in_app_iff. right. right. right. left. now left.
Qed.

Lemma run_unconfigured cfg w :
  config_incomplete cfg = true ->
  run cfg w = ((prelude ++ configuration_errors)%list, Exit 1).
Proof.
  intros Hc. unfold run, main. rewrite Hc. reflexivity.
Qed.

(** ** Scenarios and what they leave untouched *)

Lemma creation_refused_none w : creation_refused w = true -> acquisition w = None.
Proof.
  unfold creation_refused, acquisition.
  destruct (post_outcome w) as [e|st txt [e|d]]; try reflexivity.
  destruct (st =? 200); [|reflexivity]. cbn [andb].
  destruct (Py.truthy _); [discriminate | reflexivity].
Qed.

Lemma launch_refused_none w : launch_refused w = true -> resolution w = None.
Proof.
  unfold launch_refused, resolution.
  destruct (get_outcome w) as [e|st txt [e|d]]; try reflexivity.
  destruct (st =? 200); [|reflexivity]. cbn [andb].
  destruct (Py.truthy _); [discriminate | reflexivity].
Qed.

(** [creation_refused] is the three refusals the function handles. *)
Lemma creation_refused_cases w :
  creation_refused w = true <->
  (exists status_code text json,
      post_outcome w = HttpResponse status_code text json /\ status_code <> 200)
  \/ post_outcome w = HttpRaises Py.RequestException
  \/ (exists text d,
        post_outcome w = HttpResponse 200 text (JsonDict d)
        /\ Py.truthy (Py.dict_get "visible_token" d) = false).
Proof.
  unfold creation_refused. split.
  - destruct (post_outcome w) as [[]|st txt js]; try discriminate.
    + intros _. right. left. reflexivity.
    + destruct (Z.eqb_spec st 200) as [->|Hne].
      * destruct js as [e|d]; [discriminate|]. intros H.
        right. right. exists txt, d. split; [reflexivity|].
        now destruct (Py.truthy _).
      * intros _. left. now exists st, txt, js.
  - intros [(st & txt & js & -> & Hne) | [-> | (txt & d & -> & Ht)]].
    + destruct (Z.eqb_spec st 200); [contradiction | reflexivity].
    + reflexivity.
    + cbn. now rewrite Ht.
Qed.

Lemma stage_at_creation w : acquisition w = None -> stage_reached w = AtCreation.
Proof. unfold stage_reached. now intros ->. Qed.

Lemma stage_at_resolution w p :
  acquisition w = Some p -> resolution w = None -> stage_reached w = AtResolution.
Proof. unfold stage_reached. now intros -> ->. Qed.

Lemma token_id_of_acquired w tok tid :
  acquisition w = Some (tok, tid) -> token_id_of w = tid.
Proof. unfold token_id_of. now intros ->. Qed.

Lemma token_id_of_none w : acquisition w = None -> token_id_of w = Py.JNull.
Proof. unfold token_id_of. now intros ->. Qed.

(** No browser call before the browser stage. *)
Lemma browser_untouched cfg w :
  config_incomplete cfg = false ->
  match stage_reached w with
  | AtCreation | AtResolution | AtDateRange => True
  | _ => False
  end ->
  count is_browser (run_trace cfg w) = 0%nat.
Proof.
  intros Hc Hs. destruct (run_shape cfg w Hc) as [p Hp].
  rewrite (count_run cfg w p is_browser Hp) by reflexivity.
  destruct (locals_at_cleanup cfg w p Hp) as (_ & Ed & _).
  destruct Hp as (_ & _ & _ & _ & S & _ & _ & B2 & _).
  rewrite B2, Ed. unfold browser_opened.
  destruct (stage_reached w); try contradiction;
    destruct S as (_ & _ & F);
    rewrite (count_none is_browser _ _ F) by (now intros []); reflexivity.
Qed.

Lemma get_untouched cfg w :
  config_incomplete cfg = false -> acquisition w = None ->
  count is_get (run_trace cfg w) = 0%nat.
Proof.
  intros Hc Ha. destruct (run_shape cfg w Hc) as [p Hp].
  rewrite (count_run cfg w p is_get Hp) by reflexivity.
  destruct Hp as (_ & _ & _ & _ & S & F2 & _).
  rewrite (stage_at_creation w Ha) in S. destruct S as (_ & _ & F).
  rewrite (count_none is_get _ _ F) by (now intros []).
  rewrite (count_none is_get _ _ F2) by (now intros []). reflexivity.
Qed.

Lemma release_event cfg w :
  config_incomplete cfg = false ->
  Py.truthy (token_id_of w) = true ->
  negb (browser_opened w) || teardown_contained w = true ->
  In (HttpDelete (delete_url cfg (token_id_of w)) (bearer (ADMIN_API_TOKEN cfg)))
     (run_trace cfg w).
Proof.
  intros Hc Ht Hb. destruct (run_shape cfg w Hc) as [p Hp].
  destruct (locals_at_cleanup cfg w p Hp) as (Et & Ed & _).
  destruct Hp as (_ & E & _ & _ & _ & _ & _ & _ & _ & I).
  unfold run_trace. rewrite E. cbn [fst]. rewrite Et in I.
  rewrite !in_app_iff. right. right. right. left. right. apply I.
  unfold release_due, reaches_release. rewrite Et, Ed, Ht.
  destruct (browser_opened w); [cbn in Hb; now rewrite Hb | reflexivity].
Qed.

Lemma create_posts cfg w :
  In (HttpPost (token_url cfg) (bearer (ADMIN_API_TOKEN cfg)))
     (fst (create_temporary_token cfg w)).
Proof.
  unfold create_temporary_token, token_url.
  destruct (post_outcome w) as [[]|st txt [[]|d]];
    try destruct (st =? 200); try destruct (Py.truthy _);
    cbn; auto.
Qed.

Lemma bind_events {A B} (m : M A) (k : A -> M B) l ev :
  In ev (fst (fst (m l))) -> In ev (fst (fst (bind m k l))).
Proof.
  cbn. destruct (m l) as [[t l'] [a|e]]; cbn; [|trivial].
  destruct (k a l') as [[t' l''] r]. cbn. rewrite in_app_iff. auto.
Qed.

Lemma try_event_in_run cfg w p ev :
  parts_ok cfg w p -> In ev (try_events p) -> In ev (run_trace cfg w).
Proof.
  intros (_ & E & _) H. unfold run_trace. rewrite E. cbn [fst].
  rewrite !in_app_iff. auto.
Qed.

Lemma stage_confirmed_inv w :
  stage_reached w = Confirmed ->
  (exists tok tid, acquisition w = Some (tok, tid))
  /\ (exists url, resolution w = Some url)
  /\ (exists s e, calculate_date_range w = ([], Return (s, e)))
  /\ chrome_ready w = true /\ all_steps_return w = true.
Proof.
  unfold stage_reached.
  destruct (acquisition w) as [[tok tid]|]; [|discriminate].
  destruct (resolution w) as [url|]; [|discriminate].
  destruct (calculate_date_range_shape w) as (r & E & [->|[[s e] ->]]);
    rewrite E; cbn [snd]; [discriminate|].
  destruct (chrome_ready w); [|discriminate].
  destruct (all_steps_return w); [|discriminate].
  intros _. repeat split; eauto.
Qed.

Lemma main_try_confirmed cfg w :
  stage_reached w = Confirmed ->
  In (Browser (SendKeys email_field (REPORT_EMAIL cfg)))
     (fst (fst (main_try cfg w fresh_locals))).
Proof.
  intros Hs.
  destruct (stage_confirmed_inv w Hs)
    as ((tok & tid & Ha) & (url & Hr) & (s & e & Ed) & Hch & Hall).
  destruct (get_resolved cfg w tok url Hr) as [Hu Eg].
  unfold main_try.
  rewrite (create_acquired cfg w _ Ha). cbn.
  rewrite Eg. cbn. rewrite Hu. cbn. rewrite Ed. cbn.
  rewrite (chrome_configured cfg w Hch). cbn.
  rewrite (submit_confirmed cfg w _ _ _ _ Hall). cbn. auto 40.
Qed.

Lemma creation_attempted cfg w :
  config_incomplete cfg = false ->
  In (HttpPost (token_url cfg) (bearer (ADMIN_API_TOKEN cfg))) (run_trace cfg w).
Proof.
  intros Hc. destruct (run_shape cfg w Hc) as [p Hp].
  assert (E : main_try cfg w fresh_locals = (try_events p, try_locals p, try_result p))
    by apply Hp.
  apply (try_event_in_run cfg w p _ Hp).
  change (try_events p) with (fst (fst (try_events p, try_locals p, try_result p))).
  rewrite <- E. unfold main_try. apply bind_events. cbn. apply create_posts.
Qed.

Lemma recipient_typed cfg w :
  config_incomplete cfg = false ->
  stage_reached w = Confirmed ->
  In (Browser (SendKeys email_field (REPORT_EMAIL cfg))) (run_trace cfg w).
Proof.
  intros Hc Hs. destruct (run_shape cfg w Hc) as [p Hp].
  assert (E : main_try cfg w fresh_locals = (try_events p, try_locals p, try_result p))
    by apply Hp.
  apply (try_event_in_run cfg w p _ Hp).
  change (try_events p) with (fst (fst (try_events p, try_locals p, try_result p))).
  rewrite <- E. now apply main_try_confirmed.
Qed.

(** ** Credential release *)

(** C1.  In a run of the configured script where the token endpoint
    answered 200 with a [visible_token], the response also carried a
    truthy [id], and [driver.quit()] (if a browser was opened at all)
    raised nothing outside [Exception], exactly one DELETE is issued over
    the whole run, whatever the later steps did, and it is the DELETE of
    that token id with the administrator's credential. *)
Theorem release_exactly_once cfg w tok tid :
  config_incomplete cfg = false ->
  acquisition w = Some (tok, tid) ->
  Py.truthy tid = true ->
  negb (browser_opened w) || teardown_contained w = true ->
  count is_delete (run_trace cfg w) = 1%nat
  /\ In (HttpDelete (delete_url cfg tid) (bearer (ADMIN_API_TOKEN cfg)))
        (run_trace cfg w).
Proof.
  intros Hc Ha Ht Hb. pose proof (token_id_of_acquired w tok tid Ha) as Et.
  split.
  - rewrite (release_calls_exact cfg w Hc), Et, Ht, Hb. reflexivity.
  - rewrite <- Et. apply release_event; try assumption. now rewrite Et.
Qed.

Lemma release_exactly_once_witness :
  count is_delete (run_trace campus_config smooth_world) = 1%nat
  /\ In (HttpDelete (delete_url campus_config (Py.JNum 7))
                    (bearer (ADMIN_API_TOKEN campus_config)))
        (run_trace campus_config smooth_world).
Proof.
  apply (release_exactly_once campus_config smooth_world (Py.JStr "tok") (Py.JNum 7));
    reflexivity.
Defined.

(** A 200 response with a [visible_token] but no [id]: the token counts as
    acquired, [temp_token_id] is [None], the guard [if temp_token_id:]
    skips the release, and the run still ends with status 0. *)
Lemma release_skipped_without_id :
  acquisition (with_post smooth_world token_response_without_id)
  = Some (Py.JStr "tok", Py.JNull)
  /\ count is_delete
       (run_trace campus_config (with_post smooth_world token_response_without_id))
     = 0%nat
  /\ exit_status campus_config (with_post smooth_world token_response_without_id)
     = Exit 0.
Proof. repeat split; vm_compute; reflexivity. Qed.

(** The other proviso: [driver.quit()] is wrapped in [except Exception]
    only, so a [KeyboardInterrupt] raised there leaves the [finally] block
    before the token is looked at. *)
Example release_skipped_by_interrupted_teardown :
  count is_delete
    (run_trace campus_config (with_quit smooth_world (Some Py.KeyboardInterrupt)))
  = 0%nat
  /\ exit_status campus_config (with_quit smooth_world (Some Py.KeyboardInterrupt))
     = Uncaught Py.KeyboardInterrupt.
Proof. split; vm_compute; reflexivity. Qed.

(** ** Exit status *)

(** C3.  When the two cleanup calls raise nothing that their handlers let
    through ([driver.quit()] nothing outside [Exception], the DELETE
    nothing outside [RequestException]), every run ends by [sys.exit]
    with status 0 or 1: status 0 exactly when the configuration passed
    the pre-flight check and the form routine ran to its confirmed end,
    status 1 otherwise.  The [finally] block is entered exactly when the
    configuration passed the pre-flight check: the configuration failure
    exits before the [try] statement is reached. *)
Theorem exit_status_binary cfg w :
  cleanup_undisturbed w = true ->
  exit_status cfg w
  = Exit (if negb (config_incomplete cfg) && confirmed w then 0 else 1)
  /\ (In EnterCleanup (run_trace cfg w) <-> config_incomplete cfg = false).
Proof.
  intros Hu. destruct (config_incomplete cfg) eqn:Hc; cbn [negb andb].
  - unfold exit_status, run_trace. rewrite (run_unconfigured cfg w Hc). cbn [fst snd].
    split; [reflexivity|]. split; [|discriminate].
    cbn. intuition discriminate.
  - split.
    + rewrite (exit_status_exact cfg w Hc Hu). unfold confirmed.
      destruct (stage_reached w); reflexivity.
    + split; [reflexivity|]. intros _. now apply cleanup_entered.
Qed.

Lemma exit_status_binary_witness :
  exit_status campus_config smooth_world = Exit 0
  /\ (In EnterCleanup (run_trace campus_config smooth_world)
      <-> config_incomplete campus_config = false).
Proof. apply (exit_status_binary campus_config smooth_world). reflexivity. Defined.

(** With the settings the repository ships, the run exits with status 1
    from the pre-flight check and never enters the [finally] block. *)
Lemma cleanup_skipped_when_unconfigured :
  exit_status shipped_config smooth_world = Exit 1
  /\ ~ In EnterCleanup (run_trace shipped_config smooth_world).
Proof.
  split; [vm_compute; reflexivity|].
  vm_compute. intuition discriminate.
Qed.

(** ** Failure of a step *)

(** C4.  In a run of the configured script, if the token request ends in
    a status other than 200, in a [RequestException], or in a 200
    response without a usable [visible_token], then the request was
    issued, the run ends with exit status 1, and the trace holds no GET
    (launch resolution), no browser event and no DELETE. *)
Theorem creation_failure_aborts cfg w :
  config_incomplete cfg = false ->
  creation_refused w = true ->
  In (HttpPost (token_url cfg) (bearer (ADMIN_API_TOKEN cfg))) (run_trace cfg w)
  /\ exit_status cfg w = Exit 1
  /\ count is_get (run_trace cfg w) = 0%nat
  /\ count is_browser (run_trace cfg w) = 0%nat
  /\ count is_delete (run_trace cfg w) = 0%nat.
Proof.
  intros Hc Hr. pose proof (creation_refused_none w Hr) as Ha.
  pose proof (stage_at_creation w Ha) as Hs.
  pose proof (token_id_of_none w Ha) as Et.
  repeat split.
  - now apply creation_attempted.
  - rewrite (exit_status_exact cfg w Hc).
    + now rewrite Hs.
    + unfold cleanup_undisturbed, browser_opened. now rewrite Hs, Et.
  - now apply get_untouched.
  - apply browser_untouched; [assumption | now rewrite Hs].
  - rewrite (release_calls_exact cfg w Hc), Et. reflexivity.
Qed.

Lemma creation_failure_aborts_witness :
  In (HttpPost (token_url campus_config) (bearer (ADMIN_API_TOKEN campus_config)))
     (run_trace campus_config (with_post smooth_world unauthorized))
  /\ exit_status campus_config (with_post smooth_world unauthorized) = Exit 1
  /\ count is_get (run_trace campus_config (with_post smooth_world unauthorized)) = 0%nat
  /\ count is_browser (run_trace campus_config (with_post smooth_world unauthorized)) = 0%nat
  /\ count is_delete (run_trace campus_config (with_post smooth_world unauthorized)) = 0%nat.
Proof.
  apply (creation_failure_aborts campus_config (with_post smooth_world unauthorized));
    reflexivity.
Defined.

(** C5.  In a run of the configured script that acquired a token, if the
    launch request ends in a status other than 200 or in a 200 response
    without a usable [url], then no browser event occurs, the run does
    not end with status 0 (and ends with status 1 unless the DELETE raises
    something other than a [RequestException]), and the [finally] block
    is entered.  The token is released there, by exactly one DELETE of
    its id, when the token response carried a truthy [id]; without one,
    no DELETE is issued. *)
Theorem resolution_failure_aborts cfg w tok tid :
  config_incomplete cfg = false ->
  acquisition w = Some (tok, tid) ->
  launch_refused w = true ->
  count is_browser (run_trace cfg w) = 0%nat
  /\ exit_status cfg w <> Exit 0
  /\ (negb (Py.truthy tid) || release_contained w = true -> exit_status cfg w = Exit 1)
  /\ In EnterCleanup (run_trace cfg w)
  /\ count is_delete (run_trace cfg w) = (if Py.truthy tid then 1 else 0)%nat
  /\ (Py.truthy tid = true ->
      In (HttpDelete (delete_url cfg tid) (bearer (ADMIN_API_TOKEN cfg)))
         (run_trace cfg w)).
Proof.
  intros Hc Ha Hr. pose proof (launch_refused_none w Hr) as Hn.
  pose proof (stage_at_resolution w _ Ha Hn) as Hs.
  pose proof (token_id_of_acquired w tok tid Ha) as Et.
  assert (Hb : browser_opened w = false) by (unfold browser_opened; now rewrite Hs).
  repeat split.
  - apply browser_untouched; [assumption | now rewrite Hs].
  - intros H0. apply (exit_zero_confirmed cfg w Hc) in H0. congruence.
  - intros Hd. rewrite (exit_status_exact cfg w Hc).
    + now rewrite Hs.
    + unfold cleanup_undisturbed. now rewrite Hb, Et, Hd.
  - now apply cleanup_entered.
  - rewrite (release_calls_exact cfg w Hc), Et, Hb. now destruct (Py.truthy tid).
  - intros Ht. rewrite <- Et. apply release_event; try assumption.
    + now rewrite Et.
    + now rewrite Hb.
Qed.

Lemma resolution_failure_aborts_witness :
  count is_browser (run_trace campus_config (with_get smooth_world server_error)) = 0%nat
  /\ exit_status campus_config (with_get smooth_world server_error) <> Exit 0
  /\ (negb (Py.truthy (Py.JNum 7)) || release_contained (with_get smooth_world server_error) = true ->
      exit_status campus_config (with_get smooth_world server_error) = Exit 1)
  /\ In EnterCleanup (run_trace campus_config (with_get smooth_world server_error))
  /\ count is_delete (run_trace campus_config (with_get smooth_world server_error))
     = (if Py.truthy (Py.JNum 7) then 1 else 0)%nat
  /\ (Py.truthy (Py.JNum 7) = true ->
      In (HttpDelete (delete_url campus_config (Py.JNum 7))
                     (bearer (ADMIN_API_TOKEN campus_config)))
         (run_trace campus_config (with_get smooth_world server_error))).
Proof.
  apply (resolution_failure_aborts campus_config (with_get smooth_world server_error)
           (Py.JStr "tok") (Py.JNum 7)); reflexivity.
Defined.

(** Token acquired from a 200 response without [id], launch request
    answered 500: the run issues no DELETE. *)
Lemma token_not_released_after_resolution_failure :
  launch_refused
    (with_get (with_post smooth_world token_response_without_id) server_error) = true
  /\ acquisition
       (with_get (with_post smooth_world token_response_without_id) server_error)
     = Some (Py.JStr "tok", Py.JNull)
  /\ count is_delete
       (run_trace campus_config
          (with_get (with_post smooth_world token_response_without_id) server_error))
     = 0%nat.
Proof. repeat split; vm_compute; reflexivity. Qed.

Lemma submit_times_out cfg w drv s e url :
  form_outcome w StepGet = None ->
  form_outcome w StepWaitStart = Some Py.TimeoutException ->
  submit_attendance_report_form cfg w drv s e url
  = (timed_out_form cfg url s e, Return false).
Proof.
  intros H1 H2. unfold submit_attendance_report_form, browser.
  rewrite H1, H2. reflexivity.
Qed.

Lemma all_steps_return_false w st e :
  In st form_steps -> form_outcome w st = Some e -> all_steps_return w = false.
Proof.
  intros Hin He. unfold all_steps_return.
  destruct (forallb _ form_steps) eqn:F; [|reflexivity].
  rewrite forallb_forall in F. specialize (F st Hin). now rewrite He in F.
Qed.

Lemma main_try_timed_out cfg w tok tid url :
  acquisition w = Some (tok, tid) ->
  resolution w = Some url ->
  Datetime.valid_date (now_range w) -> 1 < Datetime.toordinal (now_range w) ->
  chrome_ready w = true ->
  form_outcome w StepGet = None ->
  form_outcome w StepWaitStart = Some Py.TimeoutException ->
  stage_reached w = AtForm
  /\ exists t,
      main_try cfg w fresh_locals
      = (t, mklocals tid (Some Chrome) false, Return tt)
      /\ count is_navigate t = 1%nat
      /\ count is_start_wait t = 1%nat
      /\ count is_click t = 0%nat.
Proof.
  intros Ha Hr V H Hch H1 H2.
  pose proof (calculate_date_range_returns w V H) as Ed.
  pose proof (all_steps_return_false w StepWaitStart _
                ltac:(cbn; auto) H2) as Hall.
  split.
  - unfold stage_reached. now rewrite Ha, Hr, Ed, Hch, Hall.
  - destruct (get_resolved cfg w tok url Hr) as [Hu Eg].
    unfold main_try.
    rewrite (create_acquired cfg w _ Ha). cbn.
    rewrite Eg. cbn. rewrite Hu. cbn. rewrite Ed. cbn.
    rewrite (chrome_configured cfg w Hch). cbn.
    rewrite (submit_times_out cfg w _ _ _ _ H1 H2). cbn.
    eexists. split; [reflexivity|]. repeat split.
Qed.

(** C6.  In a run of the configured script that acquired a token,
    resolved the launch URL and started the browser, if the page loads
    and the wait for the start-date field raises [TimeoutException], then
    the form routine logs the two time-out errors and returns [False]
    with no further browser call; over the whole run the page is loaded
    once, the field is awaited once and nothing is clicked; the run does
    not end with status 0, and ends with status 1 when the cleanup calls
    raise nothing their handlers let through.  When [driver.quit()]
    raises nothing outside [Exception], the DELETE is issued once if the
    token response carried a truthy [id], and not at all otherwise. *)
Theorem wait_timeout_fails_run cfg w tok tid url :
  config_incomplete cfg = false ->
  acquisition w = Some (tok, tid) ->
  resolution w = Some url ->
  Datetime.valid_date (now_range w) -> 1 < Datetime.toordinal (now_range w) ->
  chrome_ready w = true ->
  form_outcome w StepGet = None ->
  form_outcome w StepWaitStart = Some Py.TimeoutException ->
  (forall s e,
      submit_attendance_report_form cfg w Chrome s e url
      = (timed_out_form cfg url s e, Return false))
  /\ count is_click (run_trace cfg w) = 0%nat
  /\ count is_navigate (run_trace cfg w) = 1%nat
  /\ count is_start_wait (run_trace cfg w) = 1%nat
  /\ exit_status cfg w <> Exit 0
  /\ (cleanup_undisturbed w = true -> exit_status cfg w = Exit 1)
  /\ (teardown_contained w = true ->
      count is_delete (run_trace cfg w) = (if Py.truthy tid then 1 else 0)%nat).
Proof.
  intros Hc Ha Hr V H Hch H1 H2.
  destruct (main_try_timed_out cfg w tok tid url Ha Hr V H Hch H1 H2)
    as (Hs & t & Et & Cn & Cw & Cc).
  pose proof (token_id_of_acquired w tok tid Ha) as Etid.
  destruct (run_shape cfg w Hc) as [p Hp].
  assert (Ep : try_events p = t).
  { destruct Hp as (E & _). rewrite Et in E. now injection E. }
  assert (F2 : forallb is_cleanup_event (cleanup_events p) = true) by apply Hp.
  split; [intros s e; now apply submit_times_out|].
  repeat split.
  - rewrite (count_run cfg w p is_click Hp) by reflexivity.
    rewrite Ep, Cc, (count_none is_click _ _ F2) by (now intros []). reflexivity.
  - rewrite (count_run cfg w p is_navigate Hp) by reflexivity.
    rewrite Ep, Cn, (count_none is_navigate _ _ F2) by (now intros []). reflexivity.
  - rewrite (count_run cfg w p is_start_wait Hp) by reflexivity.
    rewrite Ep, Cw, (count_none is_start_wait _ _ F2) by (now intros []). reflexivity.
  - intros H0. apply (exit_zero_confirmed cfg w Hc) in H0. congruence.
  - intros Hu. rewrite (exit_status_exact cfg w Hc Hu). now rewrite Hs.
  - intros Htd. rewrite (release_calls_exact cfg w Hc), Etid, Htd.
    rewrite orb_true_r. now destruct (Py.truthy tid).
Qed.

Lemma wait_timeout_fails_run_witness :
  (forall s e,
      submit_attendance_report_form campus_config stalled_world Chrome s e
        (Py.JStr "https://rollcall.example/launch")
      = (timed_out_form campus_config (Py.JStr "https://rollcall.example/launch") s e,
         Return false))
  /\ count is_click (run_trace campus_config stalled_world) = 0%nat
  /\ count is_navigate (run_trace campus_config stalled_world) = 1%nat
  /\ count is_start_wait (run_trace campus_config stalled_world) = 1%nat
  /\ exit_status campus_config stalled_world <> Exit 0
  /\ (cleanup_undisturbed stalled_world = true ->
      exit_status campus_config stalled_world = Exit 1)
  /\ (teardown_contained stalled_world = true ->
      count is_delete (run_trace campus_config stalled_world)
      = (if Py.truthy (Py.JNum 7) then 1 else 0)%nat).
Proof.
  apply (wait_timeout_fails_run campus_config stalled_world (Py.JStr "tok") (Py.JNum 7)
           (Py.JStr "https://rollcall.example/launch"));
    first [reflexivity | apply valid_dateb_sound; reflexivity].
Defined.

(** The same time-out after a token response without [id]: the field is
    awaited once and no DELETE is issued. *)
Lemma deletion_not_attempted_after_timeout :
  form_outcome (with_post stalled_world token_response_without_id) StepWaitStart
  = Some Py.TimeoutException
  /\ acquisition (with_post stalled_world token_response_without_id)
     = Some (Py.JStr "tok", Py.JNull)
  /\ count is_start_wait
       (run_trace campus_config (with_post stalled_world token_response_without_id))
     = 1%nat
  /\ count is_delete
       (run_trace campus_config (with_post stalled_world token_response_without_id))
     = 0%nat.
Proof. repeat split; vm_compute; reflexivity. Qed.

Example deletion_not_attempted_when_teardown_interrupted :
  count is_delete
    (run_trace campus_config (with_quit stalled_world (Some Py.KeyboardInterrupt)))
  = 0%nat
  /\ exit_status campus_config (with_quit stalled_world (Some Py.KeyboardInterrupt))
     = Uncaught Py.KeyboardInterrupt.
Proof. split; vm_compute; reflexivity. Qed.

(** ** The pre-flight check *)

Lemma prefix_spec a s : String.prefix a s = true <-> exists post, s = a ++ post.
Proof.
  revert s. induction a as [|c a IH]; intros s; cbn.
  - split; [intros _; now exists s | intros _; now destruct s].
  - destruct s as [|c' s]; [split; [discriminate | intros [post H]; discriminate]|].
    cbn [String.prefix]. destruct (Ascii.ascii_dec c c') as [->|Hne].
    + rewrite IH. split; intros [post H]; exists post; [now rewrite H | now injection H].
    + split; [discriminate|]. intros [post H]. congruence.
Qed.

Lemma contains_spec a s :
  Py.contains a s = true <-> exists pre post, s = pre ++ a ++ post.
Proof.
  induction s as [|c s IH]; cbn [Py.contains].
  - rewrite orb_false_r, prefix_spec. split.
    + intros [post H]. now exists "", post.
    + intros (pre & post & H). destruct pre; cbn in H; [now exists post | discriminate].
  - rewrite orb_true_iff, prefix_spec, IH. split.
    + intros [[post H] | (pre & post & H)].
      * now exists "", post.
      * exists (String c pre), post. cbn. now rewrite H.
    + intros (pre & post & H). destruct pre as [|c' pre]; cbn in H.
      * left. now exists post.
      * right. injection H as _ H. now exists pre, post.
Qed.

Lemma config_incomplete_spec cfg :
  config_incomplete cfg = true <->
  ADMIN_API_TOKEN cfg = "" \/ USER_ID cfg = "" \/ has_placeholder (BASE_URL cfg).
Proof.
  unfold config_incomplete, has_placeholder.
  rewrite !orb_true_iff, !String.eqb_eq, contains_spec. tauto.
Qed.

(** C8.  If [ADMIN_API_TOKEN] is empty, or [USER_ID] is empty, or
    [BASE_URL] still contains the placeholder [yourschool], the run logs
    the banner and the five configuration errors and ends with exit
    status 1; its trace holds no HTTP request and no browser event. *)
Theorem incomplete_configuration_exits_early cfg w :
  ADMIN_API_TOKEN cfg = "" \/ USER_ID cfg = "" \/ has_placeholder (BASE_URL cfg) ->
  exit_status cfg w = Exit 1
  /\ count is_external (run_trace cfg w) = 0%nat
  /\ run_trace cfg w = (prelude ++ configuration_errors)%list.
Proof.
  intros H. apply config_incomplete_spec in H.
  unfold exit_status, run_trace. rewrite (run_unconfigured cfg w H).
  repeat split.
Qed.

Lemma incomplete_configuration_exits_early_witness :
  exit_status shipped_config smooth_world = Exit 1
  /\ count is_external (run_trace shipped_config smooth_world) = 0%nat
  /\ run_trace shipped_config smooth_world = (prelude ++ configuration_errors)%list.
Proof.
  apply (incomplete_configuration_exits_early shipped_config smooth_world).
  left. reflexivity.
Defined.

(** ** Release without a credential *)

Lemma main_try_ignores_delete cfg w o l :
  main_try cfg (with_delete w o) l = main_try cfg w l.
Proof. reflexivity. Qed.

Lemma main_finally_ignores_delete cfg w o l :
  Py.truthy (temp_token_id l) = false ->
  main_finally cfg (with_delete w o) l = main_finally cfg w l.
Proof.
  intros H. unfold main_finally. destruct l as [tid drv ok]. cbn in *.
  destruct drv; cbn; rewrite H; reflexivity.
Qed.

(** C9.  In a run where no credential was acquired, and more generally
    in a run that holds no token id when it ends, the release is a
    no-op: the trace holds no DELETE, and the run, trace and exit status,
    is the same whatever the identity endpoint would have answered to
    one. *)
Theorem no_release_without_credential cfg w :
  Py.truthy (token_id_of w) = false ->
  count is_delete (run_trace cfg w) = 0%nat
  /\ (forall o, run cfg (with_delete w o) = run cfg w).
Proof.
  intros Ht. destruct (config_incomplete cfg) eqn:Hc.
  - split.
    + unfold run_trace. now rewrite (run_unconfigured cfg w Hc).
    + intros o. now rewrite !run_unconfigured.
  - split.
    + rewrite (release_calls_exact cfg w Hc), Ht. reflexivity.
    + intros o. destruct (run_shape cfg w Hc) as [p Hp].
      destruct (locals_at_cleanup cfg w p Hp) as (Et & _).
      destruct (main_finally_shape cfg w (try_locals p)) as (t2 & r2 & E2 & _).
      destruct Hp as (E1 & _).
      rewrite (run_configured cfg w _ _ _ _ _ Hc E1 E2).
      apply (run_configured cfg (with_delete w o) _ _ _ _ _ Hc).
      * rewrite main_try_ignores_delete. exact E1.
      * rewrite main_finally_ignores_delete; [exact E2 | now rewrite Et].
Qed.

(** Nothing acquired: the token endpoint answers 401. *)
Lemma no_release_without_credential_witness :
  acquisition (with_post smooth_world unauthorized) = None
  /\ count is_delete (run_trace campus_config (with_post smooth_world unauthorized)) = 0%nat
  /\ (forall o, run campus_config (with_delete (with_post smooth_world unauthorized) o)
                = run campus_config (with_post smooth_world unauthorized)).
Proof.
  split; [reflexivity|].
  apply (no_release_without_credential campus_config (with_post smooth_world unauthorized)).
  reflexivity.
Defined.

(** ** What the pre-flight check lets through *)

Lemma config_complete_spec cfg :
  config_incomplete cfg = false <->
  ADMIN_API_TOKEN cfg <> "" /\ USER_ID cfg <> "" /\ ~ has_placeholder (BASE_URL cfg).
Proof.
  pose proof (config_incomplete_spec cfg) as H.
  destruct (config_incomplete cfg).
  - split; [discriminate|]. intros (H1 & H2 & H3).
    destruct (proj1 H eq_refl) as [E|[E|E]]; contradiction.
  - split; [|reflexivity]. intros _.
    repeat split; intros E; assert (false = true) by (apply H; auto); discriminate.
Qed.

Lemma no_placeholder_by_check s : Py.contains "yourschool" s = false -> ~ has_placeholder s.
Proof.
  intros H Hp. apply contains_spec in Hp. congruence.
Qed.

(** C10.  The pre-flight check passes exactly when [ADMIN_API_TOKEN] is
    non-empty, [USER_ID] is non-empty and [BASE_URL] does not contain
    [yourschool]; [ACCOUNT_ID], [REPORT_EMAIL] and the three time-outs do
    not enter it.  For every configuration that passes, the run issues
    the token request, and when the form routine runs to its end the
    value typed into the [email] field is [REPORT_EMAIL] as configured,
    empty or not. *)
Theorem unvalidated_recipient_reaches_form cfg w :
  (config_incomplete cfg = false <->
   ADMIN_API_TOKEN cfg <> "" /\ USER_ID cfg <> "" /\ ~ has_placeholder (BASE_URL cfg))
  /\ (forall account email t1 t2 t3,
         config_incomplete
           (mkconfig (ADMIN_API_TOKEN cfg) (USER_ID cfg) (BASE_URL cfg)
                     account email t1 t2 t3)
         = config_incomplete cfg)
  /\ (ADMIN_API_TOKEN cfg <> "" -> USER_ID cfg <> "" ->
      ~ has_placeholder (BASE_URL cfg) ->
      In (HttpPost (token_url cfg) (bearer (ADMIN_API_TOKEN cfg))) (run_trace cfg w)
      /\ (stage_reached w = Confirmed ->
          In (Browser (SendKeys email_field (REPORT_EMAIL cfg))) (run_trace cfg w))).
Proof.
  split; [apply config_complete_spec|]. split; [reflexivity|].
  intros H1 H2 H3.
  assert (Hc : config_incomplete cfg = false) by (apply config_complete_spec; auto).
  split; [now apply creation_attempted | now apply recipient_typed].
Qed.

Lemma unvalidated_recipient_reaches_form_witness :
  In (HttpPost (token_url blank_recipient_config)
               (bearer (ADMIN_API_TOKEN blank_recipient_config)))
     (run_trace blank_recipient_config smooth_world)
  /\ (stage_reached smooth_world = Confirmed ->
      In (Browser (SendKeys email_field (REPORT_EMAIL blank_recipient_config)))
         (run_trace blank_recipient_config smooth_world)).
Proof.
  destruct (unvalidated_recipient_reaches_form blank_recipient_config smooth_world)
    as (_ & _ & Passes).
  apply Passes.
  - discriminate.
  - discriminate.
  - apply no_placeholder_by_check. reflexivity.
Defined.

(** With an empty [REPORT_EMAIL] and an empty [ACCOUNT_ID] the run goes
    all the way: the launch request is sent for [/accounts//...], the
    empty string is typed into the [email] field, and the run ends with
    status 0. *)
Example blank_recipient_is_submitted :
  REPORT_EMAIL blank_recipient_config = EmptyString
  /\ exit_status blank_recipient_config smooth_world = Exit 0
  /\ In (Browser (SendKeys email_field EmptyString))
        (run_trace blank_recipient_config smooth_world)
  /\ In (HttpGet ("https://canvas.example.edu/api/v1/accounts//external_tools/"
                  ++ "sessionless_launch?url=https://rollcall.instructure.com/launch")
                 "Bearer tok")
        (run_trace blank_recipient_config smooth_world).
Proof.
  repeat split; vm_compute;
    solve [reflexivity | repeat (first [left; reflexivity | right])].
Qed.

(** * Further properties of the code *)

(** ** The helper functions, one by one *)

Lemma create_outcomes cfg w :
  count is_post (fst (create_temporary_token cfg w)) = 1%nat
  /\ In (HttpPost (token_url cfg) (bearer (ADMIN_API_TOKEN cfg)))
        (fst (create_temporary_token cfg w))
  /\ (forall tok tid,
        snd (create_temporary_token cfg w) = Return (tok, tid) <->
        acquisition w = Some (tok, tid))
  /\ (forall tok tid,
        snd (create_temporary_token cfg w) = Return (tok, tid) -> Py.truthy tok = true)
  /\ (creation_refused w = true ->
      snd (create_temporary_token cfg w) = Raise (Py.SystemExit 1))
  /\ (forall c, snd (create_temporary_token cfg w) = Raise (Py.SystemExit c) -> c = 1)
  /\ (forall e, snd (create_temporary_token cfg w) = Raise (Py.Err e) ->
        Py.is_RequestException (Py.Err e) = false
        /\ (post_outcome w = HttpRaises e
            \/ exists text, post_outcome w = HttpResponse 200 text (JsonRaises e))).
Proof.
  unfold create_temporary_token, acquisition, creation_refused, token_url.
  destruct (post_outcome w) as [[]|st txt [[]|d]];
    try destruct (Z.eqb_spec st 200) as [->|Hst];
    try destruct (Py.truthy (Py.dict_get "visible_token" d)) eqn:T;
    cbn; repeat split; auto; try discriminate; try congruence;
    try (match goal with H : Raise _ = Raise (Py.Err _) |- _ => injection H as <- end;
         solve [reflexivity | eauto]).
Qed.

Lemma create_lets_through cfg w e :
  post_outcome w = HttpRaises e
  \/ (exists text, post_outcome w = HttpResponse 200 text (JsonRaises e)) ->
  snd (create_temporary_token cfg w)
  = Raise (if Py.is_RequestException (Py.Err e) then Py.SystemExit 1 else Py.Err e).
Proof.
  unfold create_temporary_token.
  intros [H|[text H]]; rewrite H; now destruct e.
Qed.

(** X1.  [create_temporary_token] sends exactly one POST, to the user's
    token endpoint with the administrator's credential.  It returns
    exactly when the answer has status 200 and a truthy [visible_token],
    and then returns that token with the answer's [id]: it never returns
    a falsy token.  On a status other than 200, on a [RequestException]
    and on a 200 answer without a usable [visible_token] it leaves by
    [sys.exit(1)], and by no other exit code.  An exception raised by the
    POST or by the decoding of a 200 answer ends in [sys.exit(1)] if it
    is a [RequestException] and goes through unchanged if it is not; and
    an exception that comes out is one that was raised there. *)
Theorem token_creation_contract cfg w :
  count is_post (fst (create_temporary_token cfg w)) = 1%nat
  /\ In (HttpPost (token_url cfg) (bearer (ADMIN_API_TOKEN cfg)))
        (fst (create_temporary_token cfg w))
  /\ (forall tok tid,
        snd (create_temporary_token cfg w) = Return (tok, tid) <->
        acquisition w = Some (tok, tid))
  /\ (forall tok tid,
        snd (create_temporary_token cfg w) = Return (tok, tid) -> Py.truthy tok = true)
  /\ (creation_refused w = true ->
      snd (create_temporary_token cfg w) = Raise (Py.SystemExit 1))
  /\ (forall c, snd (create_temporary_token cfg w) = Raise (Py.SystemExit c) -> c = 1)
  /\ (forall e, snd (create_temporary_token cfg w) = Raise (Py.Err e) ->
        Py.is_RequestException (Py.Err e) = false
        /\ (post_outcome w = HttpRaises e
            \/ exists text, post_outcome w = HttpResponse 200 text (JsonRaises e)))
  /\ (forall e,
        post_outcome w = HttpRaises e
        \/ (exists text, post_outcome w = HttpResponse 200 text (JsonRaises e)) ->
        snd (create_temporary_token cfg w)
        = Raise (if Py.is_RequestException (Py.Err e)
                 then Py.SystemExit 1 else Py.Err e)).
Proof.
  destruct (create_outcomes cfg w) as (H1 & H2 & H3 & H4 & H5 & H6 & H7).
  repeat (split; [assumption|]).
  intros e. apply create_lets_through.
Qed.

(** X2.  [get_sessionless_launch_url] sends exactly one GET, to the
    account's sessionless-launch endpoint with the token it was given as
    credential.  It returns the [url] of the answer exactly when the
    status is 200 and [url] is truthy; on a status other than 200, on a
    200 answer without a usable [url] and on a [RequestException] it
    returns [None].  What it returns is [None] or truthy.  It never calls
    [sys.exit], and an exception it lets through is not a
    [RequestException]. *)
Theorem launch_resolution_contract cfg w tok :
  count is_get (fst (get_sessionless_launch_url cfg w tok)) = 1%nat
  /\ In (HttpGet (launch_url cfg) (bearer (Py.str tok)))
        (fst (get_sessionless_launch_url cfg w tok))
  /\ (forall url,
        resolution w = Some url <->
        snd (get_sessionless_launch_url cfg w tok) = Return url /\ Py.truthy url = true)
  /\ (launch_refused w = true \/ get_outcome w = HttpRaises Py.RequestException ->
      snd (get_sessionless_launch_url cfg w tok) = Return Py.JNull)
  /\ (forall v, snd (get_sessionless_launch_url cfg w tok) = Return v ->
        v = Py.JNull \/ Py.truthy v = true)
  /\ (forall c, snd (get_sessionless_launch_url cfg w tok) <> Raise (Py.SystemExit c))
  /\ (forall e, snd (get_sessionless_launch_url cfg w tok) = Raise (Py.Err e) ->
        Py.is_RequestException (Py.Err e) = false).
Proof.
  unfold get_sessionless_launch_url, resolution, launch_refused, launch_url.
  destruct (get_outcome w) as [[]|st txt [[]|d]];
    try destruct (Z.eqb_spec st 200) as [->|Hst];
    try destruct (Py.truthy (Py.dict_get "url" d)) eqn:T;
    cbn; repeat split; auto; try discriminate; try congruence;
    try (intros [H|H]; congruence);
    try (intros e H; injection H as <-; reflexivity);
    try (intros v H; injection H as <-; auto);
    try (intros [H1 H2]; injection H1 as <-; try discriminate; congruence);
    try (intros H; injection H as <-; auto);
    try (intros [H1 H2]; discriminate).
Qed.

(** X3.  [delete_temporary_token] is best effort: on any HTTP status and
    on a [RequestException] it returns normally; it never calls
    [sys.exit]; an exception that is not a [RequestException] goes
    through unchanged.  It logs the success line exactly when the status
    is 200, and a warning with the status otherwise. *)
Theorem token_deletion_contract cfg w token_id :
  (release_contained w = true ->
   snd (delete_temporary_token cfg w token_id) = Return tt)
  /\ (forall e, delete_outcome w = HttpRaises e ->
        Py.is_RequestException (Py.Err e) = false ->
        snd (delete_temporary_token cfg w token_id) = Raise (Py.Err e))
  /\ (forall c, snd (delete_temporary_token cfg w token_id) <> Raise (Py.SystemExit c))
  /\ (In (Log INFO "Temporary token deleted successfully")
         (fst (delete_temporary_token cfg w token_id))
      <-> exists text json, delete_outcome w = HttpResponse 200 text json)
  /\ (forall status_code text json,
        delete_outcome w = HttpResponse status_code text json -> status_code <> 200 ->
        In (Log WARNING
              ("Could not delete token (will auto-expire in <1 hour). Status: "
               ++ Py.str_Z status_code))
           (fst (delete_temporary_token cfg w token_id))).
Proof.
  unfold delete_temporary_token, release_contained.
  destruct (delete_outcome w) as [[]|st txt js];
    try destruct (Z.eqb_spec st 200) as [->|Hst];
    cbn; repeat split; auto; try discriminate; try congruence;
    try (intros e H Hc; injection H as <-; solve [discriminate Hc | reflexivity]);
    try (intros H; repeat (destruct H as [H|H]; try discriminate H); solve [contradiction | eauto]);
    try (intros (text & json & H); solve [discriminate H | injection H; congruence | auto]);
    try (intros status_code text json H Hne; injection H as <- <- <-;
         solve [contradiction | auto 6]).
Qed.

(** X4.  [configure_chrome_driver] returns the driver exactly when
    Chrome starts and accepts the page-load timeout.  If either call
    raises, a [WebDriverException] (a [TimeoutException] included) ends
    in [sys.exit(1)] and any other exception goes through unchanged.
    Chrome is started once; the page-load timeout is set only if Chrome
    started; the success line is logged exactly when the driver is
    returned. *)
Theorem chrome_setup_contract cfg w :
  (snd (configure_chrome_driver cfg w) = Return Chrome <-> chrome_ready w = true)
  /\ (forall e,
        chrome_outcome w = Some e
        \/ (chrome_outcome w = None /\ set_timeout_outcome w = Some e) ->
        snd (configure_chrome_driver cfg w)
        = Raise (if Py.is_WebDriverException (Py.Err e)
                 then Py.SystemExit 1 else Py.Err e))
  /\ count is_chrome_start (fst (configure_chrome_driver cfg w)) = 1%nat
  /\ count is_set_timeout (fst (configure_chrome_driver cfg w))
     = (if chrome_outcome w is Some _ then 0 else 1)%nat
  /\ (In (Log INFO "Chrome browser initialized successfully")
         (fst (configure_chrome_driver cfg w))
      <-> chrome_ready w = true).
Proof.
  unfold configure_chrome_driver, chrome_ready.
  destruct (chrome_outcome w) as [[]|]; [| | | | |destruct (set_timeout_outcome w) as [[]|]];
    cbn; repeat split; auto; try discriminate;
    try (intros e [H|[H1 H2]]; solve [discriminate | injection H as <-; reflexivity
                                     | injection H2 as <-; reflexivity]);
    try (intros H; repeat (destruct H as [H|H]; try discriminate H); contradiction).
Qed.

Ltac form_leaf :=
  cbn; repeat split; auto; try discriminate; try lia;
  try (intros H; repeat (destruct H as [H|H]; try discriminate H); contradiction);
  try (intros _; eexists; reflexivity);
  try (intros _; auto 20).

(** X5.  [submit_attendance_report_form] returns [True] exactly when all
    fourteen browser calls return, the wait after the click included.
    Otherwise it returns [False] or lets a [KeyboardInterrupt] through:
    it raises nothing else.  The submit button is clicked at most once,
    and exactly when the twelve calls before it returned; whenever it is
    clicked, what precedes the click is the page load followed by the
    three fields filled with the start date, the end date and
    [REPORT_EMAIL], in that order. *)
Theorem form_submission_contract cfg w drv s e url :
  (snd (submit_attendance_report_form cfg w drv s e url) = Return true
   <-> all_steps_return w = true)
  /\ (snd (submit_attendance_report_form cfg w drv s e url) = Return true
      \/ snd (submit_attendance_report_form cfg w drv s e url) = Return false
      \/ snd (submit_attendance_report_form cfg w drv s e url)
         = Raise (Py.Err Py.KeyboardInterrupt))
  /\ (count is_click (fst (submit_attendance_report_form cfg w drv s e url)) <= 1)%nat
  /\ (In (Browser (Click commit_button))
         (fst (submit_attendance_report_form cfg w drv s e url))
      <-> forallb (fun st => returns (form_outcome w st)) (firstn 12 form_steps) = true)
  /\ (In (Browser (Click commit_button))
         (fst (submit_attendance_report_form cfg w drv s e url)) ->
      exists rest,
        fst (submit_attendance_report_form cfg w drv s e url)
        = (filled_form cfg url s e ++ Browser (Click commit_button) :: rest)%list).
Proof.
  unfold submit_attendance_report_form, browser, all_steps_return, form_steps, filled_form.
  cbn [forallb firstn].
  destruct (form_outcome w StepGet) as [[]|]; [form_leaf..|].
  destruct (form_outcome w StepWaitStart) as [[]|]; [form_leaf..|].
  destruct (form_outcome w StepClearStart) as [[]|]; [form_leaf..|].
  destruct (form_outcome w StepSendStart) as [[]|]; [form_leaf..|].
  destruct (form_outcome w StepFindEnd) as [[]|]; [form_leaf..|].
  destruct (form_outcome w StepClearEnd) as [[]|]; [form_leaf..|].
  destruct (form_outcome w StepSendEnd) as [[]|]; [form_leaf..|].
  destruct (form_outcome w StepFindEmail) as [[]|]; [form_leaf..|].
  destruct (form_outcome w StepClearEmail) as [[]|]; [form_leaf..|].
  destruct (form_outcome w StepSendEmail) as [[]|]; [form_leaf..|].
  destruct (form_outcome w StepSettle) as [[]|]; [form_leaf..|].
  destruct (form_outcome w StepFindCommit) as [[]|]; [form_leaf..|].
  destruct (form_outcome w StepClick) as [[]|]; [form_leaf..|].
  destruct (form_outcome w StepPostWait) as [[]|]; form_leaf.
Qed.

Ltac no_such H :=
  repeat (destruct H as [H|H]; [discriminate H|]); contradiction.

Ltac classify_leaf :=
  cbn; split; [reflexivity|];
  split; [first [intros H; discriminate H | intros _; auto 25]|];
  split;
  [ intros err H; first [discriminate H | injection H as <-]; cbn; intros;
    first [discriminate | auto 25]
  | split;
    [ intros H; first [exfalso; no_such H | split; [auto 25 | reflexivity]]
    | intros [H H']; first [discriminate H' | exfalso; no_such H | auto 25] ] ].

(** X6.  The result of [submit_attendance_report_form] is decided by the
    first browser call that raises: none gives [True], an [Exception]
    gives [False], anything else ([KeyboardInterrupt]) goes through.  A
    [TimeoutException] raised by any of the calls, not only by the wait
    for the start-date field, is logged as a page-load time-out; any
    other [Exception] is logged as an error during form submission.  The
    line "Form submitted successfully" is logged exactly when the click
    was issued and returned, whatever the wait after it does. *)
Theorem form_failure_is_classified cfg w drv s e url :
  snd (submit_attendance_report_form cfg w drv s e url)
  = match first_failure w with
    | None => Return true
    | Some err =>
        if Py.is_Exception (Py.Err err) then Return false else Raise (Py.Err err)
    end
  /\ (first_failure w = Some Py.TimeoutException ->
      In (Log ERROR "Timed out waiting for Roll Call page to load.")
         (fst (submit_attendance_report_form cfg w drv s e url)))
  /\ (forall err, first_failure w = Some err ->
        Py.is_Exception (Py.Err err) = true ->
        Py.is_TimeoutException (Py.Err err) = false ->
        In (Log ERROR ("Error during form submission: " ++ Py.exc_str (Py.Err err)))
           (fst (submit_attendance_report_form cfg w drv s e url)))
  /\ (In (Log INFO "Form submitted successfully")
         (fst (submit_attendance_report_form cfg w drv s e url))
      <-> In (Browser (Click commit_button))
             (fst (submit_attendance_report_form cfg w drv s e url))
          /\ form_outcome w StepClick = None).
Proof.
  unfold submit_attendance_report_form, browser, first_failure, form_steps.
  cbn [first_raised].
  destruct (form_outcome w StepGet) as [[]|]; [classify_leaf..|].
  destruct (form_outcome w StepWaitStart) as [[]|]; [classify_leaf..|].
  destruct (form_outcome w StepClearStart) as [[]|]; [classify_leaf..|].
  destruct (form_outcome w StepSendStart) as [[]|]; [classify_leaf..|].
  destruct (form_outcome w StepFindEnd) as [[]|]; [classify_leaf..|].
  destruct (form_outcome w StepClearEnd) as [[]|]; [classify_leaf..|].
  destruct (form_outcome w StepSendEnd) as [[]|]; [classify_leaf..|].
  destruct (form_outcome w StepFindEmail) as [[]|]; [classify_leaf..|].
  destruct (form_outcome w StepClearEmail) as [[]|]; [classify_leaf..|].
  destruct (form_outcome w StepSendEmail) as [[]|]; [classify_leaf..|].
  destruct (form_outcome w StepSettle) as [[]|]; [classify_leaf..|].
  destruct (form_outcome w StepFindCommit) as [[]|]; [classify_leaf..|].
  destruct (form_outcome w StepClick) as [[]|]; [classify_leaf..|].
  destruct (form_outcome w StepPostWait) as [[]|]; classify_leaf.
Qed.

(** ** The date range *)

Lemma strftime_length t : String.length (strftime_mdY t) = 10%nat.
Proof. reflexivity. Qed.

Lemma after_first_millennium t :
  valid_date t -> 1000 < year t -> 1 < toordinal t.
Proof.
  intros V H. pose proof (toordinal_in_year t V) as B.
  pose proof (days_before_year_mono 1001 (year t)) as M.
  assert (E : days_before_year 1001 = 365242) by reflexivity.
  lia.
Qed.

(** X7.  On every run date from the year 1001 on (so that both dates
    of the range have a four-digit year, which [strftime] prints alike on
    every platform), both strings returned by [calculate_date_range] are
    ten characters long and read back as dates; from start to end there
    are six days on a Monday and none on any other day; the end date
    falls on the weekday before the run date's; on a Monday the range
    runs from the Monday to the Sunday of the week before. *)
Theorem date_range_span (w : world) :
  valid_date (now_range w) -> 1000 < year (now_range w) ->
  exists start_date end_date start_day end_day,
    calculate_date_range w = ([], Return (start_date, end_date))
    /\ String.length start_date = 10%nat /\ String.length end_date = 10%nat
    /\ parse_mdY start_date = Some start_day
    /\ parse_mdY end_date = Some end_day
    /\ 1000 <= year start_day /\ 1000 <= year end_day
    /\ toordinal end_day - toordinal start_day
       = (if weekday (now_range w) =? 0 then 6 else 0)
    /\ weekday end_day = (weekday (now_range w) + 6) mod 7
    /\ (weekday (now_range w) = 0 -> weekday start_day = 0 /\ weekday end_day = 6).
Proof.
  intros V Hy. pose proof (after_first_millennium _ V Hy) as H.
  destruct (date_range_policy_valid _ V H) as (Vs & Ve & Es & Ee).
  eexists _, _, _, _. split; [apply calculate_date_range_returns; assumption|].
  rewrite !strftime_length, !parse_strftime by assumption.
  do 4 (split; [reflexivity|]).
  assert (Y : forall t, valid_date t -> toordinal (now_range w) - 7 <= toordinal t ->
                        1000 <= year t).
  { intros t Vt Ht.
    pose proof (toordinal_in_year t Vt) as Bt.
    pose proof (toordinal_in_year _ V) as B.
    pose proof (days_before_year_mono 1001 (year (now_range w))) as M1.
    assert (E1 : days_before_year 1001 = 365242) by reflexivity.
    assert (E0 : days_before_year 1000 = 364877) by reflexivity.
    destruct (Z_lt_le_dec (year t) 1000) as [Lt|Ge]; [exfalso|exact Ge].
    destruct Vt as (Yt & _).
    pose proof (days_before_year_mono (year t + 1) 1000) as M0. lia. }
  split; [apply Y; [assumption|destruct (weekday (now_range w) =? 0); lia]|].
  split; [apply Y; [assumption|lia]|].
  unfold weekday in *. rewrite Es, Ee.
  destruct (Z.eqb_spec ((toordinal (now_range w) + 6) mod 7) 0) as [Mon|NotMon];
    repeat split; try lia; try (Z.div_mod_to_equations; lia).
Qed.

Lemma date_range_span_witness :
  exists start_date end_date start_day end_day,
    calculate_date_range smooth_world = ([], Return (start_date, end_date))
    /\ String.length start_date = 10%nat /\ String.length end_date = 10%nat
    /\ parse_mdY start_date = Some start_day
    /\ parse_mdY end_date = Some end_day
    /\ 1000 <= year start_day /\ 1000 <= year end_day
    /\ toordinal end_day - toordinal start_day
       = (if weekday (now_range smooth_world) =? 0 then 6 else 0)
    /\ weekday end_day = (weekday (now_range smooth_world) + 6) mod 7
    /\ (weekday (now_range smooth_world) = 0 -> weekday start_day = 0 /\ weekday end_day = 6).
Proof.
  apply (date_range_span smooth_world);
    [apply valid_dateb_sound; reflexivity | reflexivity].
Defined.

(** X8.  On a valid run date [calculate_date_range] raises exactly when
    the run date is [date.min] (0001-01-01), and what it raises there is
    the [OverflowError] of the subtraction. *)
Theorem date_range_overflows_only_on_first_day (w : world) :
  valid_date (now_range w) ->
  ((exists e, snd (calculate_date_range w) = Raise e) <-> now_range w = mkdate 1 1 1)
  /\ (now_range w = mkdate 1 1 1 ->
      calculate_date_range w = ([], Raise (Py.Err Py.OtherException))).
Proof.
  intros V.
  assert (R : now_range w = mkdate 1 1 1 ->
              calculate_date_range w = ([], Raise (Py.Err Py.OtherException))).
  { intros E. unfold calculate_date_range. rewrite E. reflexivity. }
  split; [|exact R]. split.
  - intros [e He].
    destruct (Z.eq_dec (toordinal (now_range w)) 1) as [E1|N1].
    + apply toordinal_inj; [assumption | apply valid_dateb_sound; reflexivity | exact E1].
    + pose proof (toordinal_max _ V) as B.
      assert (H : 1 < toordinal (now_range w)) by lia.
      rewrite (calculate_date_range_returns w V H) in He. cbn in He. discriminate.
  - intros E. rewrite (R E). cbn. eauto.
Qed.

Lemma date_range_overflows_only_on_first_day_witness :
  ((exists e, snd (calculate_date_range first_day_world) = Raise e)
   <-> now_range first_day_world = mkdate 1 1 1)
  /\ (now_range first_day_world = mkdate 1 1 1 ->
      calculate_date_range first_day_world = ([], Raise (Py.Err Py.OtherException))).
Proof.
  apply (date_range_overflows_only_on_first_day first_day_world).
  apply valid_dateb_sound. reflexivity.
Defined.

(** ** The two blocks of [main] *)

Lemma logs_only t ev : forallb is_log t = true -> In ev t -> is_log ev = true.
Proof. rewrite forallb_forall. auto. Qed.

Lemma count_zero q t :
  (forall ev, In ev t -> q ev = false) -> count q t = 0%nat.
Proof.
  unfold count. induction t as [|a t IH]; intros H; [reflexivity|].
  cbn. rewrite (H a) by now left. apply IH. intros ev Hin. apply H. now right.
Qed.

Lemma create_events cfg w ev :
  In ev (fst (create_temporary_token cfg w)) ->
  is_log ev = true \/ ev = HttpPost (token_url cfg) (bearer (ADMIN_API_TOKEN cfg)).
Proof.
  unfold create_temporary_token, token_url.
  destruct (post_outcome w) as [[]|st txt [[]|d]];
    try destruct (st =? 200); try destruct (Py.truthy _);
    cbn; intros H; repeat (destruct H as [<-|H]; auto); contradiction.
Qed.

Lemma get_events cfg w tok ev :
  In ev (fst (get_sessionless_launch_url cfg w tok)) ->
  is_log ev = true \/ ev = HttpGet (launch_url cfg) (bearer (Py.str tok)).
Proof.
  unfold get_sessionless_launch_url, launch_url.
  destruct (get_outcome w) as [[]|st txt [[]|d]];
    try destruct (st =? 200); try destruct (Py.truthy _);
    cbn; intros H; repeat (destruct H as [<-|H]; auto); contradiction.
Qed.

Lemma delete_events cfg w tid ev :
  In ev (fst (delete_temporary_token cfg w tid)) ->
  is_log ev = true \/ ev = HttpDelete (delete_url cfg tid) (bearer (ADMIN_API_TOKEN cfg)).
Proof.
  unfold delete_temporary_token, delete_url.
  destruct (delete_outcome w) as [[]|st txt js];
    try destruct (st =? 200);
    cbn; intros H; repeat (destruct H as [<-|H]; auto); contradiction.
Qed.

Lemma configure_events cfg w ev :
  In ev (fst (configure_chrome_driver cfg w)) ->
  is_log ev = true \/ ev = ChromeStart chrome_arguments
  \/ ev = SetPageLoadTimeout (PAGE_LOAD_TIMEOUT cfg).
Proof.
  unfold configure_chrome_driver.
  destruct (chrome_outcome w) as [[]|]; [| | | | |destruct (set_timeout_outcome w) as [[]|]];
    cbn; intros H; repeat (destruct H as [<-|H]; auto); contradiction.
Qed.

Ltac events_leaf :=
  cbn; intros H; repeat (destruct H as [<-|H]; [auto 20|]); contradiction.

Lemma submit_events cfg w drv s e url ev :
  In ev (fst (submit_attendance_report_form cfg w drv s e url)) ->
  is_log ev = true \/ In ev (form_calls cfg url s e).
Proof.
  unfold submit_attendance_report_form, browser, form_calls.
  destruct (form_outcome w StepGet) as [[]|]; [events_leaf..|].
  destruct (form_outcome w StepWaitStart) as [[]|]; [events_leaf..|].
  destruct (form_outcome w StepClearStart) as [[]|]; [events_leaf..|].
  destruct (form_outcome w StepSendStart) as [[]|]; [events_leaf..|].
  destruct (form_outcome w StepFindEnd) as [[]|]; [events_leaf..|].
  destruct (form_outcome w StepClearEnd) as [[]|]; [events_leaf..|].
  destruct (form_outcome w StepSendEnd) as [[]|]; [events_leaf..|].
  destruct (form_outcome w StepFindEmail) as [[]|]; [events_leaf..|].
  destruct (form_outcome w StepClearEmail) as [[]|]; [events_leaf..|].
  destruct (form_outcome w StepSendEmail) as [[]|]; [events_leaf..|].
  destruct (form_outcome w StepSettle) as [[]|]; [events_leaf..|].
  destruct (form_outcome w StepFindCommit) as [[]|]; [events_leaf..|].
  destruct (form_outcome w StepClick) as [[]|]; [events_leaf..|].
  destruct (form_outcome w StepPostWait) as [[]|]; events_leaf.
Qed.

Lemma submit_navigates cfg w drv s e url :
  count is_navigate (fst (submit_attendance_report_form cfg w drv s e url)) = 1%nat.
Proof.
  unfold submit_attendance_report_form, browser.
  destruct (form_outcome w StepGet) as [[]|]; [reflexivity..|].
  destruct (form_outcome w StepWaitStart) as [[]|]; [reflexivity..|].
  destruct (form_outcome w StepClearStart) as [[]|]; [reflexivity..|].
  destruct (form_outcome w StepSendStart) as [[]|]; [reflexivity..|].
  destruct (form_outcome w StepFindEnd) as [[]|]; [reflexivity..|].
  destruct (form_outcome w StepClearEnd) as [[]|]; [reflexivity..|].
  destruct (form_outcome w StepSendEnd) as [[]|]; [reflexivity..|].
  destruct (form_outcome w StepFindEmail) as [[]|]; [reflexivity..|].
  destruct (form_outcome w StepClearEmail) as [[]|]; [reflexivity..|].
  destruct (form_outcome w StepSendEmail) as [[]|]; [reflexivity..|].
  destruct (form_outcome w StepSettle) as [[]|]; [reflexivity..|].
  destruct (form_outcome w StepFindCommit) as [[]|]; [reflexivity..|].
  destruct (form_outcome w StepClick) as [[]|]; [reflexivity..|].
  destruct (form_outcome w StepPostWait) as [[]|]; reflexivity.
Qed.

Lemma main_try_trace cfg w l :
  fst (fst (main_try cfg w l)) = try_trace cfg w.
Proof.
  unfold main_try, try_trace.
  destruct (create_temporary_token cfg w) as [t1 [[tok tid]|e1]]; cbn;
    [|now rewrite app_nil_r].
  destruct (get_sessionless_launch_url cfg w tok) as [t2 [url|e2]]; cbn;
    [|now rewrite app_nil_r].
  destruct (Py.truthy url); cbn; [|now rewrite <- ?app_assoc].
  destruct (calculate_date_range w) as [t3 [[s e]|e3]]; cbn;
    [|now rewrite ?app_nil_r, <- ?app_assoc].
  destruct (configure_chrome_driver cfg w) as [t4 [drv|e4]]; cbn.
  - destruct (submit_attendance_report_form cfg w drv s e url) as [t5 [ok|e5]]; cbn;
      rewrite ?app_nil_r, <- ?app_assoc; cbn; rewrite <- ?app_assoc; reflexivity.
  - rewrite ?app_nil_r, <- ?app_assoc. cbn. rewrite <- ?app_assoc. reflexivity.
Qed.

Lemma main_finally_trace cfg w l :
  fst (fst (main_finally cfg w l)) = cleanup_trace cfg w l.
Proof.
  unfold main_finally, cleanup_trace, release_due, reaches_release, teardown_contained.
  destruct l as [tid [[]|] ok]; cbn.
  - destruct (quit_outcome w) as [[]|]; cbn;
      destruct (Py.truthy tid); cbn;
      try destruct (delete_temporary_token cfg w tid) as [t r]; cbn;
      rewrite ?app_nil_r; reflexivity.
  - destruct (Py.truthy tid); cbn;
      try destruct (delete_temporary_token cfg w tid) as [t r]; reflexivity.
Qed.

Lemma run_anatomy cfg w :
  config_incomplete cfg = false ->
  exists l r1 r2,
    main_try cfg w fresh_locals = (try_trace cfg w, l, r1)
    /\ temp_token_id l = token_id_of w
    /\ driver l = (if browser_opened w then Some Chrome else None)
    /\ success l = confirmed w
    /\ run cfg w
       = ((prelude ++ try_trace cfg w ++ caught_log r1 ++ cleanup_trace cfg w l
           ++ fst (verdict cfg (success l) r1 r2))%list,
          snd (verdict cfg (success l) r1 r2)).
Proof.
  intros Hc. destruct (run_shape cfg w Hc) as [p Hp].
  destruct (locals_at_cleanup cfg w p Hp) as (Et & Ed & Es).
  assert (E1 : main_try cfg w fresh_locals = (try_events p, try_locals p, try_result p))
    by apply Hp.
  pose proof (main_try_trace cfg w fresh_locals) as Tt. rewrite E1 in Tt. cbn in Tt.
  destruct (main_finally_shape cfg w (try_locals p)) as (t2 & r2 & E2 & _).
  pose proof (main_finally_trace cfg w (try_locals p)) as Tc. rewrite E2 in Tc. cbn in Tc.
  exists (try_locals p), (try_result p), r2.
  rewrite <- Tt, <- Tc. repeat split; try assumption.
  apply (run_configured cfg w _ _ _ _ _ Hc E1 E2).
Qed.

Lemma try_trace_stage cfg w :
  match stage_reached w with
  | AtCreation => try_trace cfg w = fst (create_temporary_token cfg w)
  | AtResolution | AtDateRange =>
      exists tok tid tail,
        acquisition w = Some (tok, tid)
        /\ try_trace cfg w
           = (fst (create_temporary_token cfg w)
              ++ fst (get_sessionless_launch_url cfg w tok) ++ tail)%list
        /\ forallb is_log tail = true
  | AtBrowser =>
      exists tok tid msg,
        acquisition w = Some (tok, tid)
        /\ try_trace cfg w
           = (fst (create_temporary_token cfg w)
              ++ fst (get_sessionless_launch_url cfg w tok)
              ++ Log INFO msg :: fst (configure_chrome_driver cfg w))%list
  | AtForm | Confirmed =>
      exists tok tid url s e msg,
        acquisition w = Some (tok, tid)
        /\ resolution w = Some url
        /\ calculate_date_range w = ([], Return (s, e))
        /\ try_trace cfg w
           = (fst (create_temporary_token cfg w)
              ++ fst (get_sessionless_launch_url cfg w tok)
              ++ Log INFO msg :: fst (configure_chrome_driver cfg w)
              ++ fst (submit_attendance_report_form cfg w Chrome s e url))%list
  end.
Proof.
  unfold try_trace, stage_reached. cbv zeta.
  destruct (acquisition w) as [[tok tid]|] eqn:Ea.
  2:{ destruct (create_failed cfg w Ea) as (t & e & Ec & _).
      rewrite Ec. cbn. now rewrite app_nil_r. }
  rewrite (create_acquired cfg w _ Ea). cbn [fst snd].
  destruct (resolution w) as [url|] eqn:Er.
  2:{ destruct (get_unresolved cfg w tok Er) as (t & r & Eg & _ & Rg).
      rewrite Eg. cbn [fst snd].
      destruct Rg as [->|[e ->]]; cbn [Py.truthy];
        eexists tok, tid, _; rewrite Eg; cbn [fst];
        (split; [reflexivity|]); (split; [reflexivity|]); reflexivity. }
  destruct (get_resolved cfg w tok url Er) as [Hu Eg].
  rewrite Eg. cbn [fst snd]. rewrite Hu.
  destruct (calculate_date_range_shape w) as (rd & Ed & Rd).
  rewrite Ed. cbn [fst snd app].
  destruct Rd as [->|[[s e] ->]].
  { exists tok, tid, []; rewrite Eg; cbn [fst];
    (split; [reflexivity|]); (split; [reflexivity|]); reflexivity. }
  destruct (chrome_ready w) eqn:Ech.
  2:{ destruct (chrome_failed cfg w Ech) as (t & ex & Ec & _).
      rewrite Ec. cbn [fst snd]. rewrite app_nil_r.
      eexists tok, tid, _; rewrite Eg; cbn [fst]; (split; [reflexivity|]); reflexivity. }
  rewrite (chrome_configured cfg w Ech). cbn [fst snd].
  destruct (all_steps_return w);
    eexists tok, tid, url, s, e, _; rewrite Eg; cbn [fst];
    repeat (split; [reflexivity|]); reflexivity.
Qed.

Section Counting.
Variable q : event -> bool.
Hypothesis q_log : forall lvl msg, q (Log lvl msg) = false.

Lemma count_create cfg w :
  count q (fst (create_temporary_token cfg w))
  = (if q (HttpPost (token_url cfg) (bearer (ADMIN_API_TOKEN cfg))) then 1 else 0)%nat.
Proof.
  unfold create_temporary_token, token_url, count.
  destruct (post_outcome w) as [[]|st txt [[]|d]];
    try destruct (st =? 200); try destruct (Py.truthy _);
    cbn; rewrite ?q_log; destruct (q (HttpPost _ _)); cbn; rewrite ?q_log; reflexivity.
Qed.

Lemma count_get cfg w tok :
  count q (fst (get_sessionless_launch_url cfg w tok))
  = (if q (HttpGet (launch_url cfg) (bearer (Py.str tok))) then 1 else 0)%nat.
Proof.
  unfold get_sessionless_launch_url, launch_url, count.
  destruct (get_outcome w) as [[]|st txt [[]|d]];
    try destruct (st =? 200); try destruct (Py.truthy _);
    cbn; rewrite ?q_log; destruct (q (HttpGet _ _)); cbn; rewrite ?q_log; reflexivity.
Qed.

Lemma count_delete cfg w tid :
  count q (fst (delete_temporary_token cfg w tid))
  = (if q (HttpDelete (delete_url cfg tid) (bearer (ADMIN_API_TOKEN cfg))) then 1 else 0)%nat.
Proof.
  unfold delete_temporary_token, delete_url, count.
  destruct (delete_outcome w) as [[]|st txt js];
    try destruct (st =? 200);
    cbn; rewrite ?q_log; destruct (q (HttpDelete _ _)); cbn; rewrite ?q_log; reflexivity.
Qed.

Lemma count_configure cfg w :
  count q (fst (configure_chrome_driver cfg w))
  = ((if q (ChromeStart chrome_arguments) then 1 else 0)
     + (if chrome_outcome w is Some _ then 0
        else if q (SetPageLoadTimeout (PAGE_LOAD_TIMEOUT cfg)) then 1 else 0))%nat.
Proof.
  unfold configure_chrome_driver, count.
  destruct (chrome_outcome w) as [[]|]; [| | | | |destruct (set_timeout_outcome w) as [[]|]];
    cbn; rewrite ?q_log; destruct (q (ChromeStart _)); cbn; rewrite ?q_log;
    try destruct (q (SetPageLoadTimeout _)); cbn; rewrite ?q_log; reflexivity.
Qed.

Lemma count_cleanup cfg w l :
  count q (cleanup_trace cfg w l)
  = ((if q EnterCleanup then 1 else 0)
     + (if driver l is Some _ then if q BrowserQuit then 1 else 0 else 0)
     + (if release_due w l
        then if q (HttpDelete (delete_url cfg (temp_token_id l))
                              (bearer (ADMIN_API_TOKEN cfg))) then 1 else 0
        else 0))%nat.
Proof.
  unfold cleanup_trace. rewrite count_cons, count_app.
  destruct (release_due w l); [rewrite count_delete|rewrite count_nil];
    destruct (driver l); rewrite ?count_cons, ?count_nil, ?q_log;
    destruct (q EnterCleanup), (q BrowserQuit); cbn; lia.
Qed.

Lemma count_run_anatomy cfg w :
  config_incomplete cfg = false ->
  exists l,
    temp_token_id l = token_id_of w
    /\ driver l = (if browser_opened w then Some Chrome else None)
    /\ count q (run_trace cfg w)
       = (count q (try_trace cfg w) + count q (cleanup_trace cfg w l))%nat.
Proof.
  intros Hc. destruct (run_anatomy cfg w Hc) as (l & r1 & r2 & _ & Et & Ed & _ & E).
  exists l. split; [assumption|]. split; [assumption|].
  unfold run_trace. rewrite E. cbn [fst]. rewrite !count_app.
  rewrite (count_logs q prelude q_log) by reflexivity.
  rewrite (count_logs q _ q_log (caught_log_logs r1)).
  rewrite (count_logs q _ q_log (verdict_logs cfg _ r1 r2)). lia.
Qed.

End Counting.

(** ** Whole runs *)

Lemma count_submit_zero q cfg w drv s e url :
  (forall lvl msg, q (Log lvl msg) = false) ->
  (forall c, q (Browser c) = false) ->
  count q (fst (submit_attendance_report_form cfg w drv s e url)) = 0%nat.
Proof.
  intros Hl Hb. apply count_zero. intros ev H.
  apply submit_events in H. destruct H as [H|H].
  - destruct ev; try discriminate. apply Hl.
  - unfold form_calls in H. repeat (destruct H as [<-|H]; [apply Hb|]). contradiction.
Qed.

Lemma submit_clicks_once cfg w drv s e url :
  (count is_click (fst (submit_attendance_report_form cfg w drv s e url)) <= 1)%nat.
Proof.
  unfold submit_attendance_report_form, browser.
  destruct (form_outcome w StepGet) as [[]|]; [cbn; lia..|].
  destruct (form_outcome w StepWaitStart) as [[]|]; [cbn; lia..|].
  destruct (form_outcome w StepClearStart) as [[]|]; [cbn; lia..|].
  destruct (form_outcome w StepSendStart) as [[]|]; [cbn; lia..|].
  destruct (form_outcome w StepFindEnd) as [[]|]; [cbn; lia..|].
  destruct (form_outcome w StepClearEnd) as [[]|]; [cbn; lia..|].
  destruct (form_outcome w StepSendEnd) as [[]|]; [cbn; lia..|].
  destruct (form_outcome w StepFindEmail) as [[]|]; [cbn; lia..|].
  destruct (form_outcome w StepClearEmail) as [[]|]; [cbn; lia..|].
  destruct (form_outcome w StepSendEmail) as [[]|]; [cbn; lia..|].
  destruct (form_outcome w StepSettle) as [[]|]; [cbn; lia..|].
  destruct (form_outcome w StepFindCommit) as [[]|]; [cbn; lia..|].
  destruct (form_outcome w StepClick) as [[]|]; [cbn; lia..|].
  destruct (form_outcome w StepPostWait) as [[]|]; cbn; lia.
Qed.

Lemma stage_creation_inv w : stage_reached w = AtCreation -> acquisition w = None.
Proof.
  unfold stage_reached. destruct (acquisition w); [|reflexivity].
  destruct (resolution w); [|discriminate].
  destruct (snd (calculate_date_range w)); [|discriminate].
  destruct (chrome_ready w); [|discriminate].
  destruct (all_steps_return w); discriminate.
Qed.

Ltac by_stage cfg w q :=
  let l := fresh "l" in let Et := fresh "Et" in let Ed := fresh "Ed" in
  let Ec := fresh "Ec" in let S := fresh "S" in let Hs := fresh "Hs" in
  match goal with Hc : config_incomplete cfg = false |- _ =>
    destruct (count_run_anatomy q ltac:(reflexivity) cfg w Hc) as (l & Et & Ed & Ec)
  end;
  rewrite Ec; rewrite (count_cleanup q ltac:(reflexivity)); rewrite Ed;
  pose proof (try_trace_stage cfg w) as S; unfold browser_opened in *;
  destruct (stage_reached w) eqn:Hs;
  [ rewrite S; apply stage_creation_inv in Hs
  | destruct S as (? & ? & ? & ? & -> & ?)
  | destruct S as (? & ? & ? & ? & -> & ?)
  | destruct S as (? & ? & ? & ? & ->)
  | destruct S as (? & ? & ? & ? & ? & ? & ? & ? & ? & ->)
  | destruct S as (? & ? & ? & ? & ? & ? & ? & ? & ? & ->) ];
  repeat (rewrite count_app || rewrite count_cons);
  rewrite ?(count_create q ltac:(reflexivity)), ?(count_get q ltac:(reflexivity)),
    ?(count_configure q ltac:(reflexivity));
  repeat match goal with
    | H : forallb is_log ?t = true |- context [count q ?t] =>
        rewrite (count_logs q t ltac:(reflexivity) H)
    end;
  cbn [is_post is_get is_delete is_quit is_chrome_start is_set_timeout is_navigate
       is_click is_enter_cleanup is_log].

(** X9.  A run of the configured script repeats no call: the token
    request is sent exactly once; the launch request once if a token was
    acquired and not at all otherwise; the page is loaded once if the
    form routine was entered and not at all otherwise; the submit button
    is clicked at most once; at most one DELETE is sent; the [finally]
    block is entered exactly once. *)
Theorem no_call_is_repeated cfg w :
  config_incomplete cfg = false ->
  count is_post (run_trace cfg w) = 1%nat
  /\ count is_get (run_trace cfg w) = (if acquisition w is Some _ then 1 else 0)%nat
  /\ count is_navigate (run_trace cfg w) = (if browser_opened w then 1 else 0)%nat
  /\ (count is_click (run_trace cfg w) <= 1)%nat
  /\ (count is_delete (run_trace cfg w) <= 1)%nat
  /\ count is_enter_cleanup (run_trace cfg w) = 1%nat.
Proof.
  intros Hc. repeat split.
  - by_stage cfg w is_post;
      rewrite ?count_submit_zero by reflexivity;
      destruct (release_due w l), (chrome_outcome w); lia.
  - by_stage cfg w is_get;
      rewrite ?count_submit_zero by reflexivity;
      repeat match goal with H : acquisition w = _ |- _ => rewrite H end;
      destruct (release_due w l), (chrome_outcome w); lia.
  - by_stage cfg w is_navigate;
      rewrite ?count_submit_zero by reflexivity; rewrite ?submit_navigates;
      destruct (release_due w l), (chrome_outcome w); lia.
  - by_stage cfg w is_click;
      rewrite ?count_submit_zero by reflexivity;
      try match goal with |- context [count is_click (fst (submit_attendance_report_form ?c ?w' ?d ?s ?e ?u))] =>
        pose proof (submit_clicks_once c w' d s e u) end;
      destruct (release_due w l), (chrome_outcome w); lia.
  - rewrite (release_calls_exact cfg w Hc).
    destruct (Py.truthy _ && _); lia.
  - by_stage cfg w is_enter_cleanup;
      rewrite ?count_submit_zero by reflexivity;
      destruct (release_due w l), (chrome_outcome w); lia.
Qed.

Lemma no_call_is_repeated_witness :
  count is_post (run_trace campus_config smooth_world) = 1%nat
  /\ count is_get (run_trace campus_config smooth_world)
     = (if acquisition smooth_world is Some _ then 1 else 0)%nat
  /\ count is_navigate (run_trace campus_config smooth_world)
     = (if browser_opened smooth_world then 1 else 0)%nat
  /\ (count is_click (run_trace campus_config smooth_world) <= 1)%nat
  /\ (count is_delete (run_trace campus_config smooth_world) <= 1)%nat
  /\ count is_enter_cleanup (run_trace campus_config smooth_world) = 1%nat.
Proof. apply (no_call_is_repeated campus_config smooth_world). reflexivity. Defined.

(** X10.  In a run of the configured script [driver.quit()] is called
    once if [configure_chrome_driver] returned a driver and not at all
    otherwise, and Chrome is started once if the run got as far as the
    browser.  So when Chrome starts and then refuses its page-load
    timeout, the run ends without [driver.quit()]: [main] never received
    the driver. *)
Theorem browser_quit_accounting cfg w :
  config_incomplete cfg = false ->
  count is_quit (run_trace cfg w) = (if browser_opened w then 1 else 0)%nat
  /\ count is_chrome_start (run_trace cfg w)
     = (match stage_reached w with
        | AtBrowser | AtForm | Confirmed => 1
        | _ => 0
        end)%nat
  /\ (stage_reached w = AtBrowser -> chrome_outcome w = None ->
      count is_set_timeout (run_trace cfg w) = 1%nat
      /\ count is_quit (run_trace cfg w) = 0%nat).
Proof.
  intros Hc.
  assert (Q : count is_quit (run_trace cfg w) = (if browser_opened w then 1 else 0)%nat).
  { by_stage cfg w is_quit;
      rewrite ?count_submit_zero by reflexivity;
      destruct (release_due w l), (chrome_outcome w); lia. }
  split; [exact Q|]. split.
  - by_stage cfg w is_chrome_start;
      rewrite ?count_submit_zero by reflexivity;
      destruct (release_due w l), (chrome_outcome w); lia.
  - intros Hs Hch. split.
    + by_stage cfg w is_set_timeout; try discriminate.
      rewrite Hch. destruct (release_due w l); lia.
    + rewrite Q. unfold browser_opened. now rewrite Hs.
Qed.

Lemma browser_quit_accounting_witness :
  count is_quit (run_trace campus_config half_started_world)
  = (if browser_opened half_started_world then 1 else 0)%nat
  /\ count is_chrome_start (run_trace campus_config half_started_world)
     = (match stage_reached half_started_world with
        | AtBrowser | AtForm | Confirmed => 1
        | _ => 0
        end)%nat
  /\ (stage_reached half_started_world = AtBrowser ->
      chrome_outcome half_started_world = None ->
      count is_set_timeout (run_trace campus_config half_started_world) = 1%nat
      /\ count is_quit (run_trace campus_config half_started_world) = 0%nat).
Proof. apply (browser_quit_accounting campus_config half_started_world). reflexivity. Defined.

Lemma try_trace_class cfg w : forallb is_try_event (try_trace cfg w) = true.
Proof.
  destruct (main_try_shape cfg w) as (t & l & r & E & F & _).
  pose proof (main_try_trace cfg w fresh_locals) as Tt. rewrite E in Tt. cbn in Tt.
  now rewrite <- Tt.
Qed.

(** X11.  The trace of a run of the configured script is cut by the
    entry into the [finally] block: before it only log lines, the two
    requests, the browser start and the form calls; after it first the
    closing of the browser, then the release of the token, then log
    lines.  No token is deleted before it was used, and the browser is
    closed before the token is deleted. *)
Theorem cleanup_follows_use cfg w :
  config_incomplete cfg = false ->
  exists before closing releasing after,
    run_trace cfg w
    = (before ++ EnterCleanup :: closing ++ releasing ++ after)%list
    /\ forallb is_try_event before = true
    /\ forallb (fun ev => is_log ev || is_quit ev) closing = true
    /\ forallb (fun ev => is_log ev || is_delete ev) releasing = true
    /\ forallb is_log after = true.
Proof.
  intros Hc. destruct (run_anatomy cfg w Hc) as (l & r1 & r2 & _ & _ & _ & _ & E).
  exists (prelude ++ try_trace cfg w ++ caught_log r1)%list,
    (if driver l is Some _ then [Log INFO "Closing browser..."; BrowserQuit] else []),
    (if release_due w l
     then fst (delete_temporary_token cfg w (temp_token_id l)) else []),
    (fst (verdict cfg (success l) r1 r2)).
  split; [|split; [|split; [|split]]].
  - unfold run_trace. rewrite E. cbn [fst]. unfold cleanup_trace.
    rewrite <- !app_assoc. cbn [app]. rewrite <- !app_assoc. reflexivity.
  - rewrite !forallb_app, try_trace_class.
    rewrite (forallb_weaken _ is_try_event _ (caught_log_logs r1)) by (now intros []).
    reflexivity.
  - now destruct (driver l).
  - destruct (release_due w l); [|reflexivity].
    destruct (delete_shape cfg w (temp_token_id l)) as (t & r & Ed & F & _).
    rewrite Ed. cbn [fst forallb is_log is_delete orb andb].
    apply (forallb_weaken _ _ _ F). now intros [].
  - apply verdict_logs.
Qed.

Lemma cleanup_follows_use_witness :
  exists before closing releasing after,
    run_trace campus_config smooth_world
    = (before ++ EnterCleanup :: closing ++ releasing ++ after)%list
    /\ forallb is_try_event before = true
    /\ forallb (fun ev => is_log ev || is_quit ev) closing = true
    /\ forallb (fun ev => is_log ev || is_delete ev) releasing = true
    /\ forallb is_log after = true.
Proof. apply (cleanup_follows_use campus_config smooth_world). reflexivity. Defined.

Lemma log_addressed cfg w ev : is_log ev = true -> well_addressed cfg w ev.
Proof. destruct ev; try discriminate. intros _. exact I. Qed.

Lemma try_trace_addressed cfg w ev :
  In ev (try_trace cfg w) -> well_addressed cfg w ev.
Proof.
  pose proof (try_trace_stage cfg w) as S.
  assert (C : In ev (fst (create_temporary_token cfg w)) -> well_addressed cfg w ev).
  { intros H. apply create_events in H. destruct H as [H| ->];
      [now apply log_addressed | now split]. }
  assert (G : forall tok tid, acquisition w = Some (tok, tid) ->
              In ev (fst (get_sessionless_launch_url cfg w tok)) ->
              well_addressed cfg w ev).
  { intros tok tid Ha H. apply get_events in H. destruct H as [H| ->];
      [now apply log_addressed | split; [reflexivity | now exists tok, tid]]. }
  assert (B : In ev (fst (configure_chrome_driver cfg w)) -> well_addressed cfg w ev).
  { intros H. apply configure_events in H. destruct H as [H|[->| ->]];
      [now apply log_addressed | exact I | exact I]. }
  destruct (stage_reached w).
  - rewrite S. exact C.
  - destruct S as (tok & tid & tail & Ha & -> & Ft). rewrite !in_app_iff.
    intros [H|[H|H]]; [auto | eauto | apply log_addressed, (logs_only _ _ Ft H)].
  - destruct S as (tok & tid & tail & Ha & -> & Ft). rewrite !in_app_iff.
    intros [H|[H|H]]; [auto | eauto | apply log_addressed, (logs_only _ _ Ft H)].
  - destruct S as (tok & tid & msg & Ha & ->). rewrite !in_app_iff. cbn [In].
    intros [H|[H|[<-|H]]]; [auto | eauto | exact I | auto].
  - destruct S as (tok & tid & url & s & e & msg & Ha & Hr & Ed & ->).
    rewrite !in_app_iff. cbn [In]. rewrite in_app_iff.
    intros [H|[H|[<-|[H|H]]]]; [auto | eauto | exact I | auto |].
    apply submit_events in H. destruct H as [H|H]; [now apply log_addressed|].
    unfold form_calls in H.
    repeat (destruct H as [<-|H]; [cbn; eauto|]). contradiction.
  - destruct S as (tok & tid & url & s & e & msg & Ha & Hr & Ed & ->).
    rewrite !in_app_iff. cbn [In]. rewrite in_app_iff.
    intros [H|[H|[<-|[H|H]]]]; [auto | eauto | exact I | auto |].
    apply submit_events in H. destruct H as [H|H]; [now apply log_addressed|].
    unfold form_calls in H.
    repeat (destruct H as [<-|H]; [cbn; eauto|]). contradiction.
Qed.

(** X12.  Every call of a run goes where it should: a POST to the token
    endpoint with the administrator's credential; a GET to the launch
    endpoint with the token acquired in this run; a DELETE for the id
    acquired in this run, which is truthy, with the administrator's
    credential; the browser loads the URL the launch endpoint returned,
    types the dates [calculate_date_range] returned and [REPORT_EMAIL],
    and types nothing into the submit button. *)
Theorem every_call_is_addressed cfg w ev :
  In ev (run_trace cfg w) -> well_addressed cfg w ev.
Proof.
  destruct (config_incomplete cfg) eqn:Hc.
  - unfold run_trace. rewrite (run_unconfigured cfg w Hc). cbn [fst].
    intros H. apply log_addressed. revert H. now apply logs_only.
  - destruct (run_anatomy cfg w Hc) as (l & r1 & r2 & _ & Et & _ & _ & E).
    unfold run_trace. rewrite E. cbn [fst]. rewrite !in_app_iff.
    intros [H|[H|[H|[H|H]]]].
    + apply log_addressed. revert H. now apply logs_only.
    + now apply try_trace_addressed.
    + apply log_addressed, (logs_only _ _ (caught_log_logs r1) H).
    + unfold cleanup_trace in H. cbn [In] in H. rewrite in_app_iff in H.
      destruct H as [<-|[H|H]]; [exact I | |].
      * destruct (driver l); [|contradiction].
        destruct H as [<-|[<-|[]]]; exact I.
      * destruct (release_due w l) eqn:Hd; [|contradiction].
        apply delete_events in H. destruct H as [H| ->]; [now apply log_addressed|].
        unfold release_due in Hd. apply andb_true_iff in Hd. destruct Hd as [_ Ht].
        rewrite Et in *. now repeat split.
    + apply log_addressed, (logs_only _ _ (verdict_logs cfg _ r1 r2) H).
Qed.

Lemma every_call_is_addressed_witness :
  well_addressed campus_config smooth_world
    (HttpDelete "https://canvas.example.edu/api/v1/users/42/tokens/7" "Bearer adm-token").
Proof.
  apply (every_call_is_addressed campus_config smooth_world).
  vm_compute. repeat (first [left; reflexivity | right]).
Defined.

Lemma disturbed_cleanup_escapes cfg w :
  config_incomplete cfg = false -> cleanup_undisturbed w = false ->
  exists e, exit_status cfg w = Uncaught e.
Proof.
  intros Hc Hu. destruct (run_shape cfg w Hc) as [p Hp].
  destruct (locals_at_cleanup cfg w p Hp) as (Et & Ed & _).
  destruct Hp as (_ & E & _ & _ & _ & _ & _ & _ & R & _).
  unfold exit_status. rewrite E. cbn [snd].
  unfold reaches_release in R. rewrite Et, Ed in R.
  unfold cleanup_undisturbed in Hu.
  destruct (browser_opened w), (teardown_contained w), (Py.truthy (token_id_of w)),
    (release_contained w); try discriminate Hu; cbn in R;
    match type of R with
    | ex _ => destruct R as [e R]
    | _ => idtac
    end; rewrite R; now eexists.
Qed.

(** X13.  The process ends with status 0 exactly when the configuration
    passed the pre-flight check, the form routine returned [True] and the
    cleanup calls raised nothing their handlers let through.  A run that
    ends by [sys.exit] ends with status 0 or 1.  When a cleanup call of a
    configured run raises something its handler lets through, the process
    ends with that exception uncaught and not by [sys.exit]. *)
Theorem success_is_reported_exactly cfg w :
  (exit_status cfg w = Exit 0
   <-> config_incomplete cfg = false /\ confirmed w = true
       /\ cleanup_undisturbed w = true)
  /\ (forall c, exit_status cfg w = Exit c -> c = 0 \/ c = 1)
  /\ (config_incomplete cfg = false -> cleanup_undisturbed w = false ->
      exists e, exit_status cfg w = Uncaught e).
Proof.
  destruct (config_incomplete cfg) eqn:Hc.
  - unfold exit_status. rewrite (run_unconfigured cfg w Hc). cbn [snd].
    split; [split; [discriminate | intros (H & _); discriminate]|].
    split; [intros c H; injection H as <-; now right | discriminate].
  - destruct (cleanup_undisturbed w) eqn:Hu.
    + rewrite (exit_status_exact cfg w Hc Hu). unfold confirmed.
      destruct (stage_reached w);
        (split; [split; [try discriminate; auto | intros (_ & H & _); try discriminate; auto]|]);
        (split; [intros c H; injection H as <-; auto | discriminate]).
    + destruct (disturbed_cleanup_escapes cfg w Hc Hu) as [e He]. rewrite He.
      split; [split; [discriminate | intros (_ & _ & H); discriminate]|].
      split; [discriminate | eauto].
Qed.

Lemma delete_warns cfg w tid :
  (forall status_code text json,
      delete_outcome w = HttpResponse status_code text json -> status_code <> 200 ->
      In (Log WARNING
            ("Could not delete token (will auto-expire in <1 hour). Status: "
             ++ Py.str_Z status_code))
         (fst (delete_temporary_token cfg w tid)))
  /\ (delete_outcome w = HttpRaises Py.RequestException ->
      In (Log WARNING
            "Network error during token cleanup (will auto-expire): RequestException")
         (fst (delete_temporary_token cfg w tid))).
Proof.
  unfold delete_temporary_token. split.
  - intros st txt js -> Hne. destruct (Z.eqb_spec st 200); [contradiction|].
    cbn. auto.
  - intros ->. cbn. auto.
Qed.

Lemma cleanup_in_run cfg w ev :
  config_incomplete cfg = false ->
  (exists l, temp_token_id l = token_id_of w
             /\ driver l = (if browser_opened w then Some Chrome else None)
             /\ (In ev (cleanup_trace cfg w l) -> In ev (run_trace cfg w))).
Proof.
  intros Hc. destruct (run_anatomy cfg w Hc) as (l & r1 & r2 & _ & Et & Ed & _ & E).
  exists l. split; [assumption|]. split; [assumption|].
  unfold run_trace. rewrite E. cbn [fst]. rewrite !in_app_iff. auto.
Qed.

(** X14.  In a run of the configured script that holds a token id and
    reaches the release, a deletion that Canvas refuses (any status other
    than 200) or that fails with a [RequestException] is logged as a
    warning and leaves the exit status as the form routine decided it: 0
    if the form was confirmed, 1 otherwise. *)
Theorem failed_release_is_only_a_warning cfg w :
  config_incomplete cfg = false ->
  Py.truthy (token_id_of w) = true ->
  negb (browser_opened w) || teardown_contained w = true ->
  release_contained w = true ->
  exit_status cfg w = Exit (if confirmed w then 0 else 1)
  /\ (forall status_code text json,
        delete_outcome w = HttpResponse status_code text json -> status_code <> 200 ->
        In (Log WARNING
              ("Could not delete token (will auto-expire in <1 hour). Status: "
               ++ Py.str_Z status_code))
           (run_trace cfg w))
  /\ (delete_outcome w = HttpRaises Py.RequestException ->
      In (Log WARNING
            "Network error during token cleanup (will auto-expire): RequestException")
         (run_trace cfg w)).
Proof.
  intros Hc Ht Hq Hr.
  assert (Hu : cleanup_undisturbed w = true).
  { unfold cleanup_undisturbed. now rewrite Hq, Hr, orb_true_r. }
  split.
  { rewrite (exit_status_exact cfg w Hc Hu). unfold confirmed.
    now destruct (stage_reached w). }
  assert (D : forall ev l,
             temp_token_id l = token_id_of w ->
             driver l = (if browser_opened w then Some Chrome else None) ->
             In ev (fst (delete_temporary_token cfg w (temp_token_id l))) ->
             In ev (cleanup_trace cfg w l)).
  { intros ev l Et Ed H. unfold cleanup_trace, release_due, reaches_release.
    rewrite Ed, Et, Ht. rewrite Et in H. right. rewrite in_app_iff. right.
    destruct (browser_opened w); cbn in Hq; rewrite ?Hq; cbn; exact H. }
  split.
  - intros st txt js Ho Hne.
    destruct (cleanup_in_run cfg w
                (Log WARNING
                   ("Could not delete token (will auto-expire in <1 hour). Status: "
                    ++ Py.str_Z st)) Hc) as (l & Et & Ed & I).
    apply I, D; try assumption. now apply (proj1 (delete_warns cfg w _) st txt js).
  - intros Ho.
    destruct (cleanup_in_run cfg w
                (Log WARNING
                   "Network error during token cleanup (will auto-expire): RequestException")
                Hc) as (l & Et & Ed & I).
    apply I, D; try assumption. now apply (proj2 (delete_warns cfg w _)).
Qed.

Lemma failed_release_is_only_a_warning_witness :
  exit_status campus_config (with_delete smooth_world server_error)
  = Exit (if confirmed (with_delete smooth_world server_error) then 0 else 1)
  /\ (forall status_code text json,
        delete_outcome (with_delete smooth_world server_error)
        = HttpResponse status_code text json -> status_code <> 200 ->
        In (Log WARNING
              ("Could not delete token (will auto-expire in <1 hour). Status: "
               ++ Py.str_Z status_code))
           (run_trace campus_config (with_delete smooth_world server_error)))
  /\ (delete_outcome (with_delete smooth_world server_error)
      = HttpRaises Py.RequestException ->
      In (Log WARNING
            "Network error during token cleanup (will auto-expire): RequestException")
         (run_trace campus_config (with_delete smooth_world server_error))).
Proof.
  apply (failed_release_is_only_a_warning campus_config (with_delete smooth_world server_error));
    reflexivity.
Defined.

Lemma undisturbed_cleanup_returns cfg w p :
  parts_ok cfg w p -> cleanup_undisturbed w = true -> cleanup_result p = Return tt.
Proof.
  intros Hp Hu. destruct (locals_at_cleanup cfg w p Hp) as (Et & Ed & _).
  destruct Hp as (_ & _ & _ & _ & _ & _ & _ & _ & R & _).
  unfold reaches_release in R. rewrite Et, Ed in R.
  unfold cleanup_undisturbed in Hu.
  destruct (browser_opened w), (teardown_contained w), (Py.truthy (token_id_of w)),
    (release_contained w); try discriminate Hu; exact R.
Qed.

(** X15.  If the [try] block of [main] ends with an exception that no
    helper handled, [main] logs it (a warning for [KeyboardInterrupt],
    an error with the exception otherwise), enters the [finally] block,
    and does not end with status 0; when the cleanup calls raise nothing
    their handlers let through it logs the FAILED summary and ends with
    status 1. *)
Theorem stray_exception_is_caught cfg w e :
  config_incomplete cfg = false ->
  snd (main_try cfg w fresh_locals) = Raise (Py.Err e) ->
  In (if Py.is_KeyboardInterrupt (Py.Err e)
      then Log WARNING "Script interrupted by user."
      else Log ERROR ("Unexpected error: " ++ Py.exc_str (Py.Err e)))
     (run_trace cfg w)
  /\ In EnterCleanup (run_trace cfg w)
  /\ exit_status cfg w <> Exit 0
  /\ (cleanup_undisturbed w = true ->
      exit_status cfg w = Exit 1
      /\ In (Log ERROR "FAILED - Attendance report was not requested")
            (run_trace cfg w)).
Proof.
  intros Hc He. destruct (run_shape cfg w Hc) as [p Hp].
  assert (E1 : main_try cfg w fresh_locals = (try_events p, try_locals p, try_result p))
    by apply Hp.
  rewrite E1 in He. cbn in He.
  assert (Hs : stage_reached w <> Confirmed).
  { intros Hs. destruct Hp as (_ & _ & _ & _ & S & _). rewrite Hs in S.
    destruct S as [_ S]. congruence. }
  assert (Er : run cfg w
               = ((prelude ++ try_events p ++ caught_log (try_result p)
                   ++ (EnterCleanup :: cleanup_events p)
                   ++ fst (verdict cfg (success (try_locals p)) (try_result p)
                             (cleanup_result p)))%list,
                  snd (verdict cfg (success (try_locals p)) (try_result p)
                         (cleanup_result p)))) by apply Hp.
  split; [|split; [|split]].
  - unfold run_trace. rewrite Er. cbn [fst]. rewrite He.
    rewrite !in_app_iff. right. right. left. destruct e; cbn; auto.
  - now apply cleanup_entered.
  - intros H0. now apply (exit_zero_confirmed cfg w Hc) in H0.
  - intros Hu. split.
    + rewrite (exit_status_exact cfg w Hc Hu). destruct (stage_reached w); congruence.
    + destruct (locals_at_cleanup cfg w p Hp) as (_ & _ & Es).
      unfold run_trace. rewrite Er. cbn [fst].
      rewrite (undisturbed_cleanup_returns cfg w p Hp Hu), He, Es.
      rewrite !in_app_iff. right. right. right. right.
      destruct (stage_reached w); try congruence; cbn; auto.
Qed.

Lemma stray_exception_is_caught_witness :
  In (Log WARNING "Script interrupted by user.")
     (run_trace campus_config (with_post smooth_world (HttpRaises Py.KeyboardInterrupt)))
  /\ In EnterCleanup
        (run_trace campus_config (with_post smooth_world (HttpRaises Py.KeyboardInterrupt)))
  /\ exit_status campus_config (with_post smooth_world (HttpRaises Py.KeyboardInterrupt))
     <> Exit 0
  /\ (cleanup_undisturbed (with_post smooth_world (HttpRaises Py.KeyboardInterrupt)) = true ->
      exit_status campus_config (with_post smooth_world (HttpRaises Py.KeyboardInterrupt))
      = Exit 1
      /\ In (Log ERROR "FAILED - Attendance report was not requested")
            (run_trace campus_config
               (with_post smooth_world (HttpRaises Py.KeyboardInterrupt)))).
Proof.
  apply (stray_exception_is_caught campus_config
           (with_post smooth_world (HttpRaises Py.KeyboardInterrupt)) Py.KeyboardInterrupt);
    reflexivity.
Defined.

Lemma delete_no_error cfg w tid :
  count is_error_log (fst (delete_temporary_token cfg w tid)) = 0%nat.
Proof.
  unfold delete_temporary_token.
  destruct (delete_outcome w) as [[]|st txt js]; try destruct (st =? 200); reflexivity.
Qed.

(** X16.  If the [try] block of [main] ends in a [sys.exit] (of a helper
    or of [main] itself), the exit code is 1, the [finally] block is still
    entered, and nothing is logged at ERROR level from there on: the run
    ends after the cleanup without the FAILED summary. *)
Theorem early_exit_skips_summary cfg w c :
  config_incomplete cfg = false ->
  snd (main_try cfg w fresh_locals) = Raise (Py.SystemExit c) ->
  c = 1
  /\ (cleanup_undisturbed w = true -> exit_status cfg w = Exit 1)
  /\ exists before after,
      run_trace cfg w = (before ++ EnterCleanup :: after)%list
      /\ forallb is_try_event before = true
      /\ forallb is_cleanup_event after = true
      /\ count is_error_log after = 0%nat.
Proof.
  intros Hc He.
  destruct (run_anatomy cfg w Hc) as (l & r1 & r2 & E1 & Et & Ed & Es & E).
  rewrite E1 in He. cbn in He. subst r1.
  assert (Hs : stage_reached w <> Confirmed).
  { intros Hs. destruct (main_try_shape cfg w) as (t & l' & r & E1' & _ & _ & S).
    rewrite Hs in S. destruct S as [_ S]. congruence. }
  split; [|split].
  - destruct (main_try_shape cfg w) as (t & l' & r & E1' & _ & X & _).
    rewrite E1 in E1'. injection E1' as _ _ <-. exact X.
  - intros Hu. rewrite (exit_status_exact cfg w Hc Hu).
    destruct (stage_reached w); congruence.
  - exists (prelude ++ try_trace cfg w)%list,
      ((if driver l is Some _ then [Log INFO "Closing browser..."; BrowserQuit] else [])
       ++ (if release_due w l
           then fst (delete_temporary_token cfg w (temp_token_id l)) else []))%list.
    split; [|split; [|split]].
    + unfold run_trace. rewrite E. cbn [fst caught_log]. unfold cleanup_trace.
      assert (V : fst (verdict cfg (success l) (Raise (Py.SystemExit c)) r2) = [])
        by (now destruct r2 as [|[|]]).
      rewrite V, app_nil_r. cbn [app]. now rewrite <- !app_assoc.
    + rewrite forallb_app, try_trace_class. reflexivity.
    + rewrite forallb_app. apply andb_true_iff. split; [now destruct (driver l)|].
      destruct (release_due w l); [|reflexivity].
      destruct (delete_shape cfg w (temp_token_id l)) as (t & r & Edel & F & _).
      rewrite Edel. cbn [fst forallb is_cleanup_event andb].
      apply (forallb_weaken _ _ _ F). now intros [].
    + rewrite count_app.
      destruct (release_due w l); [rewrite delete_no_error|]; now destruct (driver l).
Qed.

Lemma early_exit_skips_summary_witness :
  1 = 1
  /\ (cleanup_undisturbed (with_post smooth_world unauthorized) = true ->
      exit_status campus_config (with_post smooth_world unauthorized) = Exit 1)
  /\ exists before after,
      run_trace campus_config (with_post smooth_world unauthorized)
      = (before ++ EnterCleanup :: after)%list
      /\ forallb is_try_event before = true
      /\ forallb is_cleanup_event after = true
      /\ count is_error_log after = 0%nat.
Proof.
  apply (early_exit_skips_summary campus_config (with_post smooth_world unauthorized) 1);
    reflexivity.
Defined.

(** ** The credentials *)

Lemma map_fixed (f : event -> event) t :
  (forall ev, In ev t -> f ev = ev) -> map f t = t.
Proof.
  induction t as [|a t IH]; intros H; [reflexivity|].
  cbn. rewrite (H a) by now left. f_equal. apply IH. intros ev Hin. apply H. now right.
Qed.














Lemma retoken_fixed v t :
  (forall ev, In ev t -> is_get ev = false) -> map (retoken v) t = t.
Proof.
  intros H. apply map_fixed. intros ev Hin. specialize (H ev Hin). now destruct ev.
Qed.

Lemma retoken_logs v t : forallb is_log t = true -> map (retoken v) t = t.
Proof.
  intros F. apply retoken_fixed. intros ev H.
  apply (logs_only _ _ F) in H. now destruct ev.
Qed.

Lemma get_retoken cfg w tok v :
  get_sessionless_launch_url cfg w v
  = (map (retoken v) (fst (get_sessionless_launch_url cfg w tok)),
     snd (get_sessionless_launch_url cfg w tok)).
Proof.
  unfold get_sessionless_launch_url.
  destruct (get_outcome w) as [[]|st txt [[]|d]];
    try destruct (st =? 200); try destruct (Py.truthy _); reflexivity.
Qed.

Lemma acquisition_post w tok tid :
  acquisition w = Some (tok, tid) ->
  exists text d,
    post_outcome w = HttpResponse 200 text (JsonDict d)
    /\ Py.dict_get "visible_token" d = tok /\ Py.dict_get "id" d = tid
    /\ Py.truthy tok = true.
Proof.
  unfold acquisition.
  destruct (post_outcome w) as [e|st txt [e|d]]; try discriminate.
  destruct (Z.eqb_spec st 200) as [->|]; [|discriminate]. cbn [andb].
  destruct (Py.truthy _) eqn:T; [|discriminate].
  intros H. injection H as <- <-. now exists txt, d.
Qed.

Lemma main_try_retoken cfg w v tok tid l :
  acquisition w = Some (tok, tid) -> Py.truthy v = true ->
  main_try cfg (with_visible_token w v) l
  = (map (retoken v) (fst (fst (main_try cfg w l))),
     snd (fst (main_try cfg w l)), snd (main_try cfg w l)).
Proof.
  intros Ha Hv. destruct (acquisition_post w tok tid Ha) as (txt & d & Ep & Et & Ei & Ht).
  assert (Ha' : acquisition (with_visible_token w v) = Some (v, tid)).
  { unfold with_visible_token. rewrite Ep. unfold acquisition. cbn.
    now rewrite Hv, Ei. }
  unfold main_try. cbn [bind Monad_M lift].
  rewrite (create_acquired cfg _ _ Ha'), (create_acquired cfg w _ Ha). cbn.
  assert (Eg : get_sessionless_launch_url cfg (with_visible_token w v) v
               = get_sessionless_launch_url cfg w v).
  { unfold with_visible_token. now rewrite Ep. }
  rewrite Eg, (get_retoken cfg w tok v).
  destruct (get_sessionless_launch_url cfg w tok) as [t2 [url|e2]]; cbn; [|reflexivity].
  destruct (Py.truthy url); cbn; [|now rewrite !map_app].
  assert (Ed : calculate_date_range (with_visible_token w v) = calculate_date_range w).
  { unfold with_visible_token. now rewrite Ep. }
  rewrite Ed.
  destruct (calculate_date_range_shape w) as (rd & Ed' & Rd). rewrite Ed'. cbn.
  destruct Rd as [->|[[s e] ->]]; cbn; [now rewrite !map_app, ?app_nil_r|].
  assert (Eb : configure_chrome_driver cfg (with_visible_token w v)
               = configure_chrome_driver cfg w).
  { unfold with_visible_token. now rewrite Ep. }
  assert (En : now_main (with_visible_token w v) = now_main w).
  { unfold with_visible_token. now rewrite Ep. }
  rewrite Eb, En.
  assert (F4 : map (retoken v) (fst (configure_chrome_driver cfg w))
               = fst (configure_chrome_driver cfg w)).
  { apply retoken_fixed. intros ev H. apply configure_events in H.
    destruct H as [H|[->| ->]]; [now destruct ev | reflexivity | reflexivity]. }
  revert F4.
  destruct (configure_chrome_driver cfg w) as [t4 [drv|e4]]; cbn; intros F4;
    [|now rewrite !map_app; cbn; rewrite ?map_app, F4].
  assert (Es : submit_attendance_report_form cfg (with_visible_token w v) drv s e url
               = submit_attendance_report_form cfg w drv s e url).
  { unfold with_visible_token. now rewrite Ep. }
  rewrite Es.
  assert (F5 : map (retoken v) (fst (submit_attendance_report_form cfg w drv s e url))
               = fst (submit_attendance_report_form cfg w drv s e url)).
  { apply retoken_fixed. intros ev H. apply submit_events in H.
    destruct H as [H|H]; [now destruct ev|].
    unfold form_calls in H. repeat (destruct H as [<-|H]; [reflexivity|]). contradiction. }
  revert F5.
  destruct (submit_attendance_report_form cfg w drv s e url) as [t5 [ok|e5]]; cbn;
    intros F5; rewrite !map_app; cbn; rewrite ?map_app, ?app_nil_r, F4, F5; reflexivity.
Qed.

Lemma filter_retoken v t :
  filter is_log (map (retoken v) t) = filter is_log t.
Proof.
  induction t as [|a t IH]; [reflexivity|]. cbn. rewrite IH. now destruct a.
Qed.

(** X18.  The temporary token enters a run only as the credential of the
    launch request.  If the token endpoint hands out another truthy
    secret, all else equal, the run is the same but for that credential
    in the GET: same exit status, same log lines. *)
Theorem temporary_token_only_in_launch_bearer cfg w v tok tid :
  acquisition w = Some (tok, tid) -> Py.truthy v = true ->
  run cfg (with_visible_token w v)
  = (map (retoken v) (run_trace cfg w), exit_status cfg w)
  /\ filter is_log (run_trace cfg (with_visible_token w v))
     = filter is_log (run_trace cfg w).
Proof.
  intros Ha Hv.
  assert (R : run cfg (with_visible_token w v)
              = (map (retoken v) (run_trace cfg w), exit_status cfg w)).
  { destruct (config_incomplete cfg) eqn:Hc.
    - unfold run_trace, exit_status.
      rewrite (run_unconfigured cfg _ Hc), (run_unconfigured cfg w Hc). reflexivity.
    - destruct (main_try cfg w fresh_locals) as [[t1 l] r1] eqn:E1.
      destruct (main_finally_shape cfg w l) as (t2 & r2 & E2 & F2 & _).
      pose proof (main_try_retoken cfg w v tok tid fresh_locals Ha Hv) as E1'.
      rewrite E1 in E1'. cbn [fst snd] in E1'.
      assert (E2' : main_finally cfg (with_visible_token w v) l = (EnterCleanup :: t2, l, r2)).
      { rewrite <- E2. destruct (acquisition_post w tok tid Ha) as (txt & d & Ep & _).
        unfold with_visible_token. now rewrite Ep. }
      unfold run_trace, exit_status.
      rewrite (run_configured cfg _ _ _ _ _ _ Hc E1' E2').
      rewrite (run_configured cfg w _ _ _ _ _ Hc E1 E2). cbn [fst snd].
      rewrite !map_app.
      rewrite (retoken_logs v prelude) by reflexivity.
      rewrite (retoken_logs v _ (caught_log_logs r1)).
      rewrite (retoken_logs v _ (verdict_logs cfg (success l) r1 r2)).
      rewrite (retoken_fixed v (EnterCleanup :: t2)).
      + reflexivity.
      + intros ev [<-|H]; [reflexivity|].
        rewrite forallb_forall in F2. specialize (F2 ev H). now destruct ev. }
  split; [exact R|].
  unfold run_trace at 1. rewrite R. cbn [fst]. apply filter_retoken.
Qed.

Lemma temporary_token_only_in_launch_bearer_witness :
  run campus_config (with_visible_token smooth_world (Py.JStr "other"))
  = (map (retoken (Py.JStr "other")) (run_trace campus_config smooth_world),
     exit_status campus_config smooth_world)
  /\ filter is_log (run_trace campus_config (with_visible_token smooth_world (Py.JStr "other")))
     = filter is_log (run_trace campus_config smooth_world).
Proof.
  apply (temporary_token_only_in_launch_bearer campus_config smooth_world
           (Py.JStr "other") (Py.JStr "tok") (Py.JNum 7)); reflexivity.
Defined.
